(** * Palisades fire dashboard: the burn-severity pipeline

    A model of [code/src/dashboards/streamlit/palisades_fire_app.py]:
    [load_fire_datasets], [calculate_fire_indices], [classify_burn_severity]
    and [calculate_fire_statistics]; and of the start-up code:
    [get_gee_project_id] and [init_earth_engine] of the dashboard,
    [code/src/auth/gee_auth.py] and [run_dashboard.py].

    The Python functions do not touch pixels.  They build Earth Engine
    expression graphs by method chaining, and the imagery service evaluates
    them.  The model follows that split:

    - module [ee] holds the expression graphs (one constructor per client
      call the dashboard makes) and the meaning the service gives them, per
      pixel, as described in the Earth Engine API reference;
    - the dashboard functions are Rocq functions that build these graphs,
      written in a small monad for Python's exceptions and the warnings
      shown by Streamlit;
    - the start-up code runs in a world that holds the environment, the
      file system, the secrets and a trace of the library calls made; how
      a library call answers is left open.

    Pixel values are exact rationals; a masked pixel is [None]. *)

From Stdlib Require Import QArith ZArith List String Lia Lqa.
From stdpp Require Import gmap strings pretty.
Import ListNotations.
Local Open Scope Q_scope.
Local Open Scope string_scope.

(** ** Python outcomes: exceptions and Streamlit warnings *)

(** An instance of a subclass of Python's [Exception], with its message
    ([str(e)]). *)
Inductive Exception : Type := Exc (msg : string).

Definition str (e : Exception) : string := let 'Exc m := e in m.

Inductive outcome (A : Type) : Type :=
| Returned (a : A)
| Raised (e : Exception).
Arguments Returned {A} a.
Arguments Raised {A} e.

(** The state threaded through a call is the list of messages passed to
    [st.warning], oldest first. *)
Definition Py (A : Type) : Type := list string -> outcome A * list string.

Definition ret {A} (a : A) : Py A := fun w => (Returned a, w).

Definition raise {A} (e : Exception) : Py A := fun w => (Raised e, w).

Definition bind {A B} (m : Py A) (k : A -> Py B) : Py B :=
  fun w => match m w with
           | (Returned a, w') => k a w'
           | (Raised e, w') => (Raised e, w')
           end.

Notation "x <- m ;; k" := (bind m (fun x => k))
  (at level 100, m at next level, right associativity).
Notation "m ;;; k" := (bind m (fun _ => k))
  (at level 100, right associativity).

(** [try: body / except Exception as e: handler e]. *)
Definition try_except {A} (body : Py A) (handler : Exception -> Py A) : Py A :=
  fun w => match body w with
           | (Returned a, w') => (Returned a, w')
           | (Raised e, w') => handler e w'
           end.

Definition st_warning (msg : string) : Py unit :=
  fun w => (Returned tt, (w ++ [msg])%list).

(** [for i in range(n)] with an accumulator: runs [body 0], ..., [body (n-1)]
    in this order and stops at the first exception. *)
Fixpoint for_range_from {A} (start n : nat) (body : nat -> A -> Py A) (acc : A) : Py A :=
  match n with
  | O => ret acc
  | S n' => acc' <- body start acc ;; for_range_from (S start) n' body acc'
  end.

Definition for_range {A} (n : nat) (body : nat -> A -> Py A) (acc : A) : Py A :=
  for_range_from 0 n body acc.

(** ** Earth Engine: expression graphs and their meaning *)

(** A grid cell of the raster the service evaluates on. *)
Definition Pixel : Type := (Z * Z)%type.

(** A calendar date, as the number of days since 1970-01-01.  The dashboard
    passes dates as ['%Y-%m-%d'] strings; the service reads such a string as
    midnight UTC of that day. *)
Definition Date : Type := Z.

Definition millis (d : Date) : Z := (d * 86400000)%Z.

Inductive Geometry : Type :=
| Rectangle (west south east north : Q).

(** One item of an image collection. *)
Record Scene : Type := {
  system_time_start : Z;                            (* ms since the epoch *)
  footprint : Geometry;
  properties : list (string * Q);
  scene_bands : list (string * (Pixel -> option Q))
}.

(** The bands of an image at one pixel, in band order. *)
Definition Bands : Type := list (string * option Q).

Fixpoint assoc {A} (k : string) (l : list (string * A)) : option A :=
  match l with
  | [] => None
  | (k', v) :: l' => if String.eqb k k' then Some v else assoc k l'
  end.

Definition Qlt_bool (x y : Q) : bool := negb (Qle_bool y x).

Definition nonzero (q : Q) : bool := negb (Qeq_bool q 0).

Definition of_bool (b : bool) : Q := if b then 1 else 0.

(** The Earth Engine calls that the dashboard makes inside a [try] block and
    that the model lets fail: the band-name round trip of
    [calculate_fire_indices], and each client call of
    [calculate_fire_statistics] (those of the loop carry the class).  The
    calls of [calculate_fire_statistics] only build a deferred graph: one
    of them fails in the client library (for instance because Earth Engine
    was not initialised), never with an error of the computation, which
    runs when a result is fetched. *)
Inductive Call : Type :=
| Call_bandNames_getInfo
| Call_pixelArea
| Call_divide
| Call_gte
| Call_updateMask
| Call_reduceRegion
| Call_class_eq (i : nat)
| Call_class_updateMask (i : nat)
| Call_class_reduceRegion (i : nat).

(** What the parts of Earth Engine that the dashboard does not program
    provide: the catalogue, the geometry predicates, the median reducer, the
    area of a pixel, the pixels a region reduction visits at a scale (with
    the weight of each), and the exception, if any, with which a call
    fails. *)
Record Service : Type := {
  catalog : string -> list Scene;
  intersects : Geometry -> Geometry -> bool;
  contains : Geometry -> Pixel -> bool;
  median_reducer : list Q -> Q;
  pixel_area_m2 : Pixel -> Q;
  sample : Geometry -> Q -> list (Pixel * Q);
  failure : Call -> option Exception
}.

(** A call that returns [v] unless it fails. *)
Definition ee_call {A} (svc : Service) (c : Call) (v : A) : Py A :=
  match failure svc c with
  | Some e => raise e
  | None => ret v
  end.

Module ee.

Inductive Filter : Type :=
| Filter_lt (name : string) (value : Q).

Inductive ImageCollection : Type :=
| Collection (id : string)
| filterDate (c : ImageCollection) (start end_ : Date)
| filterBounds (c : ImageCollection) (g : Geometry)
| filter (c : ImageCollection) (f : Filter).

Inductive Image : Type :=
| Constant (value : Q)                              (* ee.Image(value) *)
| pixelArea
| median (c : ImageCollection)
| clip (i : Image) (g : Geometry)
| normalizedDifference (i : Image) (first second : string)
| rename (i : Image) (name : string)
| subtract (i j : Image)
| divide (i : Image) (by_ : Q)
| lt (i : Image) (value : Q)
| gte (i : Image) (value : Q)
| eq (i : Image) (value : Q)
| And (i j : Image)
| Where (i test : Image) (value : Q)
| updateMask (i mask : Image).

Inductive Reducer : Type := Reducer_sum.

(** [image.reduceRegion(reducer, geometry, scale, maxPixels)]: a deferred
    dictionary; nothing is computed until it is fetched. *)
Record Dictionary : Type := reduceRegion {
  input : Image;
  reducer : Reducer;
  geometry : Geometry;
  scale : Q;
  maxPixels : Q
}.

(** *** Per-pixel operations *)

(** [normalizedDifference]: (first - second) / (first + second); the
    output pixel is masked where an input is masked or negative.  Where
    the two inputs sum to zero the quotient is Rocq's [x / 0 = 0]; no
    statement below depends on that case. *)
Definition normalized_difference (x y : Q) : Q := (x - y) / (x + y).

Definition nd_pixel (a b : option Q) : option Q :=
  match a, b with
  | Some x, Some y =>
      if Qlt_bool x 0 || Qlt_bool y 0 then None
      else Some (normalized_difference x y)
  | _, _ => None
  end.

Definition subtract_pixel (a b : option Q) : option Q :=
  match a, b with
  | Some x, Some y => Some (x - y)
  | _, _ => None
  end.

Definition and_pixel (a b : option Q) : option Q :=
  match a, b with
  | Some x, Some y => Some (of_bool (nonzero x && nonzero y))
  | _, _ => None
  end.

(** [input.where(test, value)]: the constant [value] where [test] is
    non-zero, the input pixel elsewhere; the mask is that of the input. *)
Definition where_pixel (value : Q) (a t : option Q) : option Q :=
  match a with
  | None => None
  | Some x =>
      match t with
      | Some tv => if nonzero tv then Some value else Some x
      | None => Some x
      end
  end.

(** [input.updateMask(mask)]: the pixel stays valid where it was valid and
    the mask is valid and non-zero. *)
Definition updateMask_pixel (a m : option Q) : option Q :=
  match a, m with
  | Some x, Some mv => if nonzero mv then Some x else None
  | _, _ => None
  end.

Definition map_bands (f : option Q -> option Q) (bs : Bands) : Bands :=
  List.map (fun '(n, v) => (n, f v)) bs.

(** Band matching of a binary operation whose right operand has one band:
    that band is used against every band of the left operand, and the
    output keeps the left operand's band names.  The dashboard builds no
    binary operation with a multi-band right operand; the model gives
    such an operation no bands. *)
Definition zip_bands (f : option Q -> option Q -> option Q) (l r : Bands) : Bands :=
  match r with
  | [(_, b)] => List.map (fun '(n, a) => (n, f a b)) l
  | _ => []
  end.

(** The values a reducer sees for one band at one pixel: the unmasked
    pixels of the scenes that have the band. *)
Definition band_inputs (scenes : list Scene) (band : string) (p : Pixel) : list Q :=
  List.flat_map
    (fun s => match assoc band (scene_bands s) with
              | Some raster => match raster p with Some v => [v] | None => [] end
              | None => []
              end) scenes.

Section Semantics.

Variable svc : Service.

Definition matches (f : Filter) (s : Scene) : bool :=
  match f with
  | Filter_lt name value =>
      match assoc name (properties s) with
      | Some x => Qlt_bool x value
      | None => false
      end
  end.

(** [filterDate(start, end)] keeps [start <= system:time_start < end]:
    the start is inclusive and the end exclusive. *)
Definition in_date_range (start end_ : Date) (s : Scene) : bool :=
  (millis start <=? system_time_start s)%Z && (system_time_start s <? millis end_)%Z.

Fixpoint items (c : ImageCollection) : list Scene :=
  match c with
  | Collection id => catalog svc id
  | filterDate c' start end_ => List.filter (in_date_range start end_) (items c')
  | filterBounds c' g => List.filter (fun s => intersects svc (footprint s) g) (items c')
  | filter c' f => List.filter (matches f) (items c')
  end.

(** The median composite has the bands of the first item, and no band
    when the collection is empty. *)
Definition median_bands (scenes : list Scene) (p : Pixel) : Bands :=
  match scenes with
  | [] => []
  | s :: _ =>
      List.map (fun '(n, _) =>
             (n, match band_inputs scenes n p with
                 | [] => None
                 | vs => Some (median_reducer svc vs)
                 end)) (scene_bands s)
  end.

Fixpoint eval (i : Image) (p : Pixel) : Bands :=
  match i with
  | Constant value => [("constant", Some value)]
  | pixelArea => [("area", Some (pixel_area_m2 svc p))]
  | median c => median_bands (items c) p
  | clip i' g =>
      map_bands (fun v => if contains svc g p then v else None) (eval i' p)
  | normalizedDifference i' first second =>
      match assoc first (eval i' p), assoc second (eval i' p) with
      | Some a, Some b => [("nd", nd_pixel a b)]
      | _, _ => []
      end
  | rename i' name =>
      match eval i' p with
      | [(_, v)] => [(name, v)]
      | _ => []
      end
  | subtract i' j => zip_bands subtract_pixel (eval i' p) (eval j p)
  | divide i' by_ => map_bands (option_map (fun x => x / by_)) (eval i' p)
  | lt i' value => map_bands (option_map (fun x => of_bool (Qlt_bool x value))) (eval i' p)
  | gte i' value => map_bands (option_map (fun x => of_bool (Qle_bool value x))) (eval i' p)
  | eq i' value => map_bands (option_map (fun x => of_bool (Qeq_bool x value))) (eval i' p)
  | And i' j => zip_bands and_pixel (eval i' p) (eval j p)
  | Where i' test value => zip_bands (where_pixel value) (eval i' p) (eval test p)
  | updateMask i' mask => zip_bands updateMask_pixel (eval i' p) (eval mask p)
  end.

(** The band names of an image; they do not depend on the pixel. *)
Definition zip_names (l r : list string) : list string :=
  match r with
  | [_] => l
  | _ => []
  end.

Fixpoint bandNames (i : Image) : list string :=
  match i with
  | Constant _ => ["constant"]
  | pixelArea => ["area"]
  | median c =>
      match items c with
      | [] => []
      | s :: _ => List.map fst (scene_bands s)
      end
  | clip i' _ => bandNames i'
  | normalizedDifference i' first second =>
      if existsb (String.eqb first) (bandNames i')
         && existsb (String.eqb second) (bandNames i')
      then ["nd"] else []
  | rename i' name =>
      match bandNames i' with
      | [_] => [name]
      | _ => []
      end
  | subtract i' j => zip_names (bandNames i') (bandNames j)
  | divide i' _ => bandNames i'
  | lt i' _ => bandNames i'
  | gte i' _ => bandNames i'
  | eq i' _ => bandNames i'
  | And i' j => zip_names (bandNames i') (bandNames j)
  | Where i' test _ => zip_names (bandNames i') (bandNames test)
  | updateMask i' mask => zip_names (bandNames i') (bandNames mask)
  end.

(** [image.bandNames().getInfo()]: one round trip, which may fail. *)
Definition bandNames_getInfo (i : Image) : Py (list string) :=
  ee_call svc Call_bandNames_getInfo (bandNames i).

(** The pixel of a one-band image. *)
Definition value_at (i : Image) (p : Pixel) : option Q :=
  match eval i p with
  | [(_, v)] => v
  | _ => None
  end.

(** Fetching a sum reduction: the weighted sum of the valid pixels the
    region has at the scale; the service refuses a region with more than
    [maxPixels] pixels. *)
Definition weighted_sum (i : Image) (px : list (Pixel * Q)) : Q :=
  List.fold_right
    (fun '(p, w) acc => match value_at i p with
                        | Some v => v * w + acc
                        | None => acc
                        end) 0 px.

Definition fetch (d : Dictionary) : Exception + Q :=
  let px := sample svc (geometry d) (scale d) in
  if Qlt_bool (maxPixels d) (inject_Z (Z.of_nat (List.length px)))
  then inl (Exc "Too many pixels in the region")
  else inr (weighted_sum (input d) px).

End Semantics.

End ee.

(** ** The dashboard *)

(** *** [load_fire_datasets] *)

(** [(datetime.strptime(d, '%Y-%m-%d') + timedelta(days=n)).strftime('%Y-%m-%d')]
    on day numbers. *)
Definition plus_days (d : Date) (n : Z) : Date := (d + n)%Z.

Definition sentinel2 : ee.ImageCollection := ee.Collection "COPERNICUS/S2_SR_HARMONIZED".

(** The two filter chains, up to the call of [median]. *)
Definition before_collection (before_date : Date) (aoi : Geometry) : ee.ImageCollection :=
  let before_start := plus_days before_date (-180) in
  ee.filter
    (ee.filterBounds (ee.filterDate sentinel2 before_start before_date) aoi)
    (ee.Filter_lt "CLOUDY_PIXEL_PERCENTAGE" 20).

Definition after_collection (after_date : Date) (aoi : Geometry) : ee.ImageCollection :=
  let after_end := plus_days after_date 30 in
  ee.filter
    (ee.filterBounds (ee.filterDate sentinel2 after_date after_end) aoi)
    (ee.Filter_lt "CLOUDY_PIXEL_PERCENTAGE" 30).

Definition load_fire_datasets (before_date after_date : Date) (aoi : Geometry)
  : gmap string ee.Image :=
  let sentinel_before := ee.clip (ee.median (before_collection before_date aoi)) aoi in
  let sentinel_after := ee.clip (ee.median (after_collection after_date aoi)) aoi in
  list_to_map [("sentinel_before", sentinel_before);
               ("sentinel_after", sentinel_after)].

(** *** [calculate_fire_indices] *)

Definition nir_band : string := "B8".
Definition red_band : string := "B4".
Definition swir_band : string := "B12".
Definition green_band : string := "B3".

Definition required_bands : list string := [nir_band; red_band; swir_band; green_band].

(** [all(band in band_names for band in required_bands)]. *)
Definition all_in (required band_names : list string) : bool :=
  forallb (fun band => existsb (String.eqb band) band_names) required.

(** The dictionary both fallback branches return. *)
Definition empty_indices : gmap string ee.Image :=
  list_to_map [("nbr_before", ee.Constant 0);
               ("nbr_after", ee.Constant 0);
               ("dnbr", ee.Constant 0);
               ("ndvi_before", ee.Constant 0);
               ("ndvi_after", ee.Constant 0);
               ("ndwi_before", ee.Constant 0);
               ("ndwi_after", ee.Constant 0)].

(** The [try] block either returns from the function ([Some]) or falls
    through to the index computation ([None]). *)
Definition calculate_fire_indices (svc : Service) (before_img after_img : ee.Image)
  : Py (gmap string ee.Image) :=
  early <- try_except
             (band_names <- ee.bandNames_getInfo svc before_img ;;
              if negb (all_in required_bands band_names)
              then ret (Some empty_indices)
              else ret None)
             (fun _ => ret (Some empty_indices)) ;;
  match early with
  | Some result => ret result
  | None =>
      let nbr_before :=
        ee.rename (ee.normalizedDifference before_img nir_band swir_band) "NBR_before" in
      let nbr_after :=
        ee.rename (ee.normalizedDifference after_img nir_band swir_band) "NBR_after" in
      let dnbr := ee.rename (ee.subtract nbr_before nbr_after) "dNBR" in
      let ndvi_before :=
        ee.rename (ee.normalizedDifference before_img nir_band red_band) "NDVI_before" in
      let ndvi_after :=
        ee.rename (ee.normalizedDifference after_img nir_band red_band) "NDVI_after" in
      let ndwi_before :=
        ee.rename (ee.normalizedDifference before_img green_band nir_band) "NDWI_before" in
      let ndwi_after :=
        ee.rename (ee.normalizedDifference after_img green_band nir_band) "NDWI_after" in
      ret (list_to_map [("nbr_before", nbr_before);
                        ("nbr_after", nbr_after);
                        ("dnbr", dnbr);
                        ("ndvi_before", ndvi_before);
                        ("ndvi_after", ndvi_after);
                        ("ndwi_before", ndwi_before);
                        ("ndwi_after", ndwi_after)])
  end.

(** *** [classify_burn_severity] *)

(** Every test reads the argument [dnbr], not the partly replaced image. *)
Definition classify_burn_severity (dnbr : ee.Image) : ee.Image :=
  let severity :=
    ee.Where
      (ee.Where
         (ee.Where
            (ee.Where
               (ee.Where
                  (ee.Where dnbr (ee.lt dnbr (-0.1)) 0)
                  (ee.And (ee.gte dnbr (-0.1)) (ee.lt dnbr 0.1)) 1)
               (ee.And (ee.gte dnbr 0.1) (ee.lt dnbr 0.27)) 2)
            (ee.And (ee.gte dnbr 0.27) (ee.lt dnbr 0.44)) 3)
         (ee.And (ee.gte dnbr 0.44) (ee.lt dnbr 0.66)) 4)
      (ee.gte dnbr 0.66) 5 in
  ee.rename severity "burn_severity".

(** The part of [main] that fills [indices]. *)
Definition main_indices (svc : Service) (show_severity : bool)
    (before_date after_date : Date) (aoi : Geometry) : Py (gmap string ee.Image) :=
  let imagery := load_fire_datasets before_date after_date aoi in
  match imagery !! "sentinel_before", imagery !! "sentinel_after" with
  | Some before_img, Some after_img =>
      indices <- calculate_fire_indices svc before_img after_img ;;
      match indices !! "dnbr" with
      | Some dnbr =>
          if show_severity
          then ret (<["burn_severity" := classify_burn_severity dnbr]> indices)
          else ret indices
      | None => ret indices
      end
  | _, _ => ret ∅
  end.

(** *** [calculate_fire_statistics] *)

Record Statistics : Type := {
  burned_area : ee.Dictionary;
  severity_stats : gmap string ee.Dictionary
}.

(** [f'severity_{i}']. *)
Definition severity_key (i : nat) : string := "severity_" ++ pretty i.

(** [indices[key]]. *)
Definition subscript {A} (d : gmap string A) (key : string) : Py A :=
  match d !! key with
  | Some v => ret v
  | None => raise (Exc key)
  end.

(** The body of the [try] block. *)
Definition fire_statistics_try (svc : Service)
    (indices : gmap string ee.Image) (aoi : Geometry) : Py (option Statistics) :=
  if bool_decide (is_Some (indices !! "dnbr")) then
    dnbr <- subscript indices "dnbr" ;;
    area_image0 <- ee_call svc Call_pixelArea ee.pixelArea ;;
    area_image <- ee_call svc Call_divide (ee.divide area_image0 10000) ;;
    burned_mask <- ee_call svc Call_gte (ee.gte dnbr 0.1) ;;
    burned_area <- ee_call svc Call_updateMask (ee.updateMask area_image burned_mask) ;;
    burned_stats <- ee_call svc Call_reduceRegion
                      (ee.reduceRegion burned_area ee.Reducer_sum aoi 30 1000000000) ;;
    if bool_decide (is_Some (indices !! "burn_severity")) then
      severity <- subscript indices "burn_severity" ;;
      severity_stats <-
        for_range 6
          (fun i (stats : gmap string ee.Dictionary) =>
             mask <- ee_call svc (Call_class_eq i) (ee.eq severity (inject_Z (Z.of_nat i))) ;;
             masked <- ee_call svc (Call_class_updateMask i) (ee.updateMask area_image mask) ;;
             area <- ee_call svc (Call_class_reduceRegion i)
                       (ee.reduceRegion masked ee.Reducer_sum aoi 30 1000000000) ;;
             ret (<[severity_key i := area]> stats))
          ∅ ;;
      ret (Some {| burned_area := burned_stats; severity_stats := severity_stats |})
    else ret None
  else ret None.

(** [f"Could not calculate fire statistics: {e}"]. *)
Definition could_not_calculate (e : Exception) : string :=
  "Could not calculate fire statistics: " ++ str e.

Definition calculate_fire_statistics (svc : Service)
    (indices : gmap string ee.Image) (aoi : Geometry) : Py (option Statistics) :=
  try_except
    (fire_statistics_try svc indices aoi)
    (fun e =>
       st_warning (could_not_calculate e) ;;;
       ret None).

(** The rasters the function reduces when no call fails: the area raster,
    the area of the burned pixels, and the area of the pixels of one class. *)
Definition area_image : ee.Image := ee.divide ee.pixelArea 10000.

Definition burned_area_image (dnbr : ee.Image) : ee.Image :=
  ee.updateMask area_image (ee.gte dnbr 0.1).

Definition class_area_image (severity : ee.Image) (class : Q) : ee.Image :=
  ee.updateMask area_image (ee.eq severity class).

(** ** The specification's readings, for comparison with the code *)

(** The threshold table of the specification: the class of a difference
    index value [d]. *)
Definition table_class (d : Q) : Q :=
  if Qlt_bool d (-0.1) then 0
  else if Qlt_bool d 0.1 then 1
  else if Qlt_bool d 0.27 then 2
  else if Qlt_bool d 0.44 then 3
  else if Qlt_bool d 0.66 then 4
  else 5.

(** The specification's date window, closed at both ends. *)
Definition closed_window (lo hi : Date) (s : Scene) : bool :=
  (millis lo <=? system_time_start s)%Z && (system_time_start s <=? millis hi)%Z.

(** The cloud test the specification and the code share: the scene has the
    property and its value is strictly below the threshold. *)
Definition cloud_below (max_cloud_pct : Q) (s : Scene) : bool :=
  match assoc "CLOUDY_PIXEL_PERCENTAGE" (properties s) with
  | Some c => Qlt_bool c max_cloud_pct
  | None => false
  end.

(** Equality of pixels up to equality of rationals. *)
Definition pixel_eq (a b : option Q) : Prop :=
  match a, b with
  | Some x, Some y => x == y
  | None, None => True
  | _, _ => False
  end.

(** ** A small deployment, for concrete runs *)

Module Demo.

(** [ee.Geometry.Rectangle(PALISADES_FIRE_BBOX)]. *)
Definition aoi : Geometry := Rectangle (-118.65) 34.0 (-118.45) 34.15.

Definition flat (v : Q) : Pixel -> option Q := fun _ => Some v.

Definition scene (t : Z) (cloud nir red swir green : Q) : Scene :=
  {| system_time_start := t;
     footprint := aoi;
     properties := [("CLOUDY_PIXEL_PERCENTAGE", cloud)];
     scene_bands := [("B3", flat green); ("B4", flat red);
                     ("B8", flat nir); ("B12", flat swir)] |}.

(** 2024-11-01 and 2025-02-01 as day numbers. *)
Definition before_date : Date := 20028%Z.
Definition after_date : Date := 20120%Z.

(** Acquired at midnight UTC of [before_date], nearly cloud free. *)
Definition midnight_scene : Scene := scene (millis before_date) 5 3000 500 1000 400.

Definition healthy : Scene := scene (millis 20000 + 66600000)%Z 5 3000 500 1000 400.
Definition burned : Scene := scene (millis 20125 + 66600000)%Z 5 1000 500 1400 400.
Definition cloudy : Scene := scene (millis 20010 + 66600000)%Z 50 1 1 1 1.

Definition first_or_zero (l : list Q) : Q :=
  match l with
  | x :: _ => x
  | [] => 0
  end.

Definition service (scenes : list Scene) (fails : Call -> option Exception) : Service :=
  {| catalog := fun id =>
       if String.eqb id "COPERNICUS/S2_SR_HARMONIZED" then scenes else [];
     intersects := fun _ _ => true;
     contains := fun _ _ => true;
     median_reducer := first_or_zero;
     pixel_area_m2 := fun _ => 900;
     sample := fun _ _ => [((0, 0)%Z, 1); ((0, 1)%Z, 1); ((1, 0)%Z, 1 # 2)];
     failure := fails |}.

Definition no_failure : Call -> option Exception := fun _ => None.

Definition svc : Service := service [healthy; cloudy; burned] no_failure.

Definition svc_midnight : Service := service [midnight_scene] no_failure.

(** Earth Engine was not initialised: the first client call of
    [calculate_fire_statistics] raises in the client library. *)
Definition client_not_initialized : Call -> option Exception :=
  fun c => match c with
           | Call_pixelArea => Some (Exc "Earth Engine client library not initialized.")
           | _ => None
           end.

(** A service whose region has 1,000,000,001 pixels at every scale, one
    more than the cap [maxPixels=1e9] of the reductions; no client call
    fails. *)
Definition crowded : Service :=
  {| catalog := fun id =>
       if String.eqb id "COPERNICUS/S2_SR_HARMONIZED" then [healthy; cloudy; burned] else [];
     intersects := fun _ _ => true;
     contains := fun _ _ => true;
     median_reducer := first_or_zero;
     pixel_area_m2 := fun _ => 900;
     sample := fun _ _ => repeat ((0, 0)%Z, 1) (Z.to_nat 1000000001);
     failure := no_failure |}.

Definition before_img : ee.Image := ee.clip (ee.median (before_collection before_date aoi)) aoi.
Definition after_img : ee.Image := ee.clip (ee.median (after_collection after_date aoi)) aoi.

Definition dnbr : ee.Image :=
  ee.rename
    (ee.subtract
       (ee.rename (ee.normalizedDifference before_img nir_band swir_band) "NBR_before")
       (ee.rename (ee.normalizedDifference after_img nir_band swir_band) "NBR_after"))
    "dNBR".

Definition indices : gmap string ee.Image :=
  <["burn_severity" := classify_burn_severity dnbr]> (<["dnbr" := dnbr]> ∅).

Definition class_area (i : nat) : ee.Dictionary :=
  ee.reduceRegion
    (class_area_image (classify_burn_severity dnbr) (inject_Z (Z.of_nat i)))
    ee.Reducer_sum aoi 30 1000000000.

Definition stats : Statistics :=
  {| burned_area :=
       ee.reduceRegion (burned_area_image dnbr) ee.Reducer_sum aoi 30 1000000000;
     severity_stats :=
       list_to_map (List.map (fun i => (severity_key i, class_area i)) (seq 0 6)) |}.

End Demo.

(** ** The dates of the sidebar *)

(** [datetime(y, m, d)] as a day number (proleptic Gregorian calendar). *)
Definition datetime (y m d : Z) : Date :=
  let y' := if (m <=? 2)%Z then (y - 1)%Z else y in
  let era := (y' / 400)%Z in
  let yoe := (y' - era * 400)%Z in
  let mp := if (m <=? 2)%Z then (m + 9)%Z else (m - 3)%Z in
  let doy := ((153 * mp + 2) / 5 + d - 1)%Z in
  let doe := (yoe * 365 + yoe / 4 - yoe / 100 + doy)%Z in
  (era * 146097 + doe - 719468)%Z.

(** [create_sidebar]: the latest before date and the earliest after date
    the two date inputs accept, and [PALISADES_FIRE_START_DATE]. *)
Definition before_date_max : Date := datetime 2025 1 6.
Definition after_date_min : Date := datetime 2025 1 8.
Definition PALISADES_FIRE_START_DATE : Date := datetime 2025 1 7.

(** ** The area of the valid pixels *)

(** The weighted area, in hectares, of the sampled pixels at which a
    one-band raster is valid. *)
Definition valid_area (svc : Service) (i : ee.Image) (px : list (Pixel * Q)) : Q :=
  List.fold_right
    (fun '(p, w) acc => match ee.value_at svc i p with
                        | Some _ => pixel_area_m2 svc p / 10000 * w + acc
                        | None => acc
                        end) 0 px.

(** ** Start-up: authentication and launch *)

(** The start-up code of [auth/gee_auth.py], of the dashboard and of
    [run_dashboard.py] reads the environment, the file system and the
    Streamlit secrets, calls third-party libraries that may raise, and
    reports through the logger, Streamlit widgets and [print].  The model
    threads all of this through a world. *)

(** The class of a raised object.  [KeyboardInterrupt] and [SystemExit]
    are not subclasses of [Exception]. *)
Inductive ExcClass : Type :=
| ValueError
| KeyError
| FileNotFoundError
| ImportError
| EEException
| OtherException
| KeyboardInterrupt
| SystemExit (code : Z).

Record Raise : Type := {
  exc_class : ExcClass;
  exc_message : string                  (* str(e) *)
}.

Definition is_Exception (e : Raise) : bool :=
  match exc_class e with
  | KeyboardInterrupt | SystemExit _ => false
  | _ => true
  end.

Definition is_ImportError (e : Raise) : bool :=
  match exc_class e with ImportError => true | _ => false end.

Definition is_EEException (e : Raise) : bool :=
  match exc_class e with EEException => true | _ => false end.

Definition is_KeyboardInterrupt (e : Raise) : bool :=
  match exc_class e with KeyboardInterrupt => true | _ => false end.

Definition is_KeyError_or_FileNotFoundError (e : Raise) : bool :=
  match exc_class e with KeyError | FileNotFoundError => true | _ => false end.

(** The third-party calls of the start-up code. *)
Inductive LibCall : Type :=
| pyproj_set_data_dir
| ee_ServiceAccountCredentials (key_file : string)
| ee_Initialize (credentials : option string) (project : option string) (url : option string)
| ee_Authenticate
| ee_Image_getInfo                                       (* ee.Image(1).getInfo() *)
| import_module (name : string)
| load_dotenv (path : string)
| subprocess_run (cmd : list string) (cwd : string).

(** How the libraries answer: the object a call raises, if any, given the
    calls made before it. *)
Definition Libs : Type := list LibCall -> LibCall -> option Raise.

Inductive Level : Type := INFO | WARNING | ERROR.

Inductive Widget : Type := st_warning_box | st_info_box.

Record World : Type := {
  environ : gmap string string;                           (* os.environ *)
  existing_paths : gset string;                           (* os.path.exists *)
  secrets : option (gmap string (gmap string string));    (* st.secrets; None: no secrets file *)
  dotenv_file : gmap string string;                       (* the variables of the .env file *)
  calls : list LibCall;                                   (* library calls made, oldest first *)
  logged : list (Level * string);
  shown : list (Widget * string);
  printed : list string
}.

Definition IO (A : Type) : Type := World -> (Raise + A) * World.

Definition io_ret {A} (a : A) : IO A := fun w => (inr a, w).

Definition io_raise {A} (e : Raise) : IO A := fun w => (inl e, w).

Definition io_bind {A B} (m : IO A) (k : A -> IO B) : IO B :=
  fun w => match m w with
           | (inr a, w') => k a w'
           | (inl e, w') => (inl e, w')
           end.

Notation "x <~ m ;; k" := (io_bind m (fun x => k))
  (at level 100, m at next level, right associativity).
Notation "m ;;> k" := (io_bind m (fun _ => k))
  (at level 100, right associativity).

(** [try: body / except <classes> as e: handler e]; an object the clause
    does not name goes on. *)
Definition io_try {A} (body : IO A) (caught : Raise -> bool) (handler : Raise -> IO A)
  : IO A :=
  fun w => match body w with
           | (inr a, w') => (inr a, w')
           | (inl e, w') => if caught e then handler e w' else (inl e, w')
           end.

Definition set_environ (f : gmap string string -> gmap string string) : IO unit :=
  fun w => (inr tt,
            {| environ := f (environ w); existing_paths := existing_paths w;
               secrets := secrets w; dotenv_file := dotenv_file w;
               calls := calls w; logged := logged w; shown := shown w;
               printed := printed w |}).

(** [os.getenv(key)], [os.getenv(key, default)], [os.environ[key] = value]. *)
Definition getenv (key : string) : IO (option string) :=
  fun w => (inr (environ w !! key), w).

Definition getenv_default (key default : string) : IO string :=
  fun w => (inr (match environ w !! key with Some v => v | None => default end), w).

Definition setenv (key value : string) : IO unit :=
  set_environ (fun env => <[key := value]> env).

Definition path_exists (path : string) : IO bool :=
  fun w => (inr (bool_decide (path ∈ existing_paths w)), w).

(** A library call: it is recorded, then it returns or raises. *)
Definition lib (libs : Libs) (c : LibCall) : IO unit :=
  fun w =>
    let w' := {| environ := environ w; existing_paths := existing_paths w;
                 secrets := secrets w; dotenv_file := dotenv_file w;
                 calls := (calls w ++ [c])%list; logged := logged w; shown := shown w;
                 printed := printed w |} in
    match libs (calls w) c with
    | Some e => (inl e, w')
    | None => (inr tt, w')
    end.

Definition logger (level : Level) (msg : string) : IO unit :=
  fun w => (inr tt,
            {| environ := environ w; existing_paths := existing_paths w;
               secrets := secrets w; dotenv_file := dotenv_file w;
               calls := calls w; logged := (logged w ++ [(level, msg)])%list;
               shown := shown w; printed := printed w |}).

Definition st_show (widget : Widget) (msg : string) : IO unit :=
  fun w => (inr tt,
            {| environ := environ w; existing_paths := existing_paths w;
               secrets := secrets w; dotenv_file := dotenv_file w;
               calls := calls w; logged := logged w;
               shown := (shown w ++ [(widget, msg)])%list; printed := printed w |}).

Definition print (msg : string) : IO unit :=
  fun w => (inr tt,
            {| environ := environ w; existing_paths := existing_paths w;
               secrets := secrets w; dotenv_file := dotenv_file w;
               calls := calls w; logged := logged w; shown := shown w;
               printed := (printed w ++ [msg])%list |}).

(** The truth value of an [Optional[str]]: [None] and [''] are false. *)
Definition truthy (o : option string) : bool :=
  match o with
  | Some s => negb (String.eqb s "")
  | None => false
  end.

(** The string of an [Optional[str]] known to be true. *)
Definition text (o : option string) : string :=
  match o with
  | Some s => s
  | None => ""
  end.

(** [os.path.join(a, b)] for a relative [b], on POSIX. *)
Fixpoint ends_with_slash (s : string) : bool :=
  match s with
  | EmptyString => false
  | String c EmptyString => String.eqb (String c EmptyString) "/"
  | String _ rest => ends_with_slash rest
  end.

Definition path_join (a b : string) : string :=
  if String.eqb a "" then b
  else if ends_with_slash a then a ++ b
  else a ++ "/" ++ b.

Module gee_auth.

Definition set_proj_data (libs : Libs) : IO unit :=
  io_try
    (lib libs pyproj_set_data_dir ;;>
     conda_prefix <~ getenv "CONDA_PREFIX" ;;
     if truthy conda_prefix then
       let proj_data_path := path_join (path_join (text conda_prefix) "share") "proj" in
       found <~ path_exists proj_data_path ;;
       if found then
         setenv "PROJ_DATA" proj_data_path ;;>
         setenv "PROJ_LIB" proj_data_path ;;>
         logger INFO ("Set PROJ_DATA to: " ++ proj_data_path)
       else io_ret tt
     else io_ret tt)
    is_Exception
    (fun e => logger WARNING ("Could not set PROJ_DATA automatically: " ++ exc_message e)).

Definition test_connection (libs : Libs) : IO bool :=
  io_try
    (lib libs ee_Image_getInfo ;;>
     logger INFO "Earth Engine connection test successful" ;;>
     io_ret true)
    is_Exception
    (fun e =>
       logger ERROR ("Earth Engine connection test failed: " ++ exc_message e) ;;>
       io_ret false).

Definition high_volume_url : string := "https://earthengine-highvolume.googleapis.com".

Definition project_id_missing : Raise :=
  {| exc_class := ValueError;
     exc_message := "Project ID must be provided or set in GEE_PROJECT_ID environment variable" |}.

(** The project id in force: the argument when it is true, else the
    environment variable, else [ValueError]. *)
Definition resolve_project_id (project_id : option string) : IO string :=
  if negb (truthy project_id) then
    project_id <~ getenv "GEE_PROJECT_ID" ;;
    if negb (truthy project_id) then io_raise project_id_missing
    else io_ret (text project_id)
  else io_ret (text project_id).

Definition credentials_not_found : Raise :=
  {| exc_class := ValueError;
     exc_message := "Service account credentials file not found. Set GOOGLE_APPLICATION_CREDENTIALS environment variable or provide credentials_path." |}.

Definition service_account_branch (libs : Libs) (project_id : string)
    (credentials_path : option string) (use_high_volume : bool) : IO unit :=
  credentials_path <~ (if negb (truthy credentials_path)
                       then getenv "GOOGLE_APPLICATION_CREDENTIALS"
                       else io_ret credentials_path) ;;
  found <~ (if truthy credentials_path
            then path_exists (text credentials_path)
            else io_ret false) ;;
  if negb (truthy credentials_path) || negb found then io_raise credentials_not_found
  else
    lib libs (ee_ServiceAccountCredentials (text credentials_path)) ;;>
    (if use_high_volume
     then lib libs (ee_Initialize (Some (text credentials_path)) (Some project_id)
                      (Some high_volume_url))
     else lib libs (ee_Initialize (Some (text credentials_path)) (Some project_id) None)) ;;>
    logger INFO ("Initialized Earth Engine with service account for project: " ++ project_id).

Definition user_branch (libs : Libs) (project_id : string) : IO unit :=
  io_try
    (lib libs (ee_Initialize None (Some project_id) None) ;;>
     logger INFO ("Initialized Earth Engine with existing credentials for project: "
                  ++ project_id))
    is_EEException
    (fun _ =>
       logger INFO "Existing credentials not found, starting authentication..." ;;>
       lib libs ee_Authenticate ;;>
       lib libs (ee_Initialize None (Some project_id) None) ;;>
       logger INFO ("Authenticated and initialized Earth Engine for project: " ++ project_id)).

Definition initialize_ee (libs : Libs) (project_id : option string)
    (use_service_account : bool) (credentials_path : option string)
    (use_high_volume : bool) : IO bool :=
  io_try
    (set_proj_data libs ;;>
     project_id <~ resolve_project_id project_id ;;
     (if use_service_account
      then service_account_branch libs project_id credentials_path use_high_volume
      else user_branch libs project_id) ;;>
     _connected <~ test_connection libs ;;
     io_ret true)
    is_Exception
    (fun e =>
       logger ERROR ("Failed to initialize Earth Engine: " ++ exc_message e) ;;>
       io_ret false).

End gee_auth.

(** *** The dashboard's own start-up functions *)

(** [st.secrets[section][key]]: [FileNotFoundError] without a secrets file,
    [KeyError] for a missing section or key. *)
Definition st_secrets (section key : string) : IO string :=
  fun w =>
    match secrets w with
    | None => (inl {| exc_class := FileNotFoundError; exc_message := "secrets.toml" |}, w)
    | Some s =>
        match s !! section with
        | None => (inl {| exc_class := KeyError; exc_message := section |}, w)
        | Some sec =>
            match sec !! key with
            | None => (inl {| exc_class := KeyError; exc_message := key |}, w)
            | Some v => (inr v, w)
            end
        end
    end.

Definition get_gee_project_id : IO string :=
  io_try
    (st_secrets "gee" "project_id")
    is_KeyError_or_FileNotFoundError
    (fun _ => getenv_default "GEE_PROJECT_ID" "ee-jonahlipsitt").

Definition demo_mode_warning : string :=
  "⚠️ Running in DEMO mode - Google Earth Engine not available".

(** One call, without the cache of [st.cache_resource]. *)
Definition init_earth_engine (libs : Libs) : IO bool :=
  io_try
    (project_id <~ get_gee_project_id ;;
     success <~ gee_auth.initialize_ee libs (Some project_id) false None false ;;
     if success then io_ret true
     else
       st_show st_warning_box demo_mode_warning ;;>
       st_show st_info_box "📝 To enable live satellite data analysis:" ;;>
       st_show st_info_box
         "1. Visit: https://developers.google.com/earth-engine/guides/access" ;;>
       st_show st_info_box "2. Sign up for Earth Engine access" ;;>
       st_show st_info_box "3. Run: `earthengine authenticate`" ;;>
       io_ret false)
    is_Exception
    (fun _ =>
       st_show st_warning_box demo_mode_warning ;;>
       st_show st_info_box
         "📝 You can still explore the dashboard interface and methodology" ;;>
       io_ret false).

Module run_dashboard.

(** A line feed. *)
Definition nl : string := String (Ascii.ascii_of_nat 10) "".

Definition required_checks : list (string * string) :=
  [("streamlit", "streamlit");
   ("geemap", "geemap");
   ("earthengine-api", "ee");
   ("folium", "folium");
   ("plotly", "plotly");
   ("pandas", "pandas")].

(** The loop over [required_checks]; [missing] is the list built so far. *)
Fixpoint find_missing (libs : Libs) (checks : list (string * string)) (missing : list string)
  : IO (list string) :=
  match checks with
  | [] => io_ret missing
  | (package_name, import_name) :: rest =>
      missing' <~ io_try
                    (lib libs (import_module import_name) ;;> io_ret missing)
                    is_ImportError
                    (fun _ => io_ret (missing ++ [package_name])%list) ;;
      find_missing libs rest missing'
  end.

Fixpoint print_each (lines : list string) : IO unit :=
  match lines with
  | [] => io_ret tt
  | line :: rest => print line ;;> print_each rest
  end.

Definition check_requirements (libs : Libs) : IO bool :=
  missing_packages <~ find_missing libs required_checks [] ;;
  match missing_packages with
  | _ :: _ =>
      print "❌ Missing required packages:" ;;>
      print_each (List.map (fun package => "   - " ++ package) missing_packages) ;;>
      print (nl ++ "💡 Install missing packages with:") ;;>
      print "   conda env create -f environment.yml" ;;>
      print "   conda activate gee-dashboard" ;;>
      io_ret false
  | [] => io_ret true
  end.

Definition default_success : string :=
  "✅ Google Earth Engine authentication successful (default)".

Definition check_gee_auth (libs : Libs) : IO bool :=
  io_try
    (lib libs (import_module "ee") ;;>
     lib libs ee_Authenticate ;;>
     project_id <~ getenv "GEE_PROJECT_ID" ;;
     (if truthy project_id && negb (String.eqb (text project_id) "your-project-id") then
        io_try
          (lib libs (ee_Initialize None (Some (text project_id)) None) ;;>
           print ("✅ Google Earth Engine authentication successful with project: "
                  ++ text project_id))
          is_Exception
          (fun _ =>
             print ("⚠️  Project " ++ text project_id
                    ++ " failed, trying default initialization...") ;;>
             lib libs (ee_Initialize None None None) ;;>
             print default_success)
      else
        lib libs (ee_Initialize None None None) ;;>
        print default_success) ;;>
     lib libs ee_Image_getInfo ;;>
     io_ret true)
    is_Exception
    (fun e =>
       print "❌ Google Earth Engine authentication failed" ;;>
       print ("   Error: " ++ exc_message e) ;;>
       print (nl ++ "💡 Authenticate with:") ;;>
       print "   earthengine authenticate" ;;>
       io_ret false).

(** [load_dotenv] with its default [override=False]: a variable already
    in the environment keeps its value. *)
Definition load_dotenv_into_environ : IO unit :=
  fun w => set_environ (fun env => env ∪ dotenv_file w) w.

Definition setup_environment (libs : Libs) (project_root : string) : IO unit :=
  let env_file := path_join project_root ".env" in
  found <~ path_exists env_file ;;
  if found then
    io_try
      (lib libs (import_module "dotenv") ;;>
       lib libs (load_dotenv env_file) ;;>
       load_dotenv_into_environ ;;>
       print "✅ Loaded environment variables from .env")
      is_ImportError
      (fun _ => print "⚠️  python-dotenv not installed, skipping .env file")
  else print "ℹ️  No .env file found (this is optional)".

(** [sys.exit(code)]. *)
Definition sys_exit {A} (code : Z) : IO A :=
  io_raise {| exc_class := SystemExit code; exc_message := "" |}.

(** [try] with two [except] clauses: the first clause that names the
    raised object handles it. *)
Definition io_try2 {A} (body : IO A)
    (caught1 : Raise -> bool) (handler1 : Raise -> IO A)
    (caught2 : Raise -> bool) (handler2 : Raise -> IO A) : IO A :=
  fun w => match body w with
           | (inr a, w') => (inr a, w')
           | (inl e, w') =>
               if caught1 e then handler1 e w'
               else if caught2 e then handler2 e w'
               else (inl e, w')
           end.

Definition dashboard_path (project_root : string) : string :=
  path_join
    (path_join
       (path_join (path_join (path_join project_root "code") "src") "dashboards")
       "streamlit")
    "palisades_fire_app.py".

Definition streamlit_command (sys_executable project_root : string) : list string :=
  [sys_executable; "-m"; "streamlit"; "run";
   dashboard_path project_root;
   "--server.port"; "8501";
   "--server.address"; "localhost"].

Definition rule : string := "==================================================".

Definition main (libs : Libs) (sys_executable project_root : string) : IO unit :=
  print "🌍 Starting Google Earth Engine Dashboard..." ;;>
  print rule ;;>
  setup_environment libs project_root ;;>
  requirements <~ check_requirements libs ;;
  (if negb requirements then sys_exit 1 else io_ret tt) ;;>
  authenticated <~ check_gee_auth libs ;;
  (if negb authenticated then
     print (nl ++ "🔧 To authenticate Google Earth Engine:") ;;>
     print "1. Visit: https://developers.google.com/earth-engine/guides/access" ;;>
     print "2. Sign up for Earth Engine access" ;;>
     print "3. Run: earthengine authenticate" ;;>
     print "4. Set GEE_PROJECT_ID in .env file" ;;>
     print (nl ++ "⚠️  Running dashboard in DEMO mode (no live satellite data)") ;;>
     print "✅ You can still explore the interface and functionality"
   else io_ret tt) ;;>
  print (nl ++ "🔥 Launching Palisades Fire Analysis Dashboard...") ;;>
  print ("📁 Dashboard file: " ++ dashboard_path project_root) ;;>
  print "🌐 URL: http://localhost:8501" ;;>
  print "📍 Analyzing the January 2025 Palisades Fire in Los Angeles" ;;>
  print (nl ++ rule) ;;>
  io_try2
    (lib libs (subprocess_run (streamlit_command sys_executable project_root) project_root))
    is_KeyboardInterrupt
    (fun _ => print (nl ++ "👋 Dashboard stopped by user"))
    is_Exception
    (fun e => print (nl ++ "❌ Error running dashboard: " ++ exc_message e) ;;> sys_exit 1).

End run_dashboard.

(** *** A small world, for concrete runs *)

Module Startup.

Definition world (env : gmap string string) : World :=
  {| environ := env; existing_paths := ∅; secrets := None; dotenv_file := ∅;
     calls := []; logged := []; shown := []; printed := [] |}.

(** Every library call returns. *)
Definition all_fine : Libs := fun _ _ => None.

(** The connection test times out; everything else returns. *)
Definition getInfo_times_out : Libs :=
  fun _ c => match c with
             | ee_Image_getInfo =>
                 Some {| exc_class := EEException; exc_message := "Computation timed out." |}
             | _ => None
             end.

(** No stored credentials: [ee.Initialize] fails until [ee.Authenticate]
    has been called. *)
Definition needs_authentication : Libs :=
  fun history c =>
    match c with
    | ee_Initialize _ _ _ =>
        if existsb (fun h => match h with ee_Authenticate => true | _ => false end) history
        then None
        else Some {| exc_class := EEException;
                     exc_message := "Please authorize access to your Earth Engine account" |}
    | _ => None
    end.

(** [plotly] is not installed. *)
Definition no_plotly : Libs :=
  fun _ c => match c with
             | import_module "plotly" =>
                 Some {| exc_class := ImportError; exc_message := "No module named 'plotly'" |}
             | _ => None
             end.

(** Earth Engine cannot be reached at all. *)
Definition no_earth_engine : Libs :=
  fun _ c => match c with
             | ee_Authenticate | ee_Initialize _ _ _ | ee_Image_getInfo =>
                 Some {| exc_class := EEException; exc_message := "unreachable" |}
             | _ => None
             end.

(** A conda environment that ships the PROJ data. *)
Definition conda_world : World :=
  {| environ := {["CONDA_PREFIX" := "/opt/conda"]};
     existing_paths := {["/opt/conda/share/proj"]};
     secrets := None; dotenv_file := ∅;
     calls := []; logged := []; shown := []; printed := [] |}.

(** A host with a service-account key file. *)
Definition service_world : World :=
  {| environ := {["GOOGLE_APPLICATION_CREDENTIALS" := "/etc/gee/key.json"]};
     existing_paths := {["/etc/gee/key.json"]};
     secrets := None; dotenv_file := ∅;
     calls := []; logged := []; shown := []; printed := [] |}.

(** A project with a .env file; GEE_PROJECT_ID is set in the shell too. *)
Definition dotenv_world : World :=
  {| environ := {["GEE_PROJECT_ID" := "from-the-shell"]};
     existing_paths := {["/srv/dashboard/.env"]};
     secrets := None;
     dotenv_file := {["GEE_PROJECT_ID" := "from-the-file"; "DASHBOARD_PORT" := "8501"]};
     calls := []; logged := []; shown := []; printed := [] |}.

End Startup.

(** *** What a run leaves alone *)

(** Every run of [m] takes a world to one related to it by [R]. *)
Definition keeps {A} (R : World -> World -> Prop) (m : IO A) : Prop :=
  forall (w : World) (r : Raise + A) (w' : World), m w = (r, w') -> R w w'.

(** The run made library calls of kind [Q] only. *)
Definition calls_only (Q : LibCall -> Prop) (w w' : World) : Prop :=
  exists later : list LibCall, calls w' = (calls w ++ later)%list /\ Forall Q later.

(** The run showed no Streamlit widget. *)
Definition same_shown (w w' : World) : Prop := shown w' = shown w.

(** The run kept every environment variable that was set. *)
Definition keeps_variables (w w' : World) : Prop :=
  forall key value : string, environ w !! key = Some value -> environ w' !! key = Some value.

(** The entry of the Streamlit secrets under [section] and [key], if there
    is a secrets file with that section and that key. *)
Definition secret (section key : string) (w : World) : option string :=
  match secrets w with
  | Some s => match s !! section with
              | Some sec => sec !! key
              | None => None
              end
  | None => None
  end.

(** Whatever a run of [m] raises satisfies [P]. *)
Definition escapes {A} (P : Raise -> Prop) (m : IO A) : Prop :=
  forall (w : World) (e : Raise) (w' : World), m w = (inl e, w') -> P e.

(** The calls [run_dashboard.main] makes before it looks at Earth Engine. *)
Definition import_or_dotenv (c : LibCall) : Prop :=
  match c with
  | import_module _ | load_dotenv _ => True
  | _ => False
  end.

(** The calls [check_gee_auth] makes. *)
Definition ee_call_only (c : LibCall) : Prop :=
  match c with
  | import_module _ | ee_Authenticate | ee_Initialize _ _ _ | ee_Image_getInfo => True
  | _ => False
  end.

(** The calls service-account mode may make. *)
Definition service_account_call (use_high_volume : bool) (c : LibCall) : Prop :=
  match c with
  | pyproj_set_data_dir | ee_ServiceAccountCredentials _ | ee_Image_getInfo => True
  | ee_Initialize credentials _ url =>
      credentials <> None /\
      url = (if use_high_volume then Some gee_auth.high_volume_url else None)
  | _ => False
  end.

(** ** Comparisons on rationals *)

Lemma Qlt_bool_true (x y : Q) : Qlt_bool x y = true <-> x < y.
Proof.
  unfold Qlt_bool. rewrite negb_true_iff.
  split; intros H.
  - apply Qnot_le_lt. intros Hle. apply Qle_bool_iff in Hle. congruence.
  - destruct (Qle_bool y x) eqn:E; [|reflexivity].
    apply Qle_bool_iff in E. exfalso. apply (Qlt_not_le _ _ H E).
Qed.

Lemma Qlt_bool_false (x y : Q) : Qlt_bool x y = false <-> y <= x.
Proof.
  unfold Qlt_bool. rewrite negb_false_iff. apply Qle_bool_iff.
Qed.

Lemma Qle_bool_false (x y : Q) : Qle_bool x y = false <-> y < x.
Proof.
  rewrite <- Qlt_bool_true. unfold Qlt_bool.
  destruct (Qle_bool x y); simpl; intuition congruence.
Qed.

Lemma nonzero_of_bool (b : bool) : nonzero (of_bool b) = b.
Proof. destruct b; reflexivity. Qed.

(** ** The classifier, pixel by pixel *)

Section Classifier.

Variable svc : Service.

(** On a one-band image, the chain of [where] calls computes the
    specification's table. *)
Lemma classify_eval (dnbr : ee.Image) (p : Pixel) (n : string) (d : Q) :
  ee.eval svc dnbr p = [(n, Some d)] ->
  ee.eval svc (classify_burn_severity dnbr) p = [("burn_severity", Some (table_class d))].
Proof.
  intros H. unfold classify_burn_severity, table_class. cbn [ee.eval].
  rewrite H. cbn [ee.map_bands ee.zip_bands List.map option_map
                  ee.where_pixel ee.and_pixel].
  rewrite !nonzero_of_bool. unfold Qlt_bool.
  destruct (Qle_bool (-0.1) d) eqn:E1, (Qle_bool 0.1 d) eqn:E2,
           (Qle_bool 0.27 d) eqn:E3, (Qle_bool 0.44 d) eqn:E4,
           (Qle_bool 0.66 d) eqn:E5; cbn; try reflexivity;
    repeat match goal with
           | E : Qle_bool _ _ = true |- _ => apply Qle_bool_iff in E
           | E : Qle_bool _ _ = false |- _ => apply Qle_bool_false in E
           end; exfalso; lra.
Qed.

Lemma classify_value_at (dnbr : ee.Image) (p : Pixel) (n : string) (d : Q) :
  ee.eval svc dnbr p = [(n, Some d)] ->
  ee.value_at svc (classify_burn_severity dnbr) p = Some (table_class d).
Proof.
  intros H. unfold ee.value_at. rewrite (classify_eval dnbr p n d H). reflexivity.
Qed.

End Classifier.

Lemma table_class_cases (d : Q) :
  (d < -0.1 -> table_class d = 0) /\
  (-0.1 <= d < 0.1 -> table_class d = 1) /\
  (0.1 <= d < 0.27 -> table_class d = 2) /\
  (0.27 <= d < 0.44 -> table_class d = 3) /\
  (0.44 <= d < 0.66 -> table_class d = 4) /\
  (0.66 <= d -> table_class d = 5).
Proof.
  unfold table_class.
  destruct (Qlt_bool d (-0.1)) eqn:E1, (Qlt_bool d 0.1) eqn:E2,
           (Qlt_bool d 0.27) eqn:E3, (Qlt_bool d 0.44) eqn:E4,
           (Qlt_bool d 0.66) eqn:E5;
    repeat match goal with
           | E : Qlt_bool _ _ = true |- _ => apply Qlt_bool_true in E
           | E : Qlt_bool _ _ = false |- _ => apply Qlt_bool_false in E
           end;
    repeat split; intros; try reflexivity; exfalso; lra.
Qed.

Lemma table_class_range (d : Q) :
  exists k : Z, (0 <= k <= 5)%Z /\ table_class d = inject_Z k.
Proof.
  unfold table_class.
  destruct (Qlt_bool d (-0.1)); [exists 0%Z; split; [lia | reflexivity] |].
  destruct (Qlt_bool d 0.1); [exists 1%Z; split; [lia | reflexivity] |].
  destruct (Qlt_bool d 0.27); [exists 2%Z; split; [lia | reflexivity] |].
  destruct (Qlt_bool d 0.44); [exists 3%Z; split; [lia | reflexivity] |].
  destruct (Qlt_bool d 0.66); [exists 4%Z; split; [lia | reflexivity] |].
  exists 5%Z; split; [lia | reflexivity].
Qed.

Lemma table_class_monotone (d1 d2 : Q) :
  d1 <= d2 -> table_class d1 <= table_class d2.
Proof.
  intros Hle.
  destruct (table_class_cases d1) as (A0 & A1 & A2 & A3 & A4 & A5).
  destruct (table_class_cases d2) as (B0 & B1 & B2 & B3 & B4 & B5).
  destruct (Qlt_le_dec d1 (-0.1)) as [L0|L0];
    [rewrite (A0 L0) | destruct (Qlt_le_dec d1 0.1) as [L1|L1];
    [rewrite (A1 (conj L0 L1)) | destruct (Qlt_le_dec d1 0.27) as [L2|L2];
    [rewrite (A2 (conj L1 L2)) | destruct (Qlt_le_dec d1 0.44) as [L3|L3];
    [rewrite (A3 (conj L2 L3)) | destruct (Qlt_le_dec d1 0.66) as [L4|L4];
    [rewrite (A4 (conj L3 L4)) | rewrite (A5 L4)]]]]];
  (destruct (Qlt_le_dec d2 (-0.1)) as [M0|M0];
    [rewrite (B0 M0) | destruct (Qlt_le_dec d2 0.1) as [M1|M1];
    [rewrite (B1 (conj M0 M1)) | destruct (Qlt_le_dec d2 0.27) as [M2|M2];
    [rewrite (B2 (conj M1 M2)) | destruct (Qlt_le_dec d2 0.44) as [M3|M3];
    [rewrite (B3 (conj M2 M3)) | destruct (Qlt_le_dec d2 0.66) as [M4|M4];
    [rewrite (B4 (conj M3 M4)) | rewrite (B5 M4)]]]]]);
  try (vm_compute; discriminate); exfalso; lra.
Qed.

(** C1: for every difference-index value [d] of a pixel, the class that
    [classify_burn_severity] assigns is the one of the threshold table:
    0 below -0.1, 1 on [-0.1, 0.1), 2 on [0.1, 0.27), 3 on [0.27, 0.44),
    4 on [0.44, 0.66) and 5 from 0.66 on.  Each boundary belongs to the
    upper bin, so -0.1, 0.1, 0.27, 0.44 and 0.66 get the classes 1, 2, 3, 4
    and 5; and of two chained [where] calls whose tests both hold, the
    later one decides the pixel. *)
Theorem classify_threshold_table
    (svc : Service) (dnbr : ee.Image) (p : Pixel) (n : string) (d : Q) :
  ee.eval svc dnbr p = [(n, Some d)] ->
  let class := ee.value_at svc (classify_burn_severity dnbr) p in
  ((d < -0.1 -> class = Some 0) /\
   (-0.1 <= d < 0.1 -> class = Some 1) /\
   (0.1 <= d < 0.27 -> class = Some 2) /\
   (0.27 <= d < 0.44 -> class = Some 3) /\
   (0.44 <= d < 0.66 -> class = Some 4) /\
   (0.66 <= d -> class = Some 5)) /\
  ((d == -0.1 -> class = Some 1) /\
   (d == 0.1 -> class = Some 2) /\
   (d == 0.27 -> class = Some 3) /\
   (d == 0.44 -> class = Some 4) /\
   (d == 0.66 -> class = Some 5)) /\
  (forall (t1 t2 : ee.Image) (v1 v2 : Q) (m1 m2 : string) (x1 : option Q) (x2 : Q),
      ee.eval svc t1 p = [(m1, x1)] ->
      ee.eval svc t2 p = [(m2, Some x2)] ->
      nonzero x2 = true ->
      ee.value_at svc (ee.Where (ee.Where dnbr t1 v1) t2 v2) p = Some v2).
Proof.
  intros H class. subst class. rewrite (classify_value_at svc dnbr p n d H).
  destruct (table_class_cases d) as (C0 & C1 & C2 & C3 & C4 & C5).
  split; [|split].
  - repeat split; intros Hd; f_equal; auto.
  - repeat split; intros Hd; f_equal;
      [apply C1 | apply C2 | apply C3 | apply C4 | apply C5]; lra.
  - intros t1 t2 v1 v2 m1 m2 x1 x2 H1 H2 Hnz.
    unfold ee.value_at. cbn [ee.eval]. rewrite H, H1, H2. cbn.
    destruct x1 as [x1|]; [destruct (nonzero x1)|]; cbn; rewrite Hnz; reflexivity.
Qed.

Lemma classify_threshold_table_witness :
  ee.eval Demo.svc (ee.Constant 0.27) (0, 0)%Z = [("constant", Some 0.27)] /\
  ee.value_at Demo.svc (classify_burn_severity (ee.Constant 0.27)) (0, 0)%Z = Some 3.
Proof.
  split; [reflexivity|].
  destruct (classify_threshold_table Demo.svc (ee.Constant 0.27) (0, 0)%Z
              "constant" 0.27 eq_refl) as [_ [(_ & _ & B & _) _]].
  apply B. reflexivity.
Defined.

(** C6: the classes that [classify_burn_severity] produces are integers
    between 0 and 5, and the class does not decrease when the
    difference-index value increases. *)
Theorem classify_range_monotone
    (svc : Service) (i1 i2 : ee.Image) (p1 p2 : Pixel) (n1 n2 : string) (d1 d2 : Q) :
  ee.eval svc i1 p1 = [(n1, Some d1)] ->
  ee.eval svc i2 p2 = [(n2, Some d2)] ->
  (exists k : Z, (0 <= k <= 5)%Z /\
     ee.value_at svc (classify_burn_severity i1) p1 = Some (inject_Z k)) /\
  (d1 <= d2 ->
   exists c1 c2 : Q,
     ee.value_at svc (classify_burn_severity i1) p1 = Some c1 /\
     ee.value_at svc (classify_burn_severity i2) p2 = Some c2 /\
     c1 <= c2).
Proof.
  intros H1 H2.
  rewrite (classify_value_at svc i1 p1 n1 d1 H1), (classify_value_at svc i2 p2 n2 d2 H2).
  split.
  - destruct (table_class_range d1) as (k & Hk & E). exists k. rewrite E. auto.
  - intros Hle. exists (table_class d1), (table_class d2).
    repeat split. apply table_class_monotone, Hle.
Qed.

Lemma classify_range_monotone_witness :
  exists c1 c2 : Q,
    ee.value_at Demo.svc (classify_burn_severity (ee.Constant 0.05)) (0, 0)%Z = Some c1 /\
    ee.value_at Demo.svc (classify_burn_severity (ee.Constant 0.5)) (3, 4)%Z = Some c2 /\
    c1 <= c2.
Proof.
  apply (classify_range_monotone Demo.svc (ee.Constant 0.05) (ee.Constant 0.5)
           (0, 0)%Z (3, 4)%Z "constant" "constant" 0.05 0.5 eq_refl eq_refl).
  vm_compute. discriminate.
Defined.

(** ** The band check *)

Lemma existsb_eqb_In (band : string) (names : list string) :
  existsb (String.eqb band) names = true <-> In band names.
Proof.
  rewrite existsb_exists. split.
  - intros (x & Hx & E). apply String.eqb_eq in E. subst. exact Hx.
  - intros H. exists band. split; [exact H | apply String.eqb_refl].
Qed.

Lemma all_in_true (required names : list string) :
  all_in required names = true <-> (forall band, In band required -> In band names).
Proof.
  unfold all_in. rewrite forallb_forall.
  split; intros H band Hb; apply existsb_eqb_In; auto.
Qed.

Lemma all_in_missing (required names : list string) (band : string) :
  In band required -> ~ In band names -> all_in required names = false.
Proof.
  intros Hr Hn. destruct (all_in required names) eqn:E; [|reflexivity].
  exfalso. apply Hn. exact (proj1 (all_in_true required names) E band Hr).
Qed.

(** C3: when the band-name query on the before image raises, or one of the
    four required bands (B8, B4, B12, B3) is not in the band list it
    returns, [calculate_fire_indices] returns without raising; what it
    returns has exactly the seven keys nbr_before, nbr_after, dnbr,
    ndvi_before, ndvi_after, ndwi_before and ndwi_after, each bound to the
    constant image 0, which is 0 at every pixel; and the classification of
    that dnbr is class 1 at every pixel. *)
Theorem missing_bands_give_zero_indices
    (svc : Service) (before_img after_img : ee.Image) (w : list string) :
  (failure svc Call_bandNames_getInfo <> None \/
   exists band, In band required_bands /\ ~ In band (ee.bandNames svc before_img)) ->
  exists result : gmap string ee.Image,
    calculate_fire_indices svc before_img after_img w = (Returned result, w) /\
    (forall key : string,
        result !! key =
          if existsb (String.eqb key)
               ["nbr_before"; "nbr_after"; "dnbr"; "ndvi_before"; "ndvi_after";
                "ndwi_before"; "ndwi_after"]
          then Some (ee.Constant 0) else None) /\
    (forall (key : string) (img : ee.Image) (p : Pixel),
        result !! key = Some img -> ee.value_at svc img p = Some 0) /\
    (forall (dnbr : ee.Image) (p : Pixel),
        result !! "dnbr" = Some dnbr ->
        ee.value_at svc (classify_burn_severity dnbr) p = Some 1).
Proof.
  intros H. exists empty_indices.
  assert (Hkeys : forall key : string,
             empty_indices !! key =
               if existsb (String.eqb key)
                    ["nbr_before"; "nbr_after"; "dnbr"; "ndvi_before"; "ndvi_after";
                     "ndwi_before"; "ndwi_after"]
               then Some (ee.Constant 0) else None).
  { intros key. unfold empty_indices. cbn [list_to_map foldr existsb uncurry fst snd].
    repeat (rewrite lookup_insert;
            match goal with
            | |- context [decide (?k = key)] => destruct (decide (k = key)) as [<-|Hne]
            end;
            [reflexivity
            | rewrite (proj2 (String.eqb_neq _ _) (not_eq_sym Hne)); cbn [orb]; clear Hne]).
    apply lookup_empty. }
  assert (Hconst : forall (key : string) (img : ee.Image),
             empty_indices !! key = Some img -> img = ee.Constant 0).
  { intros key img. rewrite Hkeys. destruct (existsb _ _); congruence. }
  split; [|split; [exact Hkeys|split]].
  - unfold calculate_fire_indices, ee.bandNames_getInfo, ee_call, try_except, bind, raise, ret.
    destruct H as [Hfail | (band & Hreq & Hmiss)].
    + destruct (failure svc Call_bandNames_getInfo); [reflexivity | congruence].
    + destruct (failure svc Call_bandNames_getInfo); [reflexivity|].
      rewrite (all_in_missing _ _ band Hreq Hmiss). reflexivity.
  - intros key img p Hk. rewrite (Hconst key img Hk). reflexivity.
  - intros dnbr p Hk. rewrite (Hconst "dnbr" dnbr Hk).
    rewrite (classify_value_at svc (ee.Constant 0) p "constant" 0 eq_refl). reflexivity.
Qed.

Lemma missing_bands_give_zero_indices_witness :
  exists result : gmap string ee.Image,
    calculate_fire_indices (Demo.service [] Demo.no_failure)
      Demo.before_img Demo.after_img [] = (Returned result, []) /\
    result !! "dnbr" = Some (ee.Constant 0).
Proof.
  destruct (missing_bands_give_zero_indices (Demo.service [] Demo.no_failure)
              Demo.before_img Demo.after_img []) as (result & Hrun & Hkeys & _).
  - right. exists "B8". split; [left; reflexivity | intros []].
  - exists result. split; [exact Hrun | rewrite Hkeys; reflexivity].
Defined.

(** ** Band names and pixels agree *)

Lemma map_bands_names (f : option Q -> option Q) (bs : Bands) :
  List.map fst (ee.map_bands f bs) = List.map fst bs.
Proof.
  unfold ee.map_bands. induction bs as [|[n v] bs IH]; cbn; [reflexivity|].
  now rewrite IH.
Qed.

Lemma zip_bands_names (f : option Q -> option Q -> option Q) (l r : Bands) :
  List.map fst (ee.zip_bands f l r) = ee.zip_names (List.map fst l) (List.map fst r).
Proof.
  unfold ee.zip_bands, ee.zip_names.
  destruct r as [|[n b] [|? ?]]; cbn; try reflexivity.
  induction l as [|[m a] l IH]; cbn; [reflexivity|]. now rewrite IH.
Qed.

Lemma assoc_names {A} (k : string) (l : list (string * A)) :
  existsb (String.eqb k) (List.map fst l) = match assoc k l with Some _ => true | None => false end.
Proof.
  induction l as [|[k' v] l IH]; cbn; [reflexivity|].
  destruct (String.eqb k k'); cbn; [reflexivity | exact IH].
Qed.

Lemma assoc_In_names {A} (k : string) (l : list (string * A)) :
  In k (List.map fst l) -> exists v, assoc k l = Some v.
Proof.
  intros H. apply existsb_eqb_In in H. rewrite assoc_names in H.
  destruct (assoc k l) as [v|]; [exists v; reflexivity | discriminate].
Qed.

Lemma eval_bandNames (svc : Service) (i : ee.Image) (p : Pixel) :
  List.map fst (ee.eval svc i p) = ee.bandNames svc i.
Proof.
  induction i; cbn [ee.eval ee.bandNames];
    try reflexivity;
    try (rewrite map_bands_names; assumption);
    try (rewrite zip_bands_names; congruence).
  - unfold ee.median_bands. destruct (ee.items svc c) as [|s rest]; [reflexivity|].
    rewrite List.map_map. apply List.map_ext. intros [n r]. reflexivity.
  - rewrite <- IHi, !assoc_names.
    destruct (assoc first (ee.eval svc i p)), (assoc second (ee.eval svc i p)); reflexivity.
  - rewrite <- IHi. destruct (ee.eval svc i p) as [|[n v] [|? ?]]; reflexivity.
Qed.

(** ** Normalized differences *)

Lemma nd_pixel_valid (x y : Q) :
  0 <= x -> 0 <= y -> ee.nd_pixel (Some x) (Some y) = Some ((x - y) / (x + y)).
Proof.
  intros Hx Hy. unfold ee.nd_pixel.
  rewrite (proj2 (Qlt_bool_false x 0) Hx), (proj2 (Qlt_bool_false y 0) Hy). reflexivity.
Qed.

Lemma nd_pixel_Some (x y v : Q) :
  ee.nd_pixel (Some x) (Some y) = Some v -> 0 <= x /\ 0 <= y /\ v = (x - y) / (x + y).
Proof.
  unfold ee.nd_pixel.
  destruct (Qlt_bool x 0) eqn:Ex; [discriminate|].
  destruct (Qlt_bool y 0) eqn:Ey; [discriminate|].
  cbn. intros [= <-]. apply Qlt_bool_false in Ex, Ey. auto.
Qed.

Lemma quotient_bounds (x y : Q) :
  0 <= x -> 0 <= y -> ~ x + y == 0 -> -1 <= (x - y) / (x + y) <= 1.
Proof.
  intros Hx Hy Hs.
  assert (Hpos : 0 < x + y).
  { destruct (Qlt_le_dec 0 (x + y)) as [L|L]; [exact L|].
    exfalso. apply Hs. lra. }
  split.
  - apply Qle_shift_div_l; [exact Hpos | lra].
  - apply Qle_shift_div_r; [exact Hpos | lra].
Qed.

Lemma nd_pixel_antisymmetric (x y : Q) :
  ~ x + y == 0 ->
  pixel_eq (ee.nd_pixel (Some x) (Some y)) (option_map Qopp (ee.nd_pixel (Some y) (Some x))).
Proof.
  intros Hs. unfold ee.nd_pixel.
  rewrite (orb_comm (Qlt_bool y 0) (Qlt_bool x 0)).
  destruct (Qlt_bool x 0 || Qlt_bool y 0); cbn; [exact I|].
  unfold ee.normalized_difference. field. intros E. apply Hs. lra.
Qed.

Lemma value_at_normalizedDifference (svc : Service) (i : ee.Image) (first second name : string)
    (p : Pixel) (a b : option Q) :
  assoc first (ee.eval svc i p) = Some a ->
  assoc second (ee.eval svc i p) = Some b ->
  ee.value_at svc (ee.rename (ee.normalizedDifference i first second) name) p = ee.nd_pixel a b.
Proof.
  intros Ha Hb. unfold ee.value_at. cbn [ee.eval]. rewrite Ha, Hb. reflexivity.
Qed.

Lemma value_at_rename_subtract (svc : Service) (i j : ee.Image) (name : string) (p : Pixel) :
  ee.value_at svc (ee.rename (ee.subtract i j) name) p =
  ee.subtract_pixel (ee.value_at svc i p) (ee.value_at svc j p).
Proof.
  unfold ee.value_at. cbn [ee.eval]. unfold ee.zip_bands.
  destruct (ee.eval svc j p) as [|[m b] [|? ?]];
    destruct (ee.eval svc i p) as [|[n a] [|? ?]]; cbn; try reflexivity;
    destruct a; reflexivity.
Qed.

(** C2: when the band check passes, [calculate_fire_indices] returns, for
    the before image and for the after image alike, the burn ratio as the
    normalized difference of (B8, B12), the vegetation index as that of
    (B8, B4) and the moisture index as that of (B3, B8); the normalized
    difference of two valid band values [x], [y] is [(x - y) / (x + y)] at
    each pixel; and dnbr is, at each pixel, the before burn ratio minus
    the after burn ratio. *)
Theorem calculate_fire_indices_formulas
    (svc : Service) (before_img after_img : ee.Image) (w : list string) :
  failure svc Call_bandNames_getInfo = None ->
  (forall band, In band required_bands -> In band (ee.bandNames svc before_img)) ->
  exists (nbr_before nbr_after dnbr ndvi_before ndvi_after ndwi_before ndwi_after : ee.Image)
         (result : gmap string ee.Image),
    calculate_fire_indices svc before_img after_img w = (Returned result, w) /\
    (result !! "nbr_before" = Some nbr_before /\
     result !! "nbr_after" = Some nbr_after /\
     result !! "dnbr" = Some dnbr /\
     result !! "ndvi_before" = Some ndvi_before /\
     result !! "ndvi_after" = Some ndvi_after /\
     result !! "ndwi_before" = Some ndwi_before /\
     result !! "ndwi_after" = Some ndwi_after) /\
    (forall p : Pixel,
        exists nir red swir green : option Q,
          assoc "B8" (ee.eval svc before_img p) = Some nir /\
          assoc "B4" (ee.eval svc before_img p) = Some red /\
          assoc "B12" (ee.eval svc before_img p) = Some swir /\
          assoc "B3" (ee.eval svc before_img p) = Some green /\
          ee.value_at svc nbr_before p = ee.nd_pixel nir swir /\
          ee.value_at svc ndvi_before p = ee.nd_pixel nir red /\
          ee.value_at svc ndwi_before p = ee.nd_pixel green nir) /\
    (forall (p : Pixel) (nir red swir green : option Q),
        assoc "B8" (ee.eval svc after_img p) = Some nir ->
        assoc "B4" (ee.eval svc after_img p) = Some red ->
        assoc "B12" (ee.eval svc after_img p) = Some swir ->
        assoc "B3" (ee.eval svc after_img p) = Some green ->
        ee.value_at svc nbr_after p = ee.nd_pixel nir swir /\
        ee.value_at svc ndvi_after p = ee.nd_pixel nir red /\
        ee.value_at svc ndwi_after p = ee.nd_pixel green nir) /\
    (forall p : Pixel,
        ee.value_at svc dnbr p =
        ee.subtract_pixel (ee.value_at svc nbr_before p) (ee.value_at svc nbr_after p)) /\
    (forall x y : Q,
        0 <= x -> 0 <= y -> ee.nd_pixel (Some x) (Some y) = Some ((x - y) / (x + y))) /\
    (forall x y : Q, ee.subtract_pixel (Some x) (Some y) = Some (x - y)).
Proof.
  intros Hok Hbands.
  eexists _, _, _, _, _, _, _, _.
  split.
  { unfold calculate_fire_indices, ee.bandNames_getInfo, ee_call, try_except, bind, ret.
    rewrite Hok. rewrite (proj2 (all_in_true _ _) Hbands). reflexivity. }
  split; [repeat split; reflexivity|].
  split; [|split; [|split; [|split]]].
  - intros p.
    assert (Hhas : forall band, In band required_bands ->
                     exists v, assoc band (ee.eval svc before_img p) = Some v).
    { intros band Hb. apply assoc_In_names. rewrite eval_bandNames. auto. }
    destruct (Hhas "B8") as (nir & Hnir); [cbn; tauto|].
    destruct (Hhas "B4") as (red & Hred); [cbn; tauto|].
    destruct (Hhas "B12") as (swir & Hswir); [cbn; tauto|].
    destruct (Hhas "B3") as (green & Hgreen); [cbn; tauto|].
    exists nir, red, swir, green.
    repeat split; try assumption; apply value_at_normalizedDifference; assumption.
  - intros p nir red swir green Hnir Hred Hswir Hgreen.
    repeat split; apply value_at_normalizedDifference; assumption.
  - intros p. apply value_at_rename_subtract.
  - exact nd_pixel_valid.
  - reflexivity.
Qed.

Lemma calculate_fire_indices_formulas_witness :
  exists (result : gmap string ee.Image) (dnbr : ee.Image),
    calculate_fire_indices Demo.svc Demo.before_img Demo.after_img [] = (Returned result, []) /\
    result !! "dnbr" = Some dnbr /\
    ee.value_at Demo.svc dnbr (0, 0)%Z = Some ((2000 # 4000) - (-400 # 2400)).
Proof.
  destruct (calculate_fire_indices_formulas Demo.svc Demo.before_img Demo.after_img [])
    as (nbr_before & nbr_after & dnbr & ? & ? & ? & ? & result & Hrun & Hkeys
        & Hbefore & Hafter & Hdnbr & _).
  - reflexivity.
  - intros band Hb. vm_compute in Hb. vm_compute. intuition.
  - exists result, dnbr. split; [exact Hrun|]. split; [apply Hkeys|].
    rewrite Hdnbr.
    destruct (Hbefore (0, 0)%Z) as (nir & red & swir & green & H8 & _ & H12 & _ & -> & _).
    destruct (Hafter (0, 0)%Z (Some 1000) (Some 500) (Some 1400) (Some 400)
                eq_refl eq_refl eq_refl eq_refl) as (-> & _).
    vm_compute in H8, H12. injection H8 as <-. injection H12 as <-. reflexivity.
Defined.

(** C7: for all band values [a], [b] with [a + b] not zero, every pixel
    that [normalizedDifference] produces is [(a - b) / (a + b)] and lies in
    [-1, 1] (it produces one when neither value is negative, and masks the
    pixel otherwise); and exchanging the two bands negates the normalized
    difference, as a formula and as the pixel produced. *)
Theorem normalized_difference_range_antisymmetry
    (svc : Service) (i : ee.Image) (first second : string) (p : Pixel) (a b : Q) :
  assoc first (ee.eval svc i p) = Some (Some a) ->
  assoc second (ee.eval svc i p) = Some (Some b) ->
  ~ a + b == 0 ->
  (forall v : Q,
      ee.value_at svc (ee.normalizedDifference i first second) p = Some v ->
      v = (a - b) / (a + b) /\ -1 <= v <= 1) /\
  (0 <= a -> 0 <= b ->
   ee.value_at svc (ee.normalizedDifference i first second) p = Some ((a - b) / (a + b))) /\
  (a < 0 \/ b < 0 ->
   ee.value_at svc (ee.normalizedDifference i first second) p = None) /\
  ee.normalized_difference a b == - ee.normalized_difference b a /\
  pixel_eq (ee.value_at svc (ee.normalizedDifference i first second) p)
           (option_map Qopp (ee.value_at svc (ee.normalizedDifference i second first) p)).
Proof.
  intros Ha Hb Hs. unfold ee.value_at. cbn [ee.eval]. rewrite Ha, Hb.
  split; [|split; [|split; [|split]]].
  - intros v Hv. apply nd_pixel_Some in Hv. destruct Hv as (Hx & Hy & ->).
    split; [reflexivity | apply quotient_bounds; assumption].
  - intros Hx Hy. apply nd_pixel_valid; assumption.
  - intros Hneg. unfold ee.nd_pixel.
    destruct (Qlt_bool a 0) eqn:Ea; [reflexivity|].
    destruct (Qlt_bool b 0) eqn:Eb; [reflexivity|].
    apply Qlt_bool_false in Ea, Eb. exfalso. destruct Hneg; lra.
  - unfold ee.normalized_difference. field. intros E. apply Hs. lra.
  - apply nd_pixel_antisymmetric, Hs.
Qed.

Lemma normalized_difference_range_antisymmetry_witness :
  exists v : Q,
    ee.value_at Demo.svc (ee.normalizedDifference Demo.before_img "B8" "B12") (0, 0)%Z
    = Some v /\
    v == 1 # 2 /\ -1 <= v <= 1.
Proof.
  destruct (normalized_difference_range_antisymmetry Demo.svc Demo.before_img "B8" "B12"
              (0, 0)%Z 3000 1000) as (H & _).
  - reflexivity.
  - reflexivity.
  - vm_compute. discriminate.
  - eexists. split; [reflexivity|]. split; [reflexivity|].
    exact (proj2 (H _ eq_refl)).
Defined.

(** ** The statistics block, run *)

Ltac run_calls svc :=
  repeat (cbn [for_range_from];
          unfold bind, ee_call, ret, raise;
          match goal with
          | |- context [failure svc ?c] => destruct (failure svc c) eqn:?
          end;
          try discriminate).

(** When no call fails and both keys are present, the block returns the
    burned-area reduction and one reduction per class 0..5. *)
Lemma fire_statistics_try_complete (svc : Service) (indices : gmap string ee.Image)
    (aoi : Geometry) (w : list string) (dnbr severity : ee.Image) :
  indices !! "dnbr" = Some dnbr ->
  indices !! "burn_severity" = Some severity ->
  (forall c, failure svc c = None) ->
  let area_image := ee.divide ee.pixelArea 10000 in
  let class_area (i : nat) :=
    ee.reduceRegion (ee.updateMask area_image (ee.eq severity (inject_Z (Z.of_nat i))))
      ee.Reducer_sum aoi 30 1000000000 in
  fire_statistics_try svc indices aoi w =
  (Returned (Some {| burned_area :=
                       ee.reduceRegion (ee.updateMask area_image (ee.gte dnbr 0.1))
                         ee.Reducer_sum aoi 30 1000000000;
                     severity_stats :=
                       list_to_map (List.map (fun i => (severity_key i, class_area i))
                                      (seq 0 6)) |}), w).
Proof.
  intros Hd Hs Hok. cbv zeta.
  unfold fire_statistics_try, subscript, for_range. rewrite Hd, Hs.
  rewrite !bool_decide_eq_true_2 by eauto.
  cbn [for_range_from]. unfold bind, ee_call, ret. rewrite !Hok.
  reflexivity.
Qed.

(** Whenever the block returns statistics, they have that shape, both keys
    were present and no warning was added. *)
Lemma fire_statistics_try_returns (svc : Service) (indices : gmap string ee.Image)
    (aoi : Geometry) (w w' : list string) (stats : Statistics) :
  fire_statistics_try svc indices aoi w = (Returned (Some stats), w') ->
  exists dnbr severity : ee.Image,
    indices !! "dnbr" = Some dnbr /\
    indices !! "burn_severity" = Some severity /\
    w' = w /\
    burned_area stats =
      ee.reduceRegion (ee.updateMask (ee.divide ee.pixelArea 10000) (ee.gte dnbr 0.1))
        ee.Reducer_sum aoi 30 1000000000 /\
    forall i : nat, (i < 6)%nat ->
      severity_stats stats !! severity_key i =
      Some (ee.reduceRegion
              (ee.updateMask (ee.divide ee.pixelArea 10000)
                 (ee.eq severity (inject_Z (Z.of_nat i))))
              ee.Reducer_sum aoi 30 1000000000).
Proof.
  unfold fire_statistics_try, subscript, for_range.
  destruct (indices !! "dnbr") as [dnbr|] eqn:Hd;
    [rewrite bool_decide_eq_true_2 by eauto
    | rewrite bool_decide_eq_false_2 by (intros [? ?]; discriminate);
      unfold ret; discriminate].
  destruct (indices !! "burn_severity") as [severity|] eqn:Hs.
  - rewrite bool_decide_eq_true_2 by eauto.
    run_calls svc. intros [= <- <-].
    exists dnbr, severity. repeat split.
    intros i Hi. cbn [severity_stats].
    destruct i as [|[|[|[|[|[|i]]]]]]; [reflexivity .. | lia].
  - rewrite bool_decide_eq_false_2 by (intros [? ?]; discriminate).
    run_calls svc.
Qed.

(** The block never returns statistics without the severity raster. *)
Lemma fire_statistics_try_no_severity (svc : Service) (indices : gmap string ee.Image)
    (aoi : Geometry) (w : list string) :
  indices !! "burn_severity" = None ->
  (exists w', fire_statistics_try svc indices aoi w = (Returned None, w') /\ w' = w) \/
  (exists e, fire_statistics_try svc indices aoi w = (Raised e, w)).
Proof.
  intros Hs. unfold fire_statistics_try, subscript. rewrite Hs.
  destruct (indices !! "dnbr") as [dnbr|] eqn:Hd;
    [rewrite bool_decide_eq_true_2 by eauto
    | rewrite bool_decide_eq_false_2 by (intros [? ?]; discriminate);
      left; exists w; split; reflexivity].
  rewrite (bool_decide_eq_false_2 (is_Some None)) by (intros [? ?]; discriminate).
  unfold bind, ee_call, ret, raise.
  destruct (failure svc Call_pixelArea); [right; eauto|].
  destruct (failure svc Call_divide); [right; eauto|].
  destruct (failure svc Call_gte); [right; eauto|].
  destruct (failure svc Call_updateMask); [right; eauto|].
  destruct (failure svc Call_reduceRegion); [right; eauto|].
  left. exists w. split; reflexivity.
Qed.

(** ** How [main] fills the severity raster *)

Lemma calculate_fire_indices_has_dnbr (svc : Service) (before_img after_img : ee.Image)
    (w w' : list string) (indices : gmap string ee.Image) :
  calculate_fire_indices svc before_img after_img w = (Returned indices, w') ->
  w' = w /\ is_Some (indices !! "dnbr") /\ indices !! "burn_severity" = None.
Proof.
  unfold calculate_fire_indices, ee.bandNames_getInfo, ee_call, try_except, bind, ret, raise.
  destruct (failure svc Call_bandNames_getInfo);
    [|destruct (all_in required_bands (ee.bandNames svc before_img))];
    cbn; intros [= <- <-]; repeat split; eexists; reflexivity.
Qed.

(** With the severity option on, [main] stores under burn_severity the
    classification of the raster it stores under dnbr. *)
Lemma main_indices_classifies (svc : Service) (before_date after_date : Date)
    (aoi : Geometry) (w w' : list string) (indices : gmap string ee.Image) :
  main_indices svc true before_date after_date aoi w = (Returned indices, w') ->
  exists dnbr : ee.Image,
    indices !! "dnbr" = Some dnbr /\
    indices !! "burn_severity" = Some (classify_burn_severity dnbr).
Proof.
  unfold main_indices, load_fire_datasets.
  cbn [list_to_map foldr uncurry fst snd].
  rewrite lookup_insert_eq, lookup_insert_ne by discriminate. rewrite lookup_insert_eq.
  unfold bind.
  destruct (calculate_fire_indices svc _ _ w) as [[m|e] w1] eqn:Hrun; [|discriminate].
  destruct (calculate_fire_indices_has_dnbr svc _ _ w w1 m Hrun) as (-> & [dnbr Hd] & _).
  rewrite Hd. unfold ret. intros [= <- <-].
  exists dnbr. rewrite lookup_insert_ne by discriminate. rewrite lookup_insert_eq. auto.
Qed.

(** ** Burned area and class areas *)

Lemma value_at_masked_area (svc : Service) (m : ee.Image) (p : Pixel) :
  ee.value_at svc (ee.updateMask (ee.divide ee.pixelArea 10000) m) p =
  match ee.eval svc m p with
  | [(_, Some x)] => if nonzero x then Some (pixel_area_m2 svc p / 10000) else None
  | _ => None
  end.
Proof.
  unfold ee.value_at. cbn [ee.eval ee.map_bands List.map option_map]. unfold ee.zip_bands.
  destruct (ee.eval svc m p) as [|[n [x|]] [|? ?]]; cbn; try reflexivity;
    destruct (nonzero x); reflexivity.
Qed.

Lemma classify_eval_masked (svc : Service) (dnbr : ee.Image) (p : Pixel) (n : string) :
  ee.eval svc dnbr p = [(n, None)] ->
  ee.eval svc (classify_burn_severity dnbr) p = [("burn_severity", None)].
Proof.
  intros H. unfold classify_burn_severity. cbn [ee.eval]. rewrite H. reflexivity.
Qed.

Lemma classify_eval_other (svc : Service) (dnbr : ee.Image) (p : Pixel) :
  (forall n v, ee.eval svc dnbr p <> [(n, v)]) ->
  ee.eval svc (classify_burn_severity dnbr) p = [].
Proof.
  intros H. unfold classify_burn_severity. cbn [ee.eval].
  destruct (ee.eval svc dnbr p) as [|[n v] [|[n' v'] l]]; [reflexivity| |reflexivity].
  exfalso. exact (H n v eq_refl).
Qed.

(** The burned mask holds exactly when the class is one of 2, 3, 4, 5, and
    then for one class only. *)
Lemma burned_mask_classes (d : Q) :
  let hit k := Qeq_bool (table_class d) k in
  match Qle_bool 0.1 d with
  | false => hit 2 = false /\ hit 3 = false /\ hit 4 = false /\ hit 5 = false
  | true =>
      (hit 2 = true /\ hit 3 = false /\ hit 4 = false /\ hit 5 = false) \/
      (hit 2 = false /\ hit 3 = true /\ hit 4 = false /\ hit 5 = false) \/
      (hit 2 = false /\ hit 3 = false /\ hit 4 = true /\ hit 5 = false) \/
      (hit 2 = false /\ hit 3 = false /\ hit 4 = false /\ hit 5 = true)
  end.
Proof.
  cbv zeta. unfold table_class, Qlt_bool.
  destruct (Qle_bool 0.1 d) eqn:E2, (Qle_bool (-0.1) d) eqn:E1,
           (Qle_bool 0.27 d) eqn:E3, (Qle_bool 0.44 d) eqn:E4,
           (Qle_bool 0.66 d) eqn:E5; cbn; try tauto;
    repeat match goal with
           | E : Qle_bool _ _ = true |- _ => apply Qle_bool_iff in E
           | E : Qle_bool _ _ = false |- _ => apply Qle_bool_false in E
           end; exfalso; lra.
Qed.

Section Areas.

Variable svc : Service.
Variable dnbr : ee.Image.

Local Abbreviation burned_px p := (ee.value_at svc (burned_area_image dnbr) p).
Local Abbreviation class_px k p :=
  (ee.value_at svc (class_area_image (classify_burn_severity dnbr) k) p).

(** At a pixel, the burned-area raster is valid exactly when one of the
    class rasters 2..5 is, with the same area. *)
Lemma burned_pixel_cases (p : Pixel) :
  (burned_px p = None /\
   class_px 2 p = None /\ class_px 3 p = None /\ class_px 4 p = None /\ class_px 5 p = None) \/
  (exists a : Q,
      burned_px p = Some a /\
      ((class_px 2 p = Some a /\ class_px 3 p = None /\
        class_px 4 p = None /\ class_px 5 p = None) \/
       (class_px 2 p = None /\ class_px 3 p = Some a /\
        class_px 4 p = None /\ class_px 5 p = None) \/
       (class_px 2 p = None /\ class_px 3 p = None /\
        class_px 4 p = Some a /\ class_px 5 p = None) \/
       (class_px 2 p = None /\ class_px 3 p = None /\
        class_px 4 p = None /\ class_px 5 p = Some a))).
Proof.
  unfold burned_area_image, class_area_image, area_image. rewrite !value_at_masked_area.
  cbn [ee.eval].
  destruct (ee.eval svc dnbr p) as [|[n [d|]] [|b2 l]] eqn:E.
  - left. rewrite (classify_eval_other svc dnbr p) by (intros ? ?; rewrite E; discriminate).
    repeat split; reflexivity.
  - rewrite (classify_eval svc dnbr p n d E).
    cbn [ee.map_bands List.map option_map]. rewrite !nonzero_of_bool.
    pose proof (burned_mask_classes d) as Hc. cbv zeta in Hc.
    destruct (Qle_bool 0.1 d).
    + right. exists (pixel_area_m2 svc p / 10000). split; [reflexivity|].
      destruct Hc as [Hc|[Hc|[Hc|Hc]]]; destruct Hc as (-> & -> & -> & ->); tauto.
    + left. destruct Hc as (-> & -> & -> & ->). tauto.
  - left. rewrite (classify_eval_other svc dnbr p) by (intros ? ?; rewrite E; discriminate).
    destruct b2. repeat split; reflexivity.
  - left. rewrite (classify_eval_masked svc dnbr p n E). repeat split; reflexivity.
  - left. rewrite (classify_eval_other svc dnbr p) by (intros ? ?; rewrite E; discriminate).
    destruct b2. repeat split; reflexivity.
Qed.

Lemma burned_sum_is_class_sum (px : list (Pixel * Q)) :
  ee.weighted_sum svc (burned_area_image dnbr) px ==
  ee.weighted_sum svc (class_area_image (classify_burn_severity dnbr) 2) px +
  ee.weighted_sum svc (class_area_image (classify_burn_severity dnbr) 3) px +
  ee.weighted_sum svc (class_area_image (classify_burn_severity dnbr) 4) px +
  ee.weighted_sum svc (class_area_image (classify_burn_severity dnbr) 5) px.
Proof.
  induction px as [|[p wt] px IH]; [reflexivity|].
  unfold ee.weighted_sum in *. cbn [List.fold_right].
  destruct (burned_pixel_cases p) as [(-> & -> & -> & -> & ->) | (a & -> & H)].
  - exact IH.
  - destruct H as [H|[H|[H|H]]]; destruct H as (-> & -> & -> & ->); rewrite IH; ring.
Qed.

End Areas.

(** ** The statistics function *)

Lemma calculate_fire_statistics_run (svc : Service) (indices : gmap string ee.Image)
    (aoi : Geometry) (w : list string) :
  calculate_fire_statistics svc indices aoi w =
  match fire_statistics_try svc indices aoi w with
  | (Returned r, w') => (Returned r, w')
  | (Raised e, w') => (Returned None, (w' ++ [could_not_calculate e])%list)
  end.
Proof.
  unfold calculate_fire_statistics, try_except.
  destruct (fire_statistics_try svc indices aoi w) as [[r|e] w']; reflexivity.
Qed.

Lemma calculate_fire_statistics_Some (svc : Service) (indices : gmap string ee.Image)
    (aoi : Geometry) (w w' : list string) (stats : Statistics) :
  calculate_fire_statistics svc indices aoi w = (Returned (Some stats), w') ->
  fire_statistics_try svc indices aoi w = (Returned (Some stats), w').
Proof.
  rewrite calculate_fire_statistics_run.
  destruct (fire_statistics_try svc indices aoi w) as [[r|e] w1]; [tauto | discriminate].
Qed.

Lemma fetch_same_region (svc : Service) (i j : ee.Image) (g : Geometry) (s m : Q) :
  (forall e, ee.fetch svc (ee.reduceRegion i ee.Reducer_sum g s m) = inl e ->
             ee.fetch svc (ee.reduceRegion j ee.Reducer_sum g s m) = inl e) /\
  (forall x, ee.fetch svc (ee.reduceRegion i ee.Reducer_sum g s m) = inr x ->
             x = ee.weighted_sum svc i (sample svc g s) /\
             ee.fetch svc (ee.reduceRegion j ee.Reducer_sum g s m)
             = inr (ee.weighted_sum svc j (sample svc g s))).
Proof.
  unfold ee.fetch. cbn [ee.geometry ee.scale ee.maxPixels ee.input].
  destruct (Qlt_bool m _); split; intros ? [= <-]; auto.
Qed.

(** C4: at every pixel the burned mask [dnbr >= 0.1] holds exactly when the
    class of the pixel is 2, 3, 4 or 5; hence, when the severity raster is
    the classification of dnbr, the burned-area sum equals the sum of the
    class areas 2 to 5 over the same region, scale and pixel cap (and
    fetching them fails together when the region exceeds the cap). *)
Theorem burned_area_is_classes_2_to_5
    (svc : Service) (indices : gmap string ee.Image) (aoi : Geometry)
    (w w' : list string) (stats : Statistics) (dnbr : ee.Image) :
  indices !! "dnbr" = Some dnbr ->
  indices !! "burn_severity" = Some (classify_burn_severity dnbr) ->
  calculate_fire_statistics svc indices aoi w = (Returned (Some stats), w') ->
  (forall (p : Pixel) (n : string) (d : Q),
      ee.eval svc dnbr p = [(n, Some d)] ->
      (0.1 <= d <-> ee.value_at svc (ee.gte dnbr 0.1) p = Some 1) /\
      (0.1 <= d <->
       exists k : Z, (2 <= k <= 5)%Z /\
         ee.value_at svc (classify_burn_severity dnbr) p = Some (inject_Z k))) /\
  exists s2 s3 s4 s5 : ee.Dictionary,
    severity_stats stats !! "severity_2" = Some s2 /\
    severity_stats stats !! "severity_3" = Some s3 /\
    severity_stats stats !! "severity_4" = Some s4 /\
    severity_stats stats !! "severity_5" = Some s5 /\
    (forall total : Q,
        ee.fetch svc (burned_area stats) = inr total ->
        exists a2 a3 a4 a5 : Q,
          ee.fetch svc s2 = inr a2 /\ ee.fetch svc s3 = inr a3 /\
          ee.fetch svc s4 = inr a4 /\ ee.fetch svc s5 = inr a5 /\
          total == a2 + a3 + a4 + a5) /\
    (forall e : Exception,
        ee.fetch svc (burned_area stats) = inl e ->
        ee.fetch svc s2 = inl e /\ ee.fetch svc s3 = inl e /\
        ee.fetch svc s4 = inl e /\ ee.fetch svc s5 = inl e).
Proof.
  intros Hd Hs Hrun. split.
  - intros p n d E. rewrite (classify_value_at svc dnbr p n d E).
    unfold ee.value_at. cbn [ee.eval]. rewrite E. cbn.
    pose proof (burned_mask_classes d) as Hc. cbv zeta in Hc.
    destruct (Qle_bool 0.1 d) eqn:E1.
    + apply Qle_bool_iff in E1. split; [tauto|]. split; [intros _ | tauto].
      destruct Hc as [Hc|[Hc|[Hc|Hc]]]; destruct Hc as (H2 & H3 & H4 & H5);
        destruct (table_class_range d) as (k & Hk & Ek); rewrite Ek in *;
        exists k; (split; [|reflexivity]);
        assert (k = 0 \/ k = 1 \/ k = 2 \/ k = 3 \/ k = 4 \/ k = 5)%Z as Hcases by lia;
        destruct Hcases as [->|[->|[->|[->|[->| ->]]]]]; try lia; discriminate.
    + apply Qle_bool_false in E1. split.
      * split; [intros; exfalso; lra | discriminate].
      * split; [intros; exfalso; lra |].
        intros (k & Hk & Ek). injection Ek as Ek.
        destruct Hc as (H2 & H3 & H4 & H5). rewrite Ek in *.
        assert (k = 2 \/ k = 3 \/ k = 4 \/ k = 5)%Z as Hcases by lia.
        destruct Hcases as [->|[->|[->| ->]]]; discriminate.
  - apply calculate_fire_statistics_Some in Hrun.
    destruct (fire_statistics_try_returns svc indices aoi w w' stats Hrun)
      as (dnbr' & severity & Hd' & Hs' & _ & Hburned & Hclass).
    rewrite Hd in Hd'. injection Hd' as <-. rewrite Hs in Hs'. injection Hs' as <-.
    eexists _, _, _, _.
    split; [exact (Hclass 2%nat ltac:(lia))|].
    split; [exact (Hclass 3%nat ltac:(lia))|].
    split; [exact (Hclass 4%nat ltac:(lia))|].
    split; [exact (Hclass 5%nat ltac:(lia))|].
    rewrite Hburned. split.
    + intros total Ht.
      pose proof (fetch_same_region svc
                    (ee.updateMask (ee.divide ee.pixelArea 10000) (ee.gte dnbr 0.1))) as F.
      eexists _, _, _, _.
      split; [exact (proj2 (proj2 (F _ aoi 30 1000000000) total Ht))|].
      split; [exact (proj2 (proj2 (F _ aoi 30 1000000000) total Ht))|].
      split; [exact (proj2 (proj2 (F _ aoi 30 1000000000) total Ht))|].
      split; [exact (proj2 (proj2 (F _ aoi 30 1000000000) total Ht))|].
      rewrite (proj1 (proj2 (F ee.pixelArea aoi 30 1000000000) total Ht)).
      apply burned_sum_is_class_sum.
    + intros e He.
      pose proof (fetch_same_region svc
                    (ee.updateMask (ee.divide ee.pixelArea 10000) (ee.gte dnbr 0.1))) as F.
      repeat split; exact (proj1 (F _ aoi 30 1000000000) e He).
Qed.

Lemma burned_area_is_classes_2_to_5_witness :
  exists total a2 a3 a4 a5 : Q,
    ee.fetch Demo.svc (burned_area Demo.stats) = inr total /\
    ee.fetch Demo.svc (Demo.class_area 2) = inr a2 /\
    ee.fetch Demo.svc (Demo.class_area 3) = inr a3 /\
    ee.fetch Demo.svc (Demo.class_area 4) = inr a4 /\
    ee.fetch Demo.svc (Demo.class_area 5) = inr a5 /\
    total == a2 + a3 + a4 + a5 /\ total == 0.225.
Proof.
  assert (Hrun : calculate_fire_statistics Demo.svc Demo.indices Demo.aoi []
                 = (Returned (Some Demo.stats), [])) by reflexivity.
  destruct (burned_area_is_classes_2_to_5 Demo.svc Demo.indices Demo.aoi [] []
              Demo.stats Demo.dnbr eq_refl eq_refl Hrun)
    as (_ & s2 & s3 & s4 & s5 & H2 & H3 & H4 & H5 & Hsum & _).
  injection H2 as <-. injection H3 as <-. injection H4 as <-. injection H5 as <-.
  destruct (Hsum _ eq_refl) as (a2 & a3 & a4 & a5 & F2 & F3 & F4 & F5 & Heq).
  eexists _, a2, a3, a4, a5.
  split; [reflexivity|].
  repeat (split; [assumption|]).
  vm_compute. reflexivity.
Defined.

(** C5: the per-pixel area raster is the pixel area in square metres
    divided by 10000; given both rasters and no failing call, the function
    returns, besides the burned area, exactly one reduction per class value
    0, 1, 2, 3, 4, 5, under the keys severity_0 .. severity_5: the sum, over
    the region at scale 30 with at most 1e9 pixels, of the area raster
    masked to the pixels whose severity equals the class. *)
Theorem class_areas_by_masking
    (svc : Service) (indices : gmap string ee.Image) (aoi : Geometry)
    (w : list string) (dnbr severity : ee.Image) :
  indices !! "dnbr" = Some dnbr ->
  indices !! "burn_severity" = Some severity ->
  (forall c, failure svc c = None) ->
  let area_image := ee.divide ee.pixelArea 10000 in
  let masked (i : nat) := ee.updateMask area_image (ee.eq severity (inject_Z (Z.of_nat i))) in
  let class_area (i : nat) := ee.reduceRegion (masked i) ee.Reducer_sum aoi 30 1000000000 in
  exists stats : Statistics,
    calculate_fire_statistics svc indices aoi w = (Returned (Some stats), w) /\
    burned_area stats =
      ee.reduceRegion (ee.updateMask area_image (ee.gte dnbr 0.1))
        ee.Reducer_sum aoi 30 1000000000 /\
    severity_stats stats =
      list_to_map (List.map (fun i => (severity_key i, class_area i)) (seq 0 6)) /\
    List.map severity_key (seq 0 6) =
      ["severity_0"; "severity_1"; "severity_2"; "severity_3"; "severity_4"; "severity_5"] /\
    (forall key : string,
        is_Some (severity_stats stats !! key) <-> In key (List.map severity_key (seq 0 6))) /\
    (forall p : Pixel,
        ee.value_at svc area_image p = Some (pixel_area_m2 svc p / 10000)) /\
    (forall (i : nat) (p : Pixel),
        ee.value_at svc (masked i) p =
        match ee.value_at svc severity p with
        | Some c => if Qeq_bool c (inject_Z (Z.of_nat i))
                    then Some (pixel_area_m2 svc p / 10000) else None
        | None => None
        end) /\
    (forall i : nat,
        ee.fetch svc (class_area i) =
        if Qlt_bool 1000000000 (inject_Z (Z.of_nat (List.length (sample svc aoi 30))))
        then inl (Exc "Too many pixels in the region")
        else inr (ee.weighted_sum svc (masked i) (sample svc aoi 30))).
Proof.
  intros Hd Hs Hok. cbv zeta.
  eexists. split.
  { rewrite calculate_fire_statistics_run.
    rewrite (fire_statistics_try_complete svc indices aoi w dnbr severity Hd Hs Hok).
    reflexivity. }
  cbn [severity_stats burned_area].
  split; [reflexivity|]. split; [reflexivity|]. split; [reflexivity|].
  split; [|split; [|split]].
  - intros key. cbn [List.map seq list_to_map foldr uncurry fst snd In].
    repeat (rewrite (lookup_insert _ _ key);
            match goal with
            | |- context [decide (?k = key)] => destruct (decide (k = key)) as [<-|?]
            end;
            [split; [intros _; repeat (first [left; reflexivity | right]) | eauto] |]).
    rewrite lookup_empty. split; [intros [? ?]; discriminate | intuition congruence].
  - reflexivity.
  - intros i p. rewrite value_at_masked_area. unfold ee.value_at. cbn [ee.eval].
    destruct (ee.eval svc severity p) as [|[n [c|]] [|? ?]]; cbn; try reflexivity.
    rewrite nonzero_of_bool. reflexivity.
  - reflexivity.
Qed.

Lemma class_areas_by_masking_witness :
  calculate_fire_statistics Demo.svc Demo.indices Demo.aoi [] = (Returned (Some Demo.stats), []) /\
  exists a5 : Q, ee.fetch Demo.svc (Demo.class_area 5) = inr a5 /\ a5 == 0.225.
Proof.
  destruct (class_areas_by_masking Demo.svc Demo.indices Demo.aoi [] Demo.dnbr
              (classify_burn_severity Demo.dnbr) eq_refl eq_refl (fun _ => eq_refl))
    as (stats & Hrun & Hburned & Hstats & _ & _ & _ & _ & Hfetch).
  split.
  - rewrite Hrun. destruct stats as [b s]. cbn [severity_stats burned_area] in *. subst b s.
    reflexivity.
  - eexists. split; [apply (Hfetch 5%nat)|]. vm_compute. reflexivity.
Defined.

(** C9, as the code has it: [calculate_fire_statistics] never lets an
    exception of its [try] block reach the caller: it always returns; when
    the block raises [e] (the first call that fails decides which), the
    function returns [None] and shows the one warning "Could not calculate
    fire statistics: e".  The block only builds the reductions: what the
    function does depends on the failures of its client calls alone, not on
    what the service computes, and when it returns statistics it has shown
    no warning, whether or not fetching them fails afterwards. *)
Theorem statistics_block_failures_are_caught
    (svc : Service) (indices : gmap string ee.Image) (aoi : Geometry) (w : list string) :
  (exists (result : option Statistics) (w' : list string),
      calculate_fire_statistics svc indices aoi w = (Returned result, w')) /\
  (forall (e : Exception) (w1 : list string),
      fire_statistics_try svc indices aoi w = (Raised e, w1) ->
      calculate_fire_statistics svc indices aoi w
      = (Returned None, (w ++ [could_not_calculate e])%list)) /\
  (forall c : Call,
      is_Some (indices !! "dnbr") ->
      In c [Call_pixelArea; Call_divide; Call_gte; Call_updateMask; Call_reduceRegion] ->
      is_Some (failure svc c) ->
      exists e : Exception,
        calculate_fire_statistics svc indices aoi w
        = (Returned None, (w ++ [could_not_calculate e])%list)) /\
  (forall svc' : Service,
      (forall c : Call, failure svc' c = failure svc c) ->
      calculate_fire_statistics svc' indices aoi w
      = calculate_fire_statistics svc indices aoi w) /\
  (forall (stats : Statistics) (w' : list string),
      calculate_fire_statistics svc indices aoi w = (Returned (Some stats), w') ->
      w' = w).
Proof.
  split; [|split; [|split; [|split]]].
  - rewrite calculate_fire_statistics_run.
    destruct (fire_statistics_try svc indices aoi w) as [[r|e] w']; eauto.
  - rewrite calculate_fire_statistics_run.
    intros e w1 H. rewrite H.
    assert (w1 = w) as ->; [|reflexivity].
    revert H. unfold fire_statistics_try, subscript, for_range.
    destruct (indices !! "dnbr") as [dnbr|];
      [rewrite bool_decide_eq_true_2 by eauto
      | rewrite bool_decide_eq_false_2 by (intros [? ?]; discriminate);
        unfold ret; discriminate].
    destruct (indices !! "burn_severity") as [severity|];
      [rewrite bool_decide_eq_true_2 by eauto
      | rewrite bool_decide_eq_false_2 by (intros [? ?]; discriminate)];
      run_calls svc; congruence.
  - rewrite calculate_fire_statistics_run.
    intros c [dnbr Hd] Hc [e0 He0].
    unfold fire_statistics_try, subscript. rewrite Hd.
    rewrite bool_decide_eq_true_2 by eauto.
    unfold bind, ee_call, ret, raise.
    destruct (failure svc Call_pixelArea) as [e|] eqn:E1; [eauto|].
    destruct (failure svc Call_divide) as [e|] eqn:E2; [eauto|].
    destruct (failure svc Call_gte) as [e|] eqn:E3; [eauto|].
    destruct (failure svc Call_updateMask) as [e|] eqn:E4; [eauto|].
    destruct (failure svc Call_reduceRegion) as [e|] eqn:E5; [eauto|].
    exfalso. cbn [In] in Hc. intuition (subst; congruence).
  - intros svc' Hsame.
    unfold calculate_fire_statistics, try_except, fire_statistics_try, for_range.
    cbn [for_range_from]. unfold bind, ee_call. rewrite !Hsame. reflexivity.
  - intros stats w' Hrun. apply calculate_fire_statistics_Some in Hrun.
    destruct (fire_statistics_try_returns svc indices aoi w w' stats Hrun)
      as (dnbr & severity & _ & _ & Hw & _).
    exact Hw.
Qed.

Lemma statistics_block_failures_are_caught_witness :
  calculate_fire_statistics
    (Demo.service [Demo.healthy; Demo.burned] Demo.client_not_initialized)
    Demo.indices Demo.aoi ["earlier warning"]
  = (Returned None,
     ["earlier warning";
      "Could not calculate fire statistics: Earth Engine client library not initialized."]).
Proof.
  apply (proj1 (proj2 (statistics_block_failures_are_caught
           (Demo.service [Demo.healthy; Demo.burned] Demo.client_not_initialized)
           Demo.indices Demo.aoi ["earlier warning"]))
           (Exc "Earth Engine client library not initialized.") ["earlier warning"]).
  reflexivity.
Defined.

(** Counterexample to C9 as stated: over a region of 1,000,000,001 pixels
    no call of the [try] block fails, so [calculate_fire_statistics] returns
    the statistics and shows no warning; the summation fails when the
    burned area is fetched, after the function has returned, with an
    exception the function has not caught. *)
Lemma summation_failure_counterexample :
  calculate_fire_statistics Demo.crowded Demo.indices Demo.aoi []
  = (Returned (Some Demo.stats), []) /\
  ee.fetch Demo.crowded (burned_area Demo.stats) = inl (Exc "Too many pixels in the region").
Proof.
  split; [reflexivity|].
  unfold ee.fetch, Demo.stats, Demo.crowded.
  cbn [burned_area sample ee.geometry ee.scale ee.maxPixels ee.input].
  rewrite repeat_length, Z2Nat.id by lia. reflexivity.
Qed.

(** C10: without the key burn_severity the function returns [None], also
    when dnbr is present and the burned-area reduction was built without a
    failure (then nothing is shown and the reduction is dropped);
    statistics are returned only when both dnbr and burn_severity are
    present, and then they are, unless a call fails. *)
Theorem statistics_need_burn_severity
    (svc : Service) (indices : gmap string ee.Image) (aoi : Geometry) (w : list string) :
  (indices !! "burn_severity" = None ->
   exists w' : list string,
     calculate_fire_statistics svc indices aoi w = (Returned None, w')) /\
  (indices !! "burn_severity" = None ->
   is_Some (indices !! "dnbr") ->
   (forall c, In c [Call_pixelArea; Call_divide; Call_gte; Call_updateMask; Call_reduceRegion] ->
              failure svc c = None) ->
   calculate_fire_statistics svc indices aoi w = (Returned None, w)) /\
  (forall (stats : Statistics) (w' : list string),
      calculate_fire_statistics svc indices aoi w = (Returned (Some stats), w') ->
      is_Some (indices !! "dnbr") /\ is_Some (indices !! "burn_severity")) /\
  (is_Some (indices !! "dnbr") ->
   is_Some (indices !! "burn_severity") ->
   (forall c, failure svc c = None) ->
   exists stats : Statistics,
     calculate_fire_statistics svc indices aoi w = (Returned (Some stats), w)).
Proof.
  split; [|split; [|split]].
  - intros Hs. rewrite calculate_fire_statistics_run.
    destruct (fire_statistics_try_no_severity svc indices aoi w Hs)
      as [(w' & -> & _) | (e & ->)]; eauto.
  - intros Hs [dnbr Hd] Hok. rewrite calculate_fire_statistics_run.
    unfold fire_statistics_try, subscript. rewrite Hd, Hs.
    rewrite bool_decide_eq_true_2 by eauto.
    rewrite bool_decide_eq_false_2 by (intros [? ?]; discriminate).
    unfold bind, ee_call, ret.
    rewrite !Hok by (cbn [In]; tauto). reflexivity.
  - intros stats w' Hrun. apply calculate_fire_statistics_Some in Hrun.
    destruct (fire_statistics_try_returns svc indices aoi w w' stats Hrun)
      as (dnbr & severity & Hd & Hs & _). rewrite Hd, Hs. eauto.
  - intros [dnbr Hd] [severity Hs] Hok. rewrite calculate_fire_statistics_run.
    rewrite (fire_statistics_try_complete svc indices aoi w dnbr severity Hd Hs Hok).
    eauto.
Qed.

Lemma statistics_need_burn_severity_witness :
  calculate_fire_statistics Demo.svc (<["dnbr" := Demo.dnbr]> ∅) Demo.aoi [] = (Returned None, []).
Proof.
  apply (proj1 (proj2 (statistics_need_burn_severity Demo.svc (<["dnbr" := Demo.dnbr]> ∅)
                         Demo.aoi []))).
  - reflexivity.
  - exists Demo.dnbr. reflexivity.
  - intros c _. reflexivity.
Defined.

(** ** The composites *)

Lemma assoc_map_named {A B} (f : string -> B) (band : string) (l : list (string * A)) :
  In band (List.map fst l) ->
  assoc band (List.map (fun '(n, _) => (n, f n)) l) = Some (f band).
Proof.
  induction l as [|[n r] l IH]; cbn; [tauto|].
  destruct (String.eqb_spec band n) as [->|Hne]; [reflexivity|].
  intros [E|H]; [congruence | exact (IH H)].
Qed.

Lemma in_date_range_true (start end_ : Date) (s : Scene) :
  ee.in_date_range start end_ s = true <->
  (millis start <= system_time_start s < millis end_)%Z.
Proof.
  unfold ee.in_date_range. rewrite andb_true_iff, Z.leb_le, Z.ltb_lt. tauto.
Qed.

(** C8, as the code has it: the before composite keeps exactly the items of
    COPERNICUS/S2_SR_HARMONIZED whose timestamp [t] satisfies
    [before_date - 180 days <= t < before_date] (midnight UTC; the end of
    the window is excluded), whose footprint intersects the region and whose
    CLOUDY_PIXEL_PERCENTAGE is strictly less than 20; the after composite
    those with [after_date <= t < after_date + 30 days], intersecting, with
    cloud cover strictly less than 30.  Each filtered set is reduced by the
    median, band by band and pixel by pixel, and the result is clipped to
    the region. *)
Theorem composites_keep_half_open_window
    (svc : Service) (before_date after_date : Date) (aoi : Geometry) :
  let imagery := load_fire_datasets before_date after_date aoi in
  let kept_before := before_collection before_date aoi in
  let kept_after := after_collection after_date aoi in
  imagery !! "sentinel_before" = Some (ee.clip (ee.median kept_before) aoi) /\
  imagery !! "sentinel_after" = Some (ee.clip (ee.median kept_after) aoi) /\
  (forall s : Scene,
      In s (ee.items svc kept_before) <->
      In s (catalog svc "COPERNICUS/S2_SR_HARMONIZED") /\
      (millis (before_date - 180) <= system_time_start s < millis before_date)%Z /\
      intersects svc (footprint s) aoi = true /\
      cloud_below 20 s = true) /\
  (forall s : Scene,
      In s (ee.items svc kept_after) <->
      In s (catalog svc "COPERNICUS/S2_SR_HARMONIZED") /\
      (millis after_date <= system_time_start s < millis (after_date + 30))%Z /\
      intersects svc (footprint s) aoi = true /\
      cloud_below 30 s = true) /\
  (forall (c : ee.ImageCollection) (s : Scene) (rest : list Scene) (band : string) (p : Pixel),
      ee.items svc c = s :: rest ->
      In band (List.map fst (scene_bands s)) ->
      assoc band (ee.eval svc (ee.clip (ee.median c) aoi) p) =
      Some (if contains svc aoi p
            then match ee.band_inputs (s :: rest) band p with
                 | [] => None
                 | vs => Some (median_reducer svc vs)
                 end
            else None)).
Proof.
  cbv zeta. split; [reflexivity|]. split; [reflexivity|].
  split; [|split].
  - intros s. unfold before_collection, plus_days, sentinel2. cbn [ee.items].
    rewrite !List.filter_In, in_date_range_true.
    unfold ee.matches, cloud_below.
    replace (before_date + -180)%Z with (before_date - 180)%Z by lia. tauto.
  - intros s. unfold after_collection, plus_days, sentinel2. cbn [ee.items].
    rewrite !List.filter_In, in_date_range_true.
    unfold ee.matches, cloud_below. tauto.
  - intros c s rest band p Hc Hb. cbn [ee.eval]. rewrite Hc.
    unfold ee.median_bands, ee.map_bands. rewrite List.map_map.
    rewrite (List.map_ext _
               (fun '(n, _) =>
                  (n, (fun n => if contains svc aoi p
                                then match ee.band_inputs (s :: rest) n p with
                                     | [] => None
                                     | vs => Some (median_reducer svc vs)
                                     end
                                else None) n)))
      by (intros [n r]; reflexivity).
    apply (assoc_map_named
             (fun n => if contains svc aoi p
                       then match ee.band_inputs (s :: rest) n p with
                            | [] => None
                            | vs => Some (median_reducer svc vs)
                            end
                       else None)).
    exact Hb.
Qed.

(** Counterexample to C8 as stated: a scene taken at midnight UTC of the
    before date lies in the closed window, intersects the region and is
    nearly cloud free, yet the before composite does not keep it (and so
    has no band at all). *)
Lemma closed_window_counterexample :
  In Demo.midnight_scene (catalog Demo.svc_midnight "COPERNICUS/S2_SR_HARMONIZED") /\
  closed_window (Demo.before_date - 180)%Z Demo.before_date Demo.midnight_scene = true /\
  intersects Demo.svc_midnight (footprint Demo.midnight_scene) Demo.aoi = true /\
  cloud_below 20 Demo.midnight_scene = true /\
  ee.items Demo.svc_midnight (before_collection Demo.before_date Demo.aoi) = [] /\
  ee.bandNames Demo.svc_midnight
    (ee.clip (ee.median (before_collection Demo.before_date Demo.aoi)) Demo.aoi) = [].
Proof.
  repeat split. left. reflexivity.
Qed.

(** ** More about the index rasters *)

Lemma seven_keys_lookup (i1 i2 i3 i4 i5 i6 i7 : ee.Image) (key : string) :
  is_Some ((list_to_map [("nbr_before", i1); ("nbr_after", i2); ("dnbr", i3);
                         ("ndvi_before", i4); ("ndvi_after", i5);
                         ("ndwi_before", i6); ("ndwi_after", i7)]
            : gmap string ee.Image) !! key) <->
  In key ["nbr_before"; "nbr_after"; "dnbr"; "ndvi_before"; "ndvi_after";
          "ndwi_before"; "ndwi_after"].
Proof.
  cbn [list_to_map foldr uncurry fst snd In].
  repeat (rewrite (lookup_insert _ _ key);
          match goal with
          | |- context [decide (?k = key)] => destruct (decide (k = key)) as [<-|?]
          end;
          [split; [intros _; repeat (first [left; reflexivity | right]) | eauto] |]).
  rewrite lookup_empty. split; [intros [? ?]; discriminate | intuition congruence].
Qed.

(** The two dictionaries the function can return. *)
Lemma calculate_fire_indices_cases (svc : Service) (before_img after_img : ee.Image)
    (w : list string) :
  calculate_fire_indices svc before_img after_img w = (Returned empty_indices, w) \/
  calculate_fire_indices svc before_img after_img w =
  (Returned
     (list_to_map
        [("nbr_before",
          ee.rename (ee.normalizedDifference before_img nir_band swir_band) "NBR_before");
         ("nbr_after",
          ee.rename (ee.normalizedDifference after_img nir_band swir_band) "NBR_after");
         ("dnbr",
          ee.rename
            (ee.subtract
               (ee.rename (ee.normalizedDifference before_img nir_band swir_band) "NBR_before")
               (ee.rename (ee.normalizedDifference after_img nir_band swir_band) "NBR_after"))
            "dNBR");
         ("ndvi_before",
          ee.rename (ee.normalizedDifference before_img nir_band red_band) "NDVI_before");
         ("ndvi_after",
          ee.rename (ee.normalizedDifference after_img nir_band red_band) "NDVI_after");
         ("ndwi_before",
          ee.rename (ee.normalizedDifference before_img green_band nir_band) "NDWI_before");
         ("ndwi_after",
          ee.rename (ee.normalizedDifference after_img green_band nir_band) "NDWI_after")]),
   w).
Proof.
  unfold calculate_fire_indices, ee.bandNames_getInfo, ee_call, try_except, bind, ret, raise.
  destruct (failure svc Call_bandNames_getInfo); [left; reflexivity|].
  destruct (all_in required_bands (ee.bandNames svc before_img));
    [right | left]; reflexivity.
Qed.

(** The dnbr of either dictionary. *)
Lemma calculate_fire_indices_dnbr (svc : Service) (before_img after_img : ee.Image)
    (w w' : list string) (result : gmap string ee.Image) (dnbr : ee.Image) :
  calculate_fire_indices svc before_img after_img w = (Returned result, w') ->
  result !! "dnbr" = Some dnbr ->
  w' = w /\
  (dnbr = ee.Constant 0 \/
   dnbr = ee.rename
            (ee.subtract
               (ee.rename (ee.normalizedDifference before_img nir_band swir_band) "NBR_before")
               (ee.rename (ee.normalizedDifference after_img nir_band swir_band) "NBR_after"))
            "dNBR").
Proof.
  intros Hrun Hd.
  destruct (calculate_fire_indices_cases svc before_img after_img w) as [H|H];
    rewrite H in Hrun; injection Hrun as <- <-; (split; [reflexivity|]).
  - left. change (Some (ee.Constant 0) = Some dnbr) in Hd. congruence.
  - right.
    change (Some (ee.rename
                    (ee.subtract
                       (ee.rename (ee.normalizedDifference before_img nir_band swir_band)
                          "NBR_before")
                       (ee.rename (ee.normalizedDifference after_img nir_band swir_band)
                          "NBR_after"))
                    "dNBR") = Some dnbr) in Hd.
    congruence.
Qed.

(** X1: whatever the service answers, [calculate_fire_indices] returns
    without raising, shows no warning, and the dictionary it returns has
    exactly the seven keys nbr_before, nbr_after, dnbr, ndvi_before,
    ndvi_after, ndwi_before and ndwi_after. *)
Theorem calculate_fire_indices_always_seven_keys
    (svc : Service) (before_img after_img : ee.Image) (w : list string) :
  exists result : gmap string ee.Image,
    calculate_fire_indices svc before_img after_img w = (Returned result, w) /\
    forall key : string,
      is_Some (result !! key) <->
      In key ["nbr_before"; "nbr_after"; "dnbr"; "ndvi_before"; "ndvi_after";
              "ndwi_before"; "ndwi_after"].
Proof.
  destruct (calculate_fire_indices_cases svc before_img after_img w) as [H|H];
    rewrite H; eexists; (split; [reflexivity|]); intros key; apply seven_keys_lookup.
Qed.

Lemma nd_pixel_bounds (a b : option Q) (x y v : Q) :
  a = Some x -> b = Some y -> ~ x + y == 0 ->
  ee.nd_pixel a b = Some v -> -1 <= v <= 1.
Proof.
  intros -> -> Hs Hv. apply nd_pixel_Some in Hv. destruct Hv as (Hx & Hy & ->).
  apply quotient_bounds; assumption.
Qed.

(** X2: at a pixel where the burn-ratio bands of both images are valid and
    do not sum to zero, the dnbr that [calculate_fire_indices] returns, when
    it is valid, lies between -2 and 2. *)
Theorem dnbr_between_minus_2_and_2
    (svc : Service) (before_img after_img : ee.Image) (w w' : list string)
    (result : gmap string ee.Image) (dnbr : ee.Image) (p : Pixel)
    (nir0 swir0 nir1 swir1 v : Q) :
  calculate_fire_indices svc before_img after_img w = (Returned result, w') ->
  result !! "dnbr" = Some dnbr ->
  assoc "B8" (ee.eval svc before_img p) = Some (Some nir0) ->
  assoc "B12" (ee.eval svc before_img p) = Some (Some swir0) ->
  assoc "B8" (ee.eval svc after_img p) = Some (Some nir1) ->
  assoc "B12" (ee.eval svc after_img p) = Some (Some swir1) ->
  ~ nir0 + swir0 == 0 ->
  ~ nir1 + swir1 == 0 ->
  ee.value_at svc dnbr p = Some v ->
  -2 <= v <= 2.
Proof.
  intros Hrun Hd B0 S0 B1 S1 Z0 Z1 Hv.
  destruct (calculate_fire_indices_dnbr svc _ _ _ _ _ _ Hrun Hd) as (_ & [-> | ->]).
  - injection Hv as <-. split; vm_compute; discriminate.
  - rewrite value_at_rename_subtract in Hv.
    rewrite (value_at_normalizedDifference svc before_img _ _ _ p _ _ B0 S0) in Hv.
    rewrite (value_at_normalizedDifference svc after_img _ _ _ p _ _ B1 S1) in Hv.
    destruct (ee.nd_pixel (Some nir0) (Some swir0)) as [v0|] eqn:E0; [|discriminate].
    destruct (ee.nd_pixel (Some nir1) (Some swir1)) as [v1|] eqn:E1; [|discriminate].
    injection Hv as <-.
    pose proof (nd_pixel_bounds _ _ _ _ _ eq_refl eq_refl Z0 E0).
    pose proof (nd_pixel_bounds _ _ _ _ _ eq_refl eq_refl Z1 E1).
    lra.
Qed.

Lemma dnbr_between_minus_2_and_2_witness :
  exists v : Q, ee.value_at Demo.svc Demo.dnbr (0, 0)%Z = Some v /\ -2 <= v <= 2.
Proof.
  eexists. split; [reflexivity|].
  eapply (dnbr_between_minus_2_and_2 Demo.svc Demo.before_img Demo.after_img [] [] _
            Demo.dnbr (0, 0)%Z 3000 1000 1000 1400).
  - reflexivity.
  - reflexivity.
  - reflexivity.
  - reflexivity.
  - reflexivity.
  - reflexivity.
  - vm_compute. discriminate.
  - vm_compute. discriminate.
  - reflexivity.
Defined.

Lemma value_at_rename (svc : Service) (i : ee.Image) (name : string) (p : Pixel) :
  ee.value_at svc (ee.rename i name) p = ee.value_at svc i p.
Proof.
  unfold ee.value_at. cbn [ee.eval].
  destruct (ee.eval svc i p) as [|[n v] [|? ?]]; reflexivity.
Qed.

Lemma subtract_same_pixel (a : option Q) (v : Q) :
  ee.subtract_pixel a a = Some v -> v == 0.
Proof.
  destruct a as [x|]; [|discriminate]. intros [= <-]. ring.
Qed.

Lemma table_class_of_zero (v : Q) : v == 0 -> table_class v = 1.
Proof.
  intros Hv. apply (proj1 (proj2 (table_class_cases v))). lra.
Qed.

(** X3: when the same image is given as before and as after image, the
    dnbr returned is 0 wherever it is valid, its class is 1 there, and the
    burned-area raster has no valid pixel. *)
Theorem no_change_is_class_1
    (svc : Service) (img : ee.Image) (w w' : list string)
    (result : gmap string ee.Image) (dnbr : ee.Image) (p : Pixel) :
  calculate_fire_indices svc img img w = (Returned result, w') ->
  result !! "dnbr" = Some dnbr ->
  (forall v : Q,
      ee.value_at svc dnbr p = Some v ->
      v == 0 /\ ee.value_at svc (classify_burn_severity dnbr) p = Some 1) /\
  ee.value_at svc (burned_area_image dnbr) p = None.
Proof.
  intros Hrun Hd.
  assert (Hzero : forall v, ee.value_at svc dnbr p = Some v -> v == 0).
  { destruct (calculate_fire_indices_dnbr svc _ _ _ _ _ _ Hrun Hd) as (_ & [-> | ->]);
      intros v Hv.
    - injection Hv as <-. reflexivity.
    - rewrite value_at_rename_subtract, !value_at_rename in Hv.
      exact (subtract_same_pixel _ _ Hv). }
  assert (Hshape : forall v, ee.value_at svc dnbr p = Some v ->
                             exists n, ee.eval svc dnbr p = [(n, Some v)]).
  { unfold ee.value_at. intros v.
    destruct (ee.eval svc dnbr p) as [|[n [x|]] [|? ?]]; try discriminate.
    intros [= <-]. eauto. }
  split.
  - intros v Hv. split; [exact (Hzero v Hv)|].
    destruct (Hshape v Hv) as (n & E).
    rewrite (classify_value_at svc dnbr p n v E), (table_class_of_zero v (Hzero v Hv)).
    reflexivity.
  - unfold burned_area_image, area_image. rewrite value_at_masked_area. cbn [ee.eval].
    destruct (ee.value_at svc dnbr p) as [v|] eqn:Hv.
    + destruct (Hshape v eq_refl) as (n & E). rewrite E. cbn.
      rewrite nonzero_of_bool.
      destruct (Qle_bool 0.1 v) eqn:E1; [|reflexivity].
      apply Qle_bool_iff in E1. pose proof (Hzero v eq_refl). exfalso. lra.
    + unfold ee.value_at in Hv.
      destruct (ee.eval svc dnbr p) as [|[n [x|]] [|? ?]]; try discriminate; reflexivity.
Qed.

Lemma no_change_is_class_1_witness :
  exists v : Q,
    ee.value_at Demo.svc
      (ee.rename
         (ee.subtract
            (ee.rename (ee.normalizedDifference Demo.before_img nir_band swir_band) "NBR_before")
            (ee.rename (ee.normalizedDifference Demo.before_img nir_band swir_band) "NBR_after"))
         "dNBR") (0, 0)%Z = Some v /\
    v == 0.
Proof.
  eexists. split; [reflexivity|].
  exact (proj1 (proj1 (no_change_is_class_1 Demo.svc Demo.before_img [] [] _ _ (0, 0)%Z
                         eq_refl eq_refl) _ eq_refl)).
Defined.

(** ** More about the classifier and the class areas *)

(** X4: on a one-band raster, [classify_burn_severity] returns one band,
    named burn_severity, that is masked exactly where the input is masked;
    where the input is valid the class is that of the threshold table. *)
Theorem classify_keeps_mask_and_renames
    (svc : Service) (dnbr : ee.Image) (p : Pixel) (n : string) (v : option Q) :
  ee.eval svc dnbr p = [(n, v)] ->
  ee.bandNames svc (classify_burn_severity dnbr) = ["burn_severity"] /\
  exists c : option Q,
    ee.eval svc (classify_burn_severity dnbr) p = [("burn_severity", c)] /\
    (c = None <-> v = None) /\
    (forall d : Q, v = Some d -> c = Some (table_class d)).
Proof.
  intros E. split.
  - rewrite <- (eval_bandNames svc _ p).
    destruct v as [d|];
      [rewrite (classify_eval svc dnbr p n d E)
      | rewrite (classify_eval_masked svc dnbr p n E)]; reflexivity.
  - destruct v as [d|].
    + exists (Some (table_class d)). rewrite (classify_eval svc dnbr p n d E).
      repeat split; try discriminate. intros d' [= <-]. reflexivity.
    + exists None. rewrite (classify_eval_masked svc dnbr p n E).
      repeat split; discriminate.
Qed.

Lemma classify_keeps_mask_and_renames_witness :
  ee.bandNames Demo.svc (classify_burn_severity Demo.dnbr) = ["burn_severity"].
Proof.
  eapply (proj1 (classify_keeps_mask_and_renames Demo.svc Demo.dnbr (0, 0)%Z _ _ _)).
  Unshelve. all: try reflexivity.
Defined.

Lemma value_at_shape (svc : Service) (i : ee.Image) (p : Pixel) (v : Q) :
  ee.value_at svc i p = Some v -> exists n, ee.eval svc i p = [(n, Some v)].
Proof.
  unfold ee.value_at.
  destruct (ee.eval svc i p) as [|[n [x|]] [|? ?]]; try discriminate.
  intros [= <-]. eauto.
Qed.

(** The pixel of a class-area raster. *)
Lemma class_area_pixel (svc : Service) (dnbr : ee.Image) (k : Q) (p : Pixel) :
  ee.value_at svc (class_area_image (classify_burn_severity dnbr) k) p =
  match ee.value_at svc dnbr p with
  | Some d => if Qeq_bool (table_class d) k
              then Some (pixel_area_m2 svc p / 10000) else None
  | None => None
  end.
Proof.
  unfold class_area_image, area_image. rewrite value_at_masked_area. cbn [ee.eval].
  destruct (ee.value_at svc dnbr p) as [d|] eqn:Hv.
  - destruct (value_at_shape svc dnbr p d Hv) as (n & E).
    rewrite (classify_eval svc dnbr p n d E). cbn. rewrite nonzero_of_bool. reflexivity.
  - unfold ee.value_at in Hv.
    destruct (ee.eval svc dnbr p) as [|[n [x|]] [|b2 l]] eqn:E; try discriminate.
    + rewrite (classify_eval_other svc dnbr p) by (intros ? ?; rewrite E; discriminate).
      reflexivity.
    + rewrite (classify_eval_other svc dnbr p) by (intros ? ?; rewrite E; discriminate).
      reflexivity.
    + rewrite (classify_eval_masked svc dnbr p n E). reflexivity.
    + rewrite (classify_eval_other svc dnbr p) by (intros ? ?; rewrite E; discriminate).
      reflexivity.
Qed.

Lemma six_class_sums (svc : Service) (dnbr : ee.Image) (px : list (Pixel * Q)) :
  ee.weighted_sum svc (class_area_image (classify_burn_severity dnbr) 0) px +
  ee.weighted_sum svc (class_area_image (classify_burn_severity dnbr) 1) px +
  ee.weighted_sum svc (class_area_image (classify_burn_severity dnbr) 2) px +
  ee.weighted_sum svc (class_area_image (classify_burn_severity dnbr) 3) px +
  ee.weighted_sum svc (class_area_image (classify_burn_severity dnbr) 4) px +
  ee.weighted_sum svc (class_area_image (classify_burn_severity dnbr) 5) px ==
  valid_area svc dnbr px.
Proof.
  induction px as [|[p wt] px IH]; [reflexivity|].
  unfold ee.weighted_sum, valid_area in *. cbn [List.fold_right].
  rewrite !class_area_pixel.
  destruct (ee.value_at svc dnbr p) as [d|]; [|exact IH].
  destruct (table_class_range d) as (k & Hk & ->).
  assert (k = 0 \/ k = 1 \/ k = 2 \/ k = 3 \/ k = 4 \/ k = 5)%Z as Hcases by lia.
  destruct Hcases as [->|[->|[->|[->|[->| ->]]]]];
    repeat match goal with
           | |- context [Qeq_bool ?a ?b] =>
               let r := eval vm_compute in (Qeq_bool a b) in
               change (Qeq_bool a b) with r
           end;
    cbv iota; rewrite <- IH; ring.
Qed.

(** X5: the six classes partition the valid pixels: when the severity
    raster is the classification of dnbr, the six class areas that
    [calculate_fire_statistics] returns add up to the area of the sampled
    pixels at which dnbr is valid. *)
Theorem class_areas_partition_valid_area
    (svc : Service) (indices : gmap string ee.Image) (aoi : Geometry)
    (w w' : list string) (stats : Statistics) (dnbr : ee.Image) :
  indices !! "dnbr" = Some dnbr ->
  indices !! "burn_severity" = Some (classify_burn_severity dnbr) ->
  calculate_fire_statistics svc indices aoi w = (Returned (Some stats), w') ->
  exists s0 s1 s2 s3 s4 s5 : ee.Dictionary,
    severity_stats stats !! "severity_0" = Some s0 /\
    severity_stats stats !! "severity_1" = Some s1 /\
    severity_stats stats !! "severity_2" = Some s2 /\
    severity_stats stats !! "severity_3" = Some s3 /\
    severity_stats stats !! "severity_4" = Some s4 /\
    severity_stats stats !! "severity_5" = Some s5 /\
    forall a0 a1 a2 a3 a4 a5 : Q,
      ee.fetch svc s0 = inr a0 -> ee.fetch svc s1 = inr a1 ->
      ee.fetch svc s2 = inr a2 -> ee.fetch svc s3 = inr a3 ->
      ee.fetch svc s4 = inr a4 -> ee.fetch svc s5 = inr a5 ->
      a0 + a1 + a2 + a3 + a4 + a5 == valid_area svc dnbr (sample svc aoi 30).
Proof.
  intros Hd Hs Hrun. apply calculate_fire_statistics_Some in Hrun.
  destruct (fire_statistics_try_returns svc indices aoi w w' stats Hrun)
    as (dnbr' & severity & Hd' & Hs' & _ & _ & Hclass).
  rewrite Hd in Hd'. injection Hd' as <-. rewrite Hs in Hs'. injection Hs' as <-.
  eexists _, _, _, _, _, _.
  split; [exact (Hclass 0%nat ltac:(lia))|].
  split; [exact (Hclass 1%nat ltac:(lia))|].
  split; [exact (Hclass 2%nat ltac:(lia))|].
  split; [exact (Hclass 3%nat ltac:(lia))|].
  split; [exact (Hclass 4%nat ltac:(lia))|].
  split; [exact (Hclass 5%nat ltac:(lia))|].
  intros a0 a1 a2 a3 a4 a5 F0 F1 F2 F3 F4 F5.
  pose proof (fun i => proj2 (fetch_same_region svc i ee.pixelArea aoi 30 1000000000)) as F.
  apply F in F0, F1, F2, F3, F4, F5.
  destruct F0 as [-> _], F1 as [-> _], F2 as [-> _], F3 as [-> _], F4 as [-> _], F5 as [-> _].
  apply six_class_sums.
Qed.

Lemma class_areas_partition_valid_area_witness :
  exists a0 a1 a2 a3 a4 a5 : Q,
    ee.fetch Demo.svc (Demo.class_area 0) = inr a0 /\
    ee.fetch Demo.svc (Demo.class_area 1) = inr a1 /\
    ee.fetch Demo.svc (Demo.class_area 2) = inr a2 /\
    ee.fetch Demo.svc (Demo.class_area 3) = inr a3 /\
    ee.fetch Demo.svc (Demo.class_area 4) = inr a4 /\
    ee.fetch Demo.svc (Demo.class_area 5) = inr a5 /\
    a0 + a1 + a2 + a3 + a4 + a5 == valid_area Demo.svc Demo.dnbr (sample Demo.svc Demo.aoi 30).
Proof.
  destruct (class_areas_partition_valid_area Demo.svc Demo.indices Demo.aoi [] []
              Demo.stats Demo.dnbr eq_refl eq_refl eq_refl)
    as (s0 & s1 & s2 & s3 & s4 & s5 & H0 & H1 & H2 & H3 & H4 & H5 & Hsum).
  injection H0 as <-. injection H1 as <-. injection H2 as <-.
  injection H3 as <-. injection H4 as <-. injection H5 as <-.
  eexists _, _, _, _, _, _.
  do 6 (split; [reflexivity|]).
  apply Hsum; reflexivity.
Defined.

(** ** More about the composites *)

Lemma before_collection_time (svc : Service) (before_date : Date) (aoi : Geometry) (s : Scene) :
  In s (ee.items svc (before_collection before_date aoi)) ->
  (millis (before_date - 180) <= system_time_start s < millis before_date)%Z.
Proof.
  unfold before_collection, plus_days, sentinel2. cbn [ee.items].
  rewrite !List.filter_In, in_date_range_true.
  replace (before_date + -180)%Z with (before_date - 180)%Z by lia. tauto.
Qed.

Lemma after_collection_time (svc : Service) (after_date : Date) (aoi : Geometry) (s : Scene) :
  In s (ee.items svc (after_collection after_date aoi)) ->
  (millis after_date <= system_time_start s < millis (after_date + 30))%Z.
Proof.
  unfold after_collection, plus_days, sentinel2. cbn [ee.items].
  rewrite !List.filter_In, in_date_range_true. tauto.
Qed.

(** X6: for every pair of dates the sidebar accepts (before date at most
    2025-01-06, after date at least 2025-01-08), the before composite is
    built only from scenes taken before the fire start date 2025-01-07, the
    after composite only from scenes taken after that day, and no scene
    enters both composites. *)
Theorem composites_separate_the_fire
    (svc : Service) (before_date after_date : Date) (aoi : Geometry) (s : Scene) :
  (before_date <= before_date_max)%Z ->
  (after_date_min <= after_date)%Z ->
  (In s (ee.items svc (before_collection before_date aoi)) ->
   (system_time_start s < millis PALISADES_FIRE_START_DATE)%Z) /\
  (In s (ee.items svc (after_collection after_date aoi)) ->
   (millis (PALISADES_FIRE_START_DATE + 1) <= system_time_start s)%Z) /\
  ~ (In s (ee.items svc (before_collection before_date aoi)) /\
     In s (ee.items svc (after_collection after_date aoi))).
Proof.
  intros Hb Ha.
  assert (Eb : before_date_max = 20094%Z) by reflexivity.
  assert (Ea : after_date_min = 20096%Z) by reflexivity.
  assert (Ef : PALISADES_FIRE_START_DATE = 20095%Z) by reflexivity.
  rewrite Eb in Hb. rewrite Ea in Ha. rewrite Ef. unfold millis.
  split; [|split].
  - intros H. apply before_collection_time in H. unfold millis in H. lia.
  - intros H. apply after_collection_time in H. unfold millis in H. lia.
  - intros [H1 H2]. apply before_collection_time in H1. apply after_collection_time in H2.
    unfold millis in *. lia.
Qed.

Lemma composites_separate_the_fire_witness :
  (system_time_start Demo.healthy < millis PALISADES_FIRE_START_DATE)%Z /\
  (millis (PALISADES_FIRE_START_DATE + 1) <= system_time_start Demo.burned)%Z.
Proof.
  split.
  - apply (proj1 (composites_separate_the_fire Demo.svc Demo.before_date Demo.after_date
                    Demo.aoi Demo.healthy ltac:(vm_compute; discriminate)
                    ltac:(vm_compute; discriminate))).
    left. reflexivity.
  - apply (proj1 (proj2 (composites_separate_the_fire Demo.svc Demo.before_date
                           Demo.after_date Demo.aoi Demo.burned
                           ltac:(vm_compute; discriminate)
                           ltac:(vm_compute; discriminate)))).
    left. reflexivity.
Defined.

(** ** From empty imagery to statistics *)

Lemma weighted_sum_no_pixel (svc : Service) (i : ee.Image) (px : list (Pixel * Q)) :
  (forall p, ee.value_at svc i p = None) -> ee.weighted_sum svc i px = 0.
Proof.
  intros H. induction px as [|[p wt] px IH]; [reflexivity|].
  unfold ee.weighted_sum in *. cbn [List.fold_right]. rewrite H. exact IH.
Qed.

Lemma weighted_sum_same_pixels (svc : Service) (i j : ee.Image) (px : list (Pixel * Q)) :
  (forall p, ee.value_at svc i p = ee.value_at svc j p) ->
  ee.weighted_sum svc i px = ee.weighted_sum svc j px.
Proof.
  intros H. induction px as [|[p wt] px IH]; [reflexivity|].
  unfold ee.weighted_sum in *. cbn [List.fold_right]. rewrite H, IH. reflexivity.
Qed.

(** X7: when no scene passes the filters of the before composite, the
    indices [main] computes (severity on) are the all-zero ones with their
    classification; [calculate_fire_statistics] applied to these indices,
    when none of its calls fails, returns statistics whose burned area,
    once fetched, is 0 and whose class-1 area is the whole area of the
    sampled pixels (both fetches fail when the region exceeds the pixel
    cap). *)
Theorem empty_imagery_gives_class_1_everywhere
    (svc : Service) (before_date after_date : Date) (aoi : Geometry) (w : list string) :
  ee.items svc (before_collection before_date aoi) = [] ->
  (forall c, c <> Call_bandNames_getInfo -> failure svc c = None) ->
  exists (indices : gmap string ee.Image) (stats : Statistics) (s1 : ee.Dictionary),
    main_indices svc true before_date after_date aoi w = (Returned indices, w) /\
    indices !! "dnbr" = Some (ee.Constant 0) /\
    indices !! "burn_severity" = Some (classify_burn_severity (ee.Constant 0)) /\
    calculate_fire_statistics svc indices aoi w = (Returned (Some stats), w) /\
    severity_stats stats !! "severity_1" = Some s1 /\
    ee.fetch svc (burned_area stats) =
      (if Qlt_bool 1000000000 (inject_Z (Z.of_nat (List.length (sample svc aoi 30))))
       then inl (Exc "Too many pixels in the region")
       else inr 0) /\
    ee.fetch svc s1 =
      (if Qlt_bool 1000000000 (inject_Z (Z.of_nat (List.length (sample svc aoi 30))))
       then inl (Exc "Too many pixels in the region")
       else inr (ee.weighted_sum svc area_image (sample svc aoi 30))).
Proof.
  intros Hempty Hok.
  assert (Hrun : calculate_fire_indices svc
                   (ee.clip (ee.median (before_collection before_date aoi)) aoi)
                   (ee.clip (ee.median (after_collection after_date aoi)) aoi) w
                 = (Returned empty_indices, w)).
  { unfold calculate_fire_indices, ee.bandNames_getInfo, ee_call, try_except, bind, ret, raise.
    destruct (failure svc Call_bandNames_getInfo); [reflexivity|].
    cbn [ee.bandNames]. rewrite Hempty. reflexivity. }
  set (indices := <["burn_severity" := classify_burn_severity (ee.Constant 0)]> empty_indices).
  assert (Hmain : main_indices svc true before_date after_date aoi w = (Returned indices, w)).
  { unfold main_indices, load_fire_datasets.
    cbn [list_to_map foldr uncurry fst snd].
    rewrite lookup_insert_eq, lookup_insert_ne by discriminate. rewrite lookup_insert_eq.
    unfold bind. rewrite Hrun. reflexivity. }
  assert (Hd : indices !! "dnbr" = Some (ee.Constant 0)) by reflexivity.
  assert (Hs : indices !! "burn_severity" = Some (classify_burn_severity (ee.Constant 0)))
    by reflexivity.
  assert (Hstats : exists stats,
             fire_statistics_try svc indices aoi w = (Returned (Some stats), w)).
  { unfold fire_statistics_try, subscript, for_range. rewrite Hd, Hs.
    rewrite !bool_decide_eq_true_2 by eauto.
    cbn [for_range_from]. unfold bind, ee_call, ret.
    rewrite !Hok by discriminate. eauto. }
  destruct Hstats as (stats & Hstats).
  destruct (fire_statistics_try_returns svc indices aoi w w stats Hstats)
    as (dnbr' & severity & Hd' & Hs' & _ & Hburned & Hclass).
  rewrite Hd in Hd'. injection Hd' as <-. rewrite Hs in Hs'. injection Hs' as <-.
  eexists indices, stats, _.
  split; [exact Hmain|]. split; [exact Hd|]. split; [exact Hs|].
  split; [rewrite calculate_fire_statistics_run, Hstats; reflexivity|].
  split; [exact (Hclass 1%nat ltac:(lia))|].
  split.
  - rewrite Hburned. unfold ee.fetch.
    cbn [ee.geometry ee.scale ee.maxPixels ee.input].
    destruct (Qlt_bool 1000000000 _); [reflexivity|].
    f_equal. apply weighted_sum_no_pixel. intros p. reflexivity.
  - unfold ee.fetch. cbn [ee.geometry ee.scale ee.maxPixels ee.input].
    destruct (Qlt_bool 1000000000 _); [reflexivity|].
    f_equal; apply weighted_sum_same_pixels; intros p; reflexivity.
Qed.

Lemma empty_imagery_gives_class_1_everywhere_witness :
  exists (indices : gmap string ee.Image) (stats : Statistics),
    main_indices (Demo.service [] Demo.no_failure) true Demo.before_date Demo.after_date
      Demo.aoi [] = (Returned indices, []) /\
    calculate_fire_statistics (Demo.service [] Demo.no_failure) indices Demo.aoi []
    = (Returned (Some stats), []) /\
    ee.fetch (Demo.service [] Demo.no_failure) (burned_area stats) = inr 0.
Proof.
  destruct (empty_imagery_gives_class_1_everywhere (Demo.service [] Demo.no_failure)
              Demo.before_date Demo.after_date Demo.aoi [] eq_refl (fun _ _ => eq_refl))
    as (indices & stats & s1 & Hmain & _ & _ & Hrun & _ & Hburned & _).
  exists indices, stats. split; [exact Hmain|]. split; [exact Hrun|].
  rewrite Hburned. reflexivity.
Defined.

(** X8: the part of [main] that fills [indices] returns without a warning,
    whatever the band-name round trip answers; the indices always hold
    dnbr; they hold burn_severity exactly when the severity option is on;
    and with the option off [calculate_fire_statistics] applied to them
    returns [None]. *)
Theorem main_indices_always_returns
    (svc : Service) (show_severity : bool) (before_date after_date : Date)
    (aoi : Geometry) (w : list string) :
  exists indices : gmap string ee.Image,
    main_indices svc show_severity before_date after_date aoi w = (Returned indices, w) /\
    is_Some (indices !! "dnbr") /\
    (is_Some (indices !! "burn_severity") <-> show_severity = true) /\
    (show_severity = false ->
     exists w' : list string,
       calculate_fire_statistics svc indices aoi w = (Returned None, w')).
Proof.
  unfold main_indices, load_fire_datasets.
  cbn [list_to_map foldr uncurry fst snd].
  rewrite lookup_insert_eq, lookup_insert_ne by discriminate. rewrite lookup_insert_eq.
  unfold bind.
  destruct (calculate_fire_indices svc _ _ w) as [[m|e] w1] eqn:Hrun.
  2:{ destruct (calculate_fire_indices_cases svc
                  (ee.clip (ee.median (before_collection before_date aoi)) aoi)
                  (ee.clip (ee.median (after_collection after_date aoi)) aoi) w) as [H|H];
        rewrite H in Hrun; discriminate. }
  destruct (calculate_fire_indices_has_dnbr svc _ _ w w1 m Hrun) as (-> & [dnbr Hd] & Hs).
  rewrite Hd. destruct show_severity; unfold ret.
  - eexists. split; [reflexivity|].
    rewrite lookup_insert_ne by discriminate. rewrite lookup_insert_eq.
    split; [eauto|]. split; [split; eauto | discriminate].
  - exists m. split; [reflexivity|]. split; [eauto|].
    split; [rewrite Hs; split; [intros [? ?]|]; discriminate|].
    intros _. rewrite calculate_fire_statistics_run.
    destruct (fire_statistics_try_no_severity svc m aoi w Hs)
      as [(w' & -> & _) | (e & ->)]; eauto.
Qed.

(** ** Start-up: PROJ data and the connection test *)

Ltac io_unfold :=
  unfold io_try, io_bind, io_ret, io_raise, lib, logger, st_show, print, getenv,
    getenv_default, setenv, set_environ, path_exists in *.

(** What one run of [set_proj_data] does. *)
Lemma set_proj_data_sets_only_proj_variables_aux
    (libs : Libs) (w w' : World) (r : Raise + unit) :
  gee_auth.set_proj_data libs w = (r, w') ->
  (forall e, r = inl e -> is_Exception e = false) /\
  calls w' = (calls w ++ [pyproj_set_data_dir])%list /\
  (environ w' = environ w \/
   exists prefix : string,
     libs (calls w) pyproj_set_data_dir = None /\
     environ w !! "CONDA_PREFIX" = Some prefix /\
     prefix <> "" /\
     path_join (path_join prefix "share") "proj" ∈ existing_paths w /\
     environ w' =
       <["PROJ_LIB" := path_join (path_join prefix "share") "proj"]>
         (<["PROJ_DATA" := path_join (path_join prefix "share") "proj"]> (environ w))) /\
  existing_paths w' = existing_paths w /\
  secrets w' = secrets w /\
  dotenv_file w' = dotenv_file w /\
  shown w' = shown w /\
  printed w' = printed w.
Proof.
  unfold gee_auth.set_proj_data. io_unfold.
  destruct (libs (calls w) pyproj_set_data_dir) as [e|] eqn:Hlib.
  - cbn. destruct (is_Exception e) eqn:He; intros [= <- <-]; cbn;
      (split; [intros e' [= <-]; try discriminate; assumption|]); auto 10.
  - cbn. destruct (environ w !! "CONDA_PREFIX") as [prefix|] eqn:Hp; cbn.
    + destruct (String.eqb_spec prefix "") as [->|Hne]; cbn.
      * intros [= <- <-]; cbn. split; [discriminate|]. auto 10.
      * destruct (bool_decide (path_join (path_join prefix "share") "proj"
                                 ∈ existing_paths w)) eqn:Hex; cbn;
          intros [= <- <-]; cbn; (split; [discriminate|]); (split; [reflexivity|]);
          (split; [|auto 10]).
        -- right. exists prefix. apply bool_decide_eq_true_1 in Hex. auto 10.
        -- left. reflexivity.
    + intros [= <- <-]; cbn. split; [discriminate|]. auto 10.
Qed.

(** X9: [set_proj_data] never raises an [Exception]; it makes the one
    library call [pyproj.datadir.set_data_dir()]; and it leaves the
    environment as it is, or, when that call returned, CONDA_PREFIX is set
    and not empty and its share/proj directory exists, sets PROJ_DATA and
    PROJ_LIB to that directory and changes no other variable. *)
Theorem set_proj_data_sets_only_proj_variables
    (libs : Libs) (w w' : World) (r : Raise + unit) :
  gee_auth.set_proj_data libs w = (r, w') ->
  (forall e, r = inl e -> is_Exception e = false) /\
  calls w' = (calls w ++ [pyproj_set_data_dir])%list /\
  (environ w' = environ w \/
   exists prefix : string,
     libs (calls w) pyproj_set_data_dir = None /\
     environ w !! "CONDA_PREFIX" = Some prefix /\
     prefix <> "" /\
     path_join (path_join prefix "share") "proj" ∈ existing_paths w /\
     environ w' =
       <["PROJ_LIB" := path_join (path_join prefix "share") "proj"]>
         (<["PROJ_DATA" := path_join (path_join prefix "share") "proj"]> (environ w))) /\
  existing_paths w' = existing_paths w /\
  secrets w' = secrets w /\
  dotenv_file w' = dotenv_file w /\
  shown w' = shown w /\
  printed w' = printed w.
Proof.
  exact (set_proj_data_sets_only_proj_variables_aux libs w w' r).
Qed.

Lemma set_proj_data_sets_only_proj_variables_witness :
  exists w' : World,
    gee_auth.set_proj_data Startup.all_fine Startup.conda_world = (inr tt, w') /\
    calls w' = [pyproj_set_data_dir] /\
    environ w' !! "PROJ_DATA" = Some "/opt/conda/share/proj" /\
    environ w' !! "CONDA_PREFIX" = Some "/opt/conda".
Proof.
  eassert (Hrun : gee_auth.set_proj_data Startup.all_fine Startup.conda_world
                  = (inr tt, _)) by (vm_compute; reflexivity).
  destruct (set_proj_data_sets_only_proj_variables Startup.all_fine Startup.conda_world
              _ _ Hrun) as (_ & Hcalls & _).
  eexists. split; [exact Hrun|]. split; [exact Hcalls|].
  split; vm_compute; reflexivity.
Defined.

(** When the PROJ call raises nothing but an [Exception], [set_proj_data]
    returns, and what the rest of [initialize_ee] reads is unchanged. *)
Lemma set_proj_data_returns (libs : Libs) (w : World) :
  (forall e, libs (calls w) pyproj_set_data_dir = Some e -> is_Exception e = true) ->
  exists w1 : World,
    gee_auth.set_proj_data libs w = (inr tt, w1) /\
    calls w1 = (calls w ++ [pyproj_set_data_dir])%list /\
    environ w1 !! "GEE_PROJECT_ID" = environ w !! "GEE_PROJECT_ID" /\
    environ w1 !! "GOOGLE_APPLICATION_CREDENTIALS"
    = environ w !! "GOOGLE_APPLICATION_CREDENTIALS" /\
    existing_paths w1 = existing_paths w /\
    shown w1 = shown w /\
    printed w1 = printed w.
Proof.
  intros Hexc.
  destruct (gee_auth.set_proj_data libs w) as [r w1] eqn:Hrun.
  destruct (set_proj_data_sets_only_proj_variables_aux libs w w1 r Hrun)
    as (Hr & Hcalls & Henv & Hpaths & _ & _ & Hshown & Hprinted).
  exists w1. destruct r as [e|[]].
  - exfalso. specialize (Hr e eq_refl).
    revert Hrun. unfold gee_auth.set_proj_data. io_unfold.
    destruct (libs (calls w) pyproj_set_data_dir) as [e'|] eqn:Hlib.
    + cbn. rewrite (Hexc e' eq_refl). discriminate.
    + cbn. destruct (truthy (environ w !! "CONDA_PREFIX")); cbn; [|discriminate].
      destruct (bool_decide _); cbn; discriminate.
  - split; [reflexivity|]. split; [exact Hcalls|].
    assert (Hframe : forall key, key <> "PROJ_DATA" -> key <> "PROJ_LIB" ->
                                 environ w1 !! key = environ w !! key).
    { intros key H1 H2. destruct Henv as [-> | (prefix & _ & _ & _ & _ & ->)];
        [reflexivity|]. rewrite !lookup_insert_ne by congruence. reflexivity. }
    split; [apply Hframe; discriminate|]. split; [apply Hframe; discriminate|]. auto.
Qed.

(** ** Start-up: [initialize_ee] *)

(** X10: [initialize_ee] never raises an [Exception] (its docstring
    announces [ValueError] and [ee.EEException]; both end as [False]): what
    escapes is not an [Exception] subclass, and whenever it returns [False]
    the last line it logged is the error "Failed to initialize Earth
    Engine: ...". *)
Theorem initialize_ee_never_raises_Exception
    (libs : Libs) (project_id : option string) (use_service_account : bool)
    (credentials_path : option string) (use_high_volume : bool)
    (w w' : World) (r : Raise + bool) :
  gee_auth.initialize_ee libs project_id use_service_account credentials_path
    use_high_volume w = (r, w') ->
  match r with
  | inl e => is_Exception e = false
  | inr false =>
      exists msg : string,
        last (logged w') = Some (ERROR, "Failed to initialize Earth Engine: " ++ msg)
  | inr true => True
  end.
Proof.
  unfold gee_auth.initialize_ee, io_try, io_bind.
  destruct (gee_auth.set_proj_data libs w) as [[e|[]] w1].
  2: destruct (gee_auth.resolve_project_id project_id w1) as [[e|p] w2].
  3: destruct ((if use_service_account
                then gee_auth.service_account_branch libs p credentials_path use_high_volume
                else gee_auth.user_branch libs p) w2) as [[e|[]] w3].
  4: destruct (gee_auth.test_connection libs w3) as [[e|b] w4].
  all: try (destruct (is_Exception e) eqn:He;
            [unfold logger, io_ret; cbn; intros [= <- <-]; cbn;
             eexists; rewrite last_snoc; reflexivity
            | intros [= <- <-]; exact He]).
  unfold io_ret. intros [= <- <-]. exact I.
Qed.

Lemma initialize_ee_never_raises_Exception_witness :
  exists (w' : World) (msg : string),
    gee_auth.initialize_ee Startup.all_fine None false None false (Startup.world ∅)
    = (inr false, w') /\
    last (logged w') = Some (ERROR, "Failed to initialize Earth Engine: " ++ msg).
Proof.
  pose proof (initialize_ee_never_raises_Exception Startup.all_fine None false None false
                (Startup.world ∅) _ _ (surjective_pairing _)) as H.
  cbn in H. destruct H as (msg & Hmsg).
  eexists _, msg. split; [reflexivity | exact Hmsg].
Defined.

Lemma resolve_project_id_missing (project_id : option string) (w : World) :
  truthy project_id = false ->
  truthy (environ w !! "GEE_PROJECT_ID") = false ->
  gee_auth.resolve_project_id project_id w = (inl gee_auth.project_id_missing, w).
Proof.
  intros H1 H2. unfold gee_auth.resolve_project_id. io_unfold.
  rewrite H1. cbn. rewrite H2. reflexivity.
Qed.

(** X11: without a project id (the argument is [None] or empty and
    GEE_PROJECT_ID is unset or empty), [initialize_ee] returns [False]; it
    has called no Earth Engine function at all, and the last line it logged
    is the error that the project id must be provided. *)
Theorem initialize_ee_needs_project_id
    (libs : Libs) (project_id : option string) (use_service_account : bool)
    (credentials_path : option string) (use_high_volume : bool) (w : World) :
  truthy project_id = false ->
  truthy (environ w !! "GEE_PROJECT_ID") = false ->
  (forall e, libs (calls w) pyproj_set_data_dir = Some e -> is_Exception e = true) ->
  exists w' : World,
    gee_auth.initialize_ee libs project_id use_service_account credentials_path
      use_high_volume w = (inr false, w') /\
    calls w' = (calls w ++ [pyproj_set_data_dir])%list /\
    last (logged w') =
      Some (ERROR,
            "Failed to initialize Earth Engine: Project ID must be provided or set in GEE_PROJECT_ID environment variable").
Proof.
  intros Hp Henv Hexc.
  destruct (set_proj_data_returns libs w Hexc)
    as (w1 & Hrun & Hcalls & Hid & _).
  unfold gee_auth.initialize_ee, io_try, io_bind. rewrite Hrun.
  rewrite (resolve_project_id_missing project_id w1 Hp) by (rewrite Hid; exact Henv).
  cbn. eexists. split; [reflexivity|]. cbn.
  split; [exact Hcalls | apply last_snoc].
Qed.

Lemma initialize_ee_needs_project_id_witness :
  exists w' : World,
    gee_auth.initialize_ee Startup.all_fine (Some "") true None true
      (Startup.world {["GEE_PROJECT_ID" := ""]}) = (inr false, w') /\
    calls w' = [pyproj_set_data_dir].
Proof.
  destruct (initialize_ee_needs_project_id Startup.all_fine (Some "") true None true
              (Startup.world {["GEE_PROJECT_ID" := ""]}))
    as (w' & Hrun & Hcalls & _).
  - reflexivity.
  - reflexivity.
  - discriminate.
  - exists w'. split; [exact Hrun | exact Hcalls].
Defined.

Lemma resolve_project_id_argument (p : string) (w : World) :
  p <> "" -> gee_auth.resolve_project_id (Some p) w = (inr p, w).
Proof.
  intros Hp. unfold gee_auth.resolve_project_id, truthy.
  rewrite (proj2 (String.eqb_neq p "") Hp). reflexivity.
Qed.

Lemma test_connection_returns (libs : Libs) (w : World) :
  (forall e, libs (calls w) ee_Image_getInfo = Some e -> is_Exception e = true) ->
  exists (b : bool) (w' : World),
    gee_auth.test_connection libs w = (inr b, w') /\
    calls w' = (calls w ++ [ee_Image_getInfo])%list /\
    (b = true <-> libs (calls w) ee_Image_getInfo = None) /\
    (forall e, libs (calls w) ee_Image_getInfo = Some e ->
               last (logged w') =
               Some (ERROR, "Earth Engine connection test failed: " ++ exc_message e)).
Proof.
  intros Hexc. unfold gee_auth.test_connection. io_unfold.
  destruct (libs (calls w) ee_Image_getInfo) as [e|] eqn:Hlib; cbn.
  - rewrite (Hexc e eq_refl). cbn. eexists _, _. split; [reflexivity|]. cbn.
    split; [reflexivity|]. split; [split; discriminate|].
    intros e' [= <-]. apply last_snoc.
  - eexists _, _. split; [reflexivity|]. cbn.
    split; [reflexivity|]. split; [tauto | discriminate].
Qed.

(** X12: the result of the connection test is not used: in user mode with
    a project id, when [ee.Initialize] returns, [initialize_ee] returns
    [True] whether [ee.Image(1).getInfo()] returns or raises an
    [Exception]; in the second case the last line logged is the error of
    the failed connection test. *)
Theorem initialize_ee_ignores_connection_test
    (libs : Libs) (p : string) (credentials_path : option string)
    (use_high_volume : bool) (w : World) :
  p <> "" ->
  (forall history c e, libs history c = Some e -> is_Exception e = true) ->
  libs (calls w ++ [pyproj_set_data_dir])%list (ee_Initialize None (Some p) None) = None ->
  exists w' : World,
    gee_auth.initialize_ee libs (Some p) false credentials_path use_high_volume w
    = (inr true, w') /\
    calls w' = (calls w ++ [pyproj_set_data_dir; ee_Initialize None (Some p) None;
                            ee_Image_getInfo])%list /\
    forall e,
      libs (calls w ++ [pyproj_set_data_dir; ee_Initialize None (Some p) None])%list
        ee_Image_getInfo = Some e ->
      last (logged w') =
      Some (ERROR, "Earth Engine connection test failed: " ++ exc_message e).
Proof.
  intros Hp Hexc Hinit.
  destruct (set_proj_data_returns libs w (Hexc _ _)) as (w1 & Hrun & Hcalls & _).
  unfold gee_auth.initialize_ee, io_try, io_bind. rewrite Hrun.
  rewrite (resolve_project_id_argument p w1 Hp).
  unfold gee_auth.user_branch. io_unfold. rewrite Hcalls, Hinit. cbn.
  match goal with
  | |- context [gee_auth.test_connection libs ?w3] =>
      destruct (test_connection_returns libs w3 (Hexc _ _))
        as (b & w4 & Htest & Hcalls4 & _ & Hlog)
  end.
  rewrite Htest. exists w4. split; [reflexivity|].
  cbn in Hcalls4, Hlog. split.
  - rewrite Hcalls4, <- !app_assoc. reflexivity.
  - intros e He. apply Hlog. rewrite <- He, <- !app_assoc. reflexivity.
Qed.

Lemma initialize_ee_ignores_connection_test_witness :
  exists w' : World,
    gee_auth.initialize_ee Startup.getInfo_times_out (Some "ee-jonahlipsitt") false None false
      (Startup.world ∅) = (inr true, w') /\
    last (logged w') =
      Some (ERROR, "Earth Engine connection test failed: Computation timed out.").
Proof.
  destruct (initialize_ee_ignores_connection_test Startup.getInfo_times_out
              "ee-jonahlipsitt" None false (Startup.world ∅))
    as (w' & Hrun & _ & Hlog).
  - discriminate.
  - intros history c e. destruct c; cbn; try discriminate. intros [= <-]. reflexivity.
  - reflexivity.
  - exists w'. split; [exact Hrun|]. apply (Hlog _ eq_refl).
Defined.

(** X13: in user mode, [ee.Authenticate] is called exactly when the first
    [ee.Initialize] raises [ee.EEException]: another [Exception] makes
    [initialize_ee] return [False] at once; after an [EEException] it calls
    [ee.Authenticate] and [ee.Initialize] again, and returns [True] when
    both return. *)
Theorem initialize_ee_authenticates_on_EEException
    (libs : Libs) (p : string) (credentials_path : option string)
    (use_high_volume : bool) (w : World) (e : Raise) :
  p <> "" ->
  (forall history c e', libs history c = Some e' -> is_Exception e' = true) ->
  libs (calls w ++ [pyproj_set_data_dir])%list (ee_Initialize None (Some p) None) = Some e ->
  let first := (calls w ++ [pyproj_set_data_dir; ee_Initialize None (Some p) None])%list in
  (is_EEException e = false ->
   exists w' : World,
     gee_auth.initialize_ee libs (Some p) false credentials_path use_high_volume w
     = (inr false, w') /\
     calls w' = first) /\
  (is_EEException e = true ->
   exists (b : bool) (w' : World) (later : list LibCall),
     gee_auth.initialize_ee libs (Some p) false credentials_path use_high_volume w
     = (inr b, w') /\
     calls w' = (first ++ ee_Authenticate :: later)%list /\
     (libs first ee_Authenticate = None ->
      libs (first ++ [ee_Authenticate])%list (ee_Initialize None (Some p) None) = None ->
      b = true)).
Proof.
  intros Hp Hexc Hinit first.
  destruct (set_proj_data_returns libs w (Hexc _ _)) as (w1 & Hrun & Hcalls & _).
  unfold gee_auth.initialize_ee, io_try, io_bind. rewrite Hrun.
  rewrite (resolve_project_id_argument p w1 Hp).
  unfold gee_auth.user_branch. io_unfold. rewrite Hcalls, Hinit. cbn.
  rewrite <- ?app_assoc. cbn [app]. fold first.
  split; intros Hclass; rewrite Hclass.
  - rewrite (Hexc _ _ _ Hinit). cbn. eexists. split; reflexivity.
  - cbn. rewrite <- ?app_assoc. cbn [app].
    change (calls w ++ [pyproj_set_data_dir; ee_Initialize None (Some p) None;
                        ee_Authenticate])%list
      with (calls w ++ [pyproj_set_data_dir; ee_Initialize None (Some p) None]
                    ++ [ee_Authenticate])%list.
    rewrite (app_assoc (calls w)). fold first.
    destruct (libs first ee_Authenticate) as [e1|] eqn:H1.
    + rewrite (Hexc _ _ _ H1). exists false. eexists _, []. cbn.
      split; [reflexivity|]. split; [reflexivity | discriminate].
    + cbn [calls environ existing_paths secrets dotenv_file logged shown printed].
      destruct (libs (first ++ [ee_Authenticate])%list (ee_Initialize None (Some p) None))
        as [e2|] eqn:H2.
      * rewrite (Hexc _ _ _ H2). exists false. eexists _, [_]. cbn.
        split; [reflexivity|]. split; [|discriminate].
        rewrite <- !app_assoc. reflexivity.
      * cbn.
        match goal with
        | |- context [gee_auth.test_connection libs ?w3] =>
            destruct (test_connection_returns libs w3 (Hexc _ _))
              as (b & w4 & Htest & Hcalls4 & _)
        end.
        rewrite Htest. exists true, w4, [ee_Initialize None (Some p) None; ee_Image_getInfo].
        split; [reflexivity|]. cbn in Hcalls4.
        split; [|reflexivity].
        rewrite Hcalls4. rewrite <- !app_assoc. reflexivity.
Qed.

Lemma initialize_ee_authenticates_on_EEException_witness :
  exists (w' : World) (later : list LibCall),
    gee_auth.initialize_ee Startup.needs_authentication (Some "ee-jonahlipsitt") false None
      false (Startup.world ∅) = (inr true, w') /\
    calls w' = ([pyproj_set_data_dir; ee_Initialize None (Some "ee-jonahlipsitt") None]
                ++ ee_Authenticate :: later)%list.
Proof.
  destruct (initialize_ee_authenticates_on_EEException Startup.needs_authentication
              "ee-jonahlipsitt" None false (Startup.world ∅)
              {| exc_class := EEException;
                 exc_message := "Please authorize access to your Earth Engine account" |})
    as (_ & H).
  - discriminate.
  - intros history c e'. destruct c; cbn; try discriminate.
    destruct (existsb _ history); [discriminate|]. intros [= <-]. reflexivity.
  - reflexivity.
  - destruct (H eq_refl) as (b & w' & later & Hrun & Hcalls & Hb).
    rewrite (Hb eq_refl eq_refl) in Hrun. exists w', later. split; assumption.
Defined.

(** ** Start-up: what a run leaves alone *)

Section Keeps.

Context (R : World -> World -> Prop) `{!Reflexive R} `{!Transitive R}.

Lemma keeps_ret {A} (a : A) : keeps R (io_ret a).
Proof. intros w r w' [= <- <-]. reflexivity. Qed.

Lemma keeps_raise {A} (e : Raise) : keeps R (@io_raise A e).
Proof. intros w r w' [= <- <-]. reflexivity. Qed.

Lemma keeps_bind {A B} (m : IO A) (k : A -> IO B) :
  keeps R m -> (forall a, keeps R (k a)) -> keeps R (io_bind m k).
Proof.
  intros Hm Hk w r w'. unfold io_bind.
  destruct (m w) as [[e|a] w1] eqn:Hrun.
  - intros [= <- <-]. exact (Hm _ _ _ Hrun).
  - intros Hrun'. transitivity w1; [exact (Hm _ _ _ Hrun) | exact (Hk _ _ _ _ Hrun')].
Qed.

Lemma keeps_try {A} (body : IO A) (caught : Raise -> bool) (handler : Raise -> IO A) :
  keeps R body -> (forall e, keeps R (handler e)) -> keeps R (io_try body caught handler).
Proof.
  intros Hm Hk w r w'. unfold io_try.
  destruct (body w) as [[e|a] w1] eqn:Hrun.
  - destruct (caught e).
    + intros Hrun'. transitivity w1; [exact (Hm _ _ _ Hrun) | exact (Hk _ _ _ _ Hrun')].
    + intros [= <- <-]. exact (Hm _ _ _ Hrun).
  - intros [= <- <-]. exact (Hm _ _ _ Hrun).
Qed.

Lemma keeps_try2 {A} (body : IO A) (caught1 caught2 : Raise -> bool)
    (handler1 handler2 : Raise -> IO A) :
  keeps R body -> (forall e, keeps R (handler1 e)) -> (forall e, keeps R (handler2 e)) ->
  keeps R (run_dashboard.io_try2 body caught1 handler1 caught2 handler2).
Proof.
  intros Hm H1 H2 w r w'. unfold run_dashboard.io_try2.
  destruct (body w) as [[e|a] w1] eqn:Hrun.
  - destruct (caught1 e); [|destruct (caught2 e)].
    + intros Hrun'. transitivity w1; [exact (Hm _ _ _ Hrun) | exact (H1 _ _ _ _ Hrun')].
    + intros Hrun'. transitivity w1; [exact (Hm _ _ _ Hrun) | exact (H2 _ _ _ _ Hrun')].
    + intros [= <- <-]. exact (Hm _ _ _ Hrun).
  - intros [= <- <-]. exact (Hm _ _ _ Hrun).
Qed.

Lemma keeps_if {A} (b : bool) (m1 m2 : IO A) :
  keeps R m1 -> keeps R m2 -> keeps R (if b then m1 else m2).
Proof. destruct b; auto. Qed.

End Keeps.

#[local] Instance calls_only_reflexive (Q : LibCall -> Prop) : Reflexive (calls_only Q).
Proof. intros w. exists []. rewrite app_nil_r. split; [reflexivity | constructor]. Qed.

#[local] Instance calls_only_transitive (Q : LibCall -> Prop) : Transitive (calls_only Q).
Proof.
  intros w1 w2 w3 (l1 & H1 & Q1) (l2 & H2 & Q2). exists (l1 ++ l2)%list.
  split; [rewrite H2, H1, app_assoc; reflexivity | apply Forall_app; split; assumption].
Qed.

#[local] Instance same_shown_reflexive : Reflexive same_shown.
Proof. intros w. reflexivity. Qed.

#[local] Instance same_shown_transitive : Transitive same_shown.
Proof. intros w1 w2 w3 H1 H2. unfold same_shown in *. congruence. Qed.

#[local] Instance keeps_variables_reflexive : Reflexive keeps_variables.
Proof. intros w key value H. exact H. Qed.

#[local] Instance keeps_variables_transitive : Transitive keeps_variables.
Proof. intros w1 w2 w3 H1 H2 key value H. apply H2, H1, H. Qed.

(** The library call is the only primitive that adds to the calls. *)
Lemma calls_only_lib (Q : LibCall -> Prop) (libs : Libs) (c : LibCall) :
  Q c -> keeps (calls_only Q) (lib libs c).
Proof.
  intros Hc w r w'. unfold lib.
  destruct (libs (calls w) c); intros [= <- <-]; exists [c]; cbn; auto.
Qed.

Lemma calls_only_same (Q : LibCall -> Prop) (w w' : World) :
  calls w' = calls w -> calls_only Q w w'.
Proof. intros H. exists []. rewrite app_nil_r. split; [exact H | constructor]. Qed.

Lemma calls_only_logger (Q : LibCall -> Prop) (level : Level) (msg : string) :
  keeps (calls_only Q) (logger level msg).
Proof. intros w r w' [= <- <-]. apply calls_only_same. reflexivity. Qed.

Lemma calls_only_print (Q : LibCall -> Prop) (msg : string) :
  keeps (calls_only Q) (print msg).
Proof. intros w r w' [= <- <-]. apply calls_only_same. reflexivity. Qed.

Lemma calls_only_getenv (Q : LibCall -> Prop) (key : string) :
  keeps (calls_only Q) (getenv key).
Proof. intros w r w' [= <- <-]. apply calls_only_same. reflexivity. Qed.

Lemma calls_only_path_exists (Q : LibCall -> Prop) (path : string) :
  keeps (calls_only Q) (path_exists path).
Proof. intros w r w' [= <- <-]. apply calls_only_same. reflexivity. Qed.

Lemma calls_only_set_proj_data (Q : LibCall -> Prop) (libs : Libs) :
  Q pyproj_set_data_dir -> keeps (calls_only Q) (gee_auth.set_proj_data libs).
Proof.
  intros HQ w r w' Hrun.
  destruct (set_proj_data_sets_only_proj_variables_aux libs w w' r Hrun) as (_ & Hcalls & _).
  exists [pyproj_set_data_dir]. auto.
Qed.

Lemma calls_only_resolve_project_id (Q : LibCall -> Prop) (project_id : option string) :
  keeps (calls_only Q) (gee_auth.resolve_project_id project_id).
Proof.
  unfold gee_auth.resolve_project_id.
  apply keeps_if; [|apply keeps_ret; apply _].
  apply keeps_bind; try apply _; [apply calls_only_getenv|].
  intros a. apply keeps_if; [apply keeps_raise | apply keeps_ret]; apply _.
Qed.

Lemma calls_only_test_connection (Q : LibCall -> Prop) (libs : Libs) :
  Q ee_Image_getInfo -> keeps (calls_only Q) (gee_auth.test_connection libs).
Proof.
  intros HQ. unfold gee_auth.test_connection.
  apply keeps_try; try apply _.
  - apply keeps_bind; try apply _; [apply calls_only_lib, HQ|]. intros _.
    apply keeps_bind; try apply _; [apply calls_only_logger|]. intros _.
    apply keeps_ret; apply _.
  - intros e. apply keeps_bind; try apply _; [apply calls_only_logger|]. intros _.
    apply keeps_ret; apply _.
Qed.

Lemma calls_only_service_account_branch (libs : Libs) (project_id : string)
    (credentials_path : option string) (use_high_volume : bool) :
  keeps (calls_only (service_account_call use_high_volume))
    (gee_auth.service_account_branch libs project_id credentials_path use_high_volume).
Proof.
  unfold gee_auth.service_account_branch.
  apply keeps_bind; try apply _.
  { apply keeps_if; [apply calls_only_getenv | apply keeps_ret; apply _]. }
  intros path. apply keeps_bind; try apply _.
  { apply keeps_if; [apply calls_only_path_exists | apply keeps_ret; apply _]. }
  intros found. apply keeps_if; [apply keeps_raise; apply _|].
  apply keeps_bind; try apply _; [apply calls_only_lib; exact I|]. intros _.
  apply keeps_bind; try apply _; [|intros _; apply calls_only_logger].
  destruct use_high_volume; apply calls_only_lib; split; (discriminate || reflexivity).
Qed.

Lemma initialize_ee_service_account_calls_aux
    (libs : Libs) (project_id credentials_path : option string) (use_high_volume : bool) :
  keeps (calls_only (service_account_call use_high_volume))
    (gee_auth.initialize_ee libs project_id true credentials_path use_high_volume).
Proof.
  unfold gee_auth.initialize_ee.
  apply keeps_try; try apply _.
  - apply keeps_bind; try apply _; [apply calls_only_set_proj_data; exact I|]. intros _.
    apply keeps_bind; try apply _; [apply calls_only_resolve_project_id|]. intros p.
    apply keeps_bind; try apply _; [apply calls_only_service_account_branch|]. intros _.
    apply keeps_bind; try apply _; [apply calls_only_test_connection; exact I|]. intros _.
    apply keeps_ret; apply _.
  - intros e. apply keeps_bind; try apply _; [apply calls_only_logger|]. intros _.
    apply keeps_ret; apply _.
Qed.

(** X14: service-account mode never starts the interactive flow: whatever
    the arguments, the environment and the libraries' answers, a run of
    [initialize_ee] with [use_service_account=True] never calls
    [ee.Authenticate], and every [ee.Initialize] it makes is given
    credentials, with the high-volume URL exactly when [use_high_volume]
    is set. *)
Theorem service_account_never_authenticates
    (libs : Libs) (project_id credentials_path : option string) (use_high_volume : bool)
    (w w' : World) (r : Raise + bool) :
  gee_auth.initialize_ee libs project_id true credentials_path use_high_volume w = (r, w') ->
  exists later : list LibCall,
    calls w' = (calls w ++ later)%list /\
    (ee_Authenticate ∉ later) /\
    forall credentials project url,
      ee_Initialize credentials project url ∈ later ->
      credentials <> None /\
      (url = Some gee_auth.high_volume_url <-> use_high_volume = true).
Proof.
  intros Hrun.
  destruct (initialize_ee_service_account_calls_aux libs project_id credentials_path
              use_high_volume w r w' Hrun) as (later & Hcalls & Hall).
  exists later. split; [exact Hcalls|]. rewrite Forall_forall in Hall. split.
  - intros Hin. exact (Hall _ Hin).
  - intros credentials project url Hin. destruct (Hall _ Hin) as [Hc ->].
    split; [exact Hc|]. destruct use_high_volume; split; congruence.
Qed.

Lemma service_account_never_authenticates_witness :
  exists later : list LibCall,
    calls (gee_auth.initialize_ee Startup.all_fine (Some "ee-jonahlipsitt") true None true
             Startup.service_world).2 = later /\
    (ee_Authenticate ∉ later) /\
    ee_ServiceAccountCredentials "/etc/gee/key.json" ∈ later.
Proof.
  destruct (service_account_never_authenticates Startup.all_fine (Some "ee-jonahlipsitt")
              None true Startup.service_world _ _ (surjective_pairing _))
    as (later & Hcalls & Hno & _).
  exists later. split; [exact Hcalls|]. split; [exact Hno|].
  cbn in Hcalls. rewrite <- Hcalls. set_solver.
Defined.

(** X15: in service-account mode with a project id, when no credentials
    file is named ([credentials_path] is [None] or empty and
    GOOGLE_APPLICATION_CREDENTIALS is unset or empty) or the file named
    does not exist, [initialize_ee] returns [False] without any Earth
    Engine call, and the last line it logged is the error that the
    credentials file was not found. *)
Theorem service_account_needs_credentials_file
    (libs : Libs) (p : string) (credentials_path : option string)
    (use_high_volume : bool) (w : World) :
  p <> "" ->
  (forall e, libs (calls w) pyproj_set_data_dir = Some e -> is_Exception e = true) ->
  (forall file : string,
     (if truthy credentials_path then credentials_path
      else environ w !! "GOOGLE_APPLICATION_CREDENTIALS") = Some file ->
     file <> "" -> file ∉ existing_paths w) ->
  exists w' : World,
    gee_auth.initialize_ee libs (Some p) true credentials_path use_high_volume w
    = (inr false, w') /\
    calls w' = (calls w ++ [pyproj_set_data_dir])%list /\
    last (logged w') =
      Some (ERROR,
            "Failed to initialize Earth Engine: Service account credentials file not found. Set GOOGLE_APPLICATION_CREDENTIALS environment variable or provide credentials_path.").
Proof.
  intros Hp Hexc Hfile.
  destruct (set_proj_data_returns libs w Hexc)
    as (w1 & Hrun & Hcalls & _ & Hcred & Hpaths & _).
  unfold gee_auth.initialize_ee, io_try, io_bind. rewrite Hrun.
  rewrite (resolve_project_id_argument p w1 Hp).
  assert (Hbranch : gee_auth.service_account_branch libs p credentials_path use_high_volume w1
                    = (inl gee_auth.credentials_not_found, w1)).
  { unfold gee_auth.service_account_branch. io_unfold.
    destruct (truthy credentials_path) eqn:Ht; cbn.
    - rewrite Ht. cbn. rewrite Hpaths.
      destruct credentials_path as [file|]; [|discriminate].
      rewrite bool_decide_eq_false_2; [reflexivity|]. cbn.
      apply Hfile; [reflexivity|]. intros Hempty. rewrite Hempty in Ht. discriminate.
    - rewrite Hcred.
      destruct (environ w !! "GOOGLE_APPLICATION_CREDENTIALS") as [file|] eqn:Henv; cbn;
        [|reflexivity].
      destruct (String.eqb_spec file "") as [->|Hne]; cbn; [reflexivity|].
      rewrite Hpaths, bool_decide_eq_false_2; [reflexivity|].
      apply Hfile; [reflexivity | exact Hne]. }
  rewrite Hbranch. cbn. eexists. split; [reflexivity|]. cbn.
  split; [exact Hcalls | apply last_snoc].
Qed.

Lemma service_account_needs_credentials_file_witness :
  exists w' : World,
    gee_auth.initialize_ee Startup.all_fine (Some "ee-jonahlipsitt") true
      (Some "/home/me/key.json") false Startup.service_world = (inr false, w') /\
    calls w' = [pyproj_set_data_dir].
Proof.
  destruct (service_account_needs_credentials_file Startup.all_fine "ee-jonahlipsitt"
              (Some "/home/me/key.json") false Startup.service_world)
    as (w' & Hrun & Hcalls & _).
  - discriminate.
  - discriminate.
  - intros file [= <-] _. cbn. set_solver.
  - exists w'. split; [exact Hrun | exact Hcalls].
Defined.

(** ** Start-up: [init_earth_engine] *)

Lemma same_shown_lib (libs : Libs) (c : LibCall) : keeps same_shown (lib libs c).
Proof. intros w r w'. unfold lib. destruct (libs (calls w) c); intros [= <- <-]; reflexivity. Qed.

Lemma same_shown_logger (level : Level) (msg : string) : keeps same_shown (logger level msg).
Proof. intros w r w' [= <- <-]. reflexivity. Qed.

Lemma same_shown_getenv (key : string) : keeps same_shown (getenv key).
Proof. intros w r w' [= <- <-]. reflexivity. Qed.

Lemma same_shown_setenv (key value : string) : keeps same_shown (setenv key value).
Proof. intros w r w' [= <- <-]. reflexivity. Qed.

Lemma same_shown_path_exists (path : string) : keeps same_shown (path_exists path).
Proof. intros w r w' [= <- <-]. reflexivity. Qed.

Lemma same_shown_set_proj_data (libs : Libs) : keeps same_shown (gee_auth.set_proj_data libs).
Proof.
  intros w r w' Hrun.
  destruct (set_proj_data_sets_only_proj_variables_aux libs w w' r Hrun)
    as (_ & _ & _ & _ & _ & _ & Hshown & _).
  exact Hshown.
Qed.

Create HintDb keeps.

#[local] Hint Resolve same_shown_lib same_shown_logger same_shown_getenv same_shown_setenv
  same_shown_path_exists same_shown_set_proj_data
  calls_only_logger calls_only_print calls_only_getenv calls_only_path_exists : keeps.

(** One step through the structure of a start-up function. *)
Ltac keeps_step :=
  first
    [ solve [auto with keeps]
    | apply keeps_ret; apply _
    | apply keeps_raise; apply _
    | apply keeps_bind; try apply _; [ | intros ?]
    | apply keeps_try; try apply _; [ | intros ?]
    | apply keeps_if ].

Lemma same_shown_initialize_ee
    (libs : Libs) (project_id : option string) (use_service_account : bool)
    (credentials_path : option string) (use_high_volume : bool) :
  keeps same_shown
    (gee_auth.initialize_ee libs project_id use_service_account credentials_path
       use_high_volume).
Proof.
  unfold gee_auth.initialize_ee, gee_auth.resolve_project_id,
    gee_auth.service_account_branch, gee_auth.user_branch, gee_auth.test_connection.
  repeat keeps_step.
Qed.

Lemma get_gee_project_id_run (w : World) :
  get_gee_project_id w =
  (inr match secret "gee" "project_id" w with
       | Some v => v
       | None => default "ee-jonahlipsitt" (environ w !! "GEE_PROJECT_ID")
       end, w).
Proof.
  unfold get_gee_project_id, io_try, st_secrets, getenv_default, secret.
  destruct (secrets w) as [s|]; cbn; [|reflexivity].
  destruct (s !! "gee") as [sec|]; cbn; [|reflexivity].
  destruct (sec !! "project_id"); reflexivity.
Qed.

Lemma initialize_ee_escapes
    (libs : Libs) (project_id : option string) (use_service_account : bool)
    (credentials_path : option string) (use_high_volume : bool)
    (w w' : World) (e : Raise) :
  gee_auth.initialize_ee libs project_id use_service_account credentials_path
    use_high_volume w = (inl e, w') ->
  is_Exception e = false.
Proof.
  unfold gee_auth.initialize_ee, io_try.
  destruct (io_bind _ _ w) as [[e'|b] w1]; [|discriminate].
  destruct (is_Exception e') eqn:He; [discriminate|].
  intros [= <- <-]. exact He.
Qed.

(** X16: [init_earth_engine] never raises an [Exception], and it tells the
    user when the dashboard runs without Earth Engine: a run that returns
    [True] shows nothing, and a run that returns [False] shows the
    demo-mode warning followed by information boxes only. *)
Theorem init_earth_engine_warns_of_demo_mode
    (libs : Libs) (w w' : World) (r : Raise + bool) :
  init_earth_engine libs w = (r, w') ->
  match r with
  | inl e => is_Exception e = false
  | inr true => shown w' = shown w
  | inr false =>
      exists infos : list (Widget * string),
        shown w' = (shown w ++ (st_warning_box, demo_mode_warning) :: infos)%list /\
        Forall (fun box => box.1 = st_info_box) infos
  end.
Proof.
  unfold init_earth_engine, io_try, io_bind. rewrite get_gee_project_id_run.
  match goal with
  | |- context [gee_auth.initialize_ee libs ?p false None false w] =>
      destruct (gee_auth.initialize_ee libs p false None false w) as [[e|[]] w1] eqn:Hrun;
      pose proof (same_shown_initialize_ee libs p false None false w _ w1 Hrun) as Hshown
  end; unfold same_shown in Hshown.
  - rewrite (initialize_ee_escapes _ _ _ _ _ _ _ _ Hrun).
    intros [= <- <-]. exact (initialize_ee_escapes _ _ _ _ _ _ _ _ Hrun).
  - unfold io_ret. intros [= <- <-]. exact Hshown.
  - unfold st_show, io_ret. intros [= <- <-]. cbn. rewrite Hshown.
    eexists. rewrite <- !app_assoc. split; [reflexivity|].
    repeat constructor.
Qed.

Lemma init_earth_engine_warns_of_demo_mode_witness :
  exists (w' : World) (infos : list (Widget * string)),
    init_earth_engine Startup.no_earth_engine (Startup.world ∅) = (inr false, w') /\
    shown w' = (st_warning_box, demo_mode_warning) :: infos.
Proof.
  eassert (Hrun : init_earth_engine Startup.no_earth_engine (Startup.world ∅)
                  = (inr false, _)) by (vm_compute; reflexivity).
  destruct (init_earth_engine_warns_of_demo_mode Startup.no_earth_engine
              (Startup.world ∅) _ _ Hrun) as (infos & Hshown & _).
  eexists _, infos. split; [exact Hrun | exact Hshown].
Defined.

Lemma user_branch_run (libs : Libs) (p : string) (w : World) :
  (forall history c e, libs history c = Some e -> is_Exception e = true) ->
  exists (r : Raise + unit) (w' : World) (later : list LibCall),
    gee_auth.user_branch libs p w = (r, w') /\
    calls w' = (calls w ++ ee_Initialize None (Some p) None :: later)%list /\
    forall e, r = inl e -> is_Exception e = true.
Proof.
  intros Hexc. unfold gee_auth.user_branch, io_try, io_bind, lib, logger.
  destruct (libs (calls w) (ee_Initialize None (Some p) None)) as [e1|] eqn:H1.
  - destruct (is_EEException e1).
    + cbn [calls environ existing_paths secrets dotenv_file logged shown printed].
      destruct (libs (calls w ++ [ee_Initialize None (Some p) None])%list ee_Authenticate)
        as [e2|] eqn:H2.
      * eexists _, _, [ee_Authenticate]. split; [reflexivity|]. cbn.
        split; [rewrite <- app_assoc; reflexivity|].
        intros e [= <-]. exact (Hexc _ _ _ H2).
      * cbn [calls environ existing_paths secrets dotenv_file logged shown printed].
        destruct (libs ((calls w ++ [ee_Initialize None (Some p) None]) ++ [ee_Authenticate])%list
                    (ee_Initialize None (Some p) None)) as [e3|] eqn:H3.
        -- eexists _, _, [ee_Authenticate; ee_Initialize None (Some p) None].
           split; [reflexivity|]. cbn.
           split; [rewrite <- !app_assoc; reflexivity|].
           intros e [= <-]. exact (Hexc _ _ _ H3).
        -- eexists _, _, [ee_Authenticate; ee_Initialize None (Some p) None].
           split; [reflexivity|]. cbn.
           split; [rewrite <- !app_assoc; reflexivity | discriminate].
    + eexists _, _, []. split; [reflexivity|]. cbn. split; [reflexivity|].
      intros e [= <-]. exact (Hexc _ _ _ H1).
  - eexists _, _, []. split; [reflexivity|]. cbn. split; [reflexivity | discriminate].
Qed.

Lemma user_mode_starts_with_Initialize
    (libs : Libs) (p : string) (credentials_path : option string)
    (use_high_volume : bool) (w : World) :
  p <> "" ->
  (forall history c e, libs history c = Some e -> is_Exception e = true) ->
  exists (b : bool) (w' : World) (later : list LibCall),
    gee_auth.initialize_ee libs (Some p) false credentials_path use_high_volume w
    = (inr b, w') /\
    calls w' = (calls w ++ pyproj_set_data_dir :: ee_Initialize None (Some p) None :: later)%list.
Proof.
  intros Hp Hexc. unfold gee_auth.initialize_ee, io_try, io_bind.
  destruct (set_proj_data_returns libs w (Hexc _ _)) as (w1 & -> & Hcalls1 & _).
  rewrite (resolve_project_id_argument p w1 Hp).
  destruct (user_branch_run libs p w1 Hexc) as (r2 & w2 & l2 & -> & Hcalls2 & Hr2).
  destruct r2 as [e2|[]].
  - rewrite (Hr2 e2 eq_refl). unfold logger, io_ret.
    eexists false, _, l2. split; [reflexivity|]. cbn.
    rewrite Hcalls2, Hcalls1, <- app_assoc. reflexivity.
  - destruct (test_connection_returns libs w2 (Hexc _ _)) as (b3 & w3 & -> & Hcalls3 & _).
    unfold io_ret. eexists true, w3, (l2 ++ [ee_Image_getInfo])%list.
    split; [reflexivity|].
    rewrite Hcalls3, Hcalls2, Hcalls1, <- !app_assoc. reflexivity.
Qed.

(** X17: the dashboard initialises Earth Engine for the project id of the
    Streamlit secrets ([gee] / [project_id]) when there is one, otherwise
    of GEE_PROJECT_ID, otherwise for "ee-jonahlipsitt"; a missing secrets
    file, section or key is not an error.  With that id not empty and
    libraries that raise [Exception]s only, [init_earth_engine] returns,
    and its first Earth Engine call is [ee.Initialize(project=id)]. *)
Theorem init_earth_engine_uses_configured_project
    (libs : Libs) (w : World) (p : string) :
  (forall history c e, libs history c = Some e -> is_Exception e = true) ->
  p = match secret "gee" "project_id" w with
      | Some v => v
      | None => default "ee-jonahlipsitt" (environ w !! "GEE_PROJECT_ID")
      end ->
  p <> "" ->
  exists (b : bool) (w' : World) (later : list LibCall),
    init_earth_engine libs w = (inr b, w') /\
    calls w' = (calls w ++ pyproj_set_data_dir :: ee_Initialize None (Some p) None :: later)%list.
Proof.
  intros Hexc Hid Hp.
  destruct (user_mode_starts_with_Initialize libs p None false w Hp Hexc)
    as (b & w1 & later & Hrun & Hcalls).
  unfold init_earth_engine, io_try, io_bind. rewrite get_gee_project_id_run, <- Hid, Hrun.
  exists b. destruct b; unfold st_show, io_ret; cbn; eexists _, later;
    (split; [reflexivity | exact Hcalls]).
Qed.

Lemma init_earth_engine_uses_configured_project_witness :
  exists (b : bool) (w' : World) (later : list LibCall),
    init_earth_engine Startup.all_fine (Startup.world {["GEE_PROJECT_ID" := "my-project"]})
    = (inr b, w') /\
    calls w' = pyproj_set_data_dir :: ee_Initialize None (Some "my-project") None :: later.
Proof.
  apply (init_earth_engine_uses_configured_project Startup.all_fine
           (Startup.world {["GEE_PROJECT_ID" := "my-project"]}) "my-project").
  - discriminate.
  - reflexivity.
  - discriminate.
Defined.

(** ** Launch: what a run may raise *)

Lemma escapes_ret {A} (P : Raise -> Prop) (a : A) : escapes P (io_ret a).
Proof. intros w e w'. discriminate. Qed.

Lemma escapes_raise {A} (P : Raise -> Prop) (e : Raise) : P e -> escapes P (@io_raise A e).
Proof. intros He w e' w' [= <- _]. exact He. Qed.

Lemma escapes_bind {A B} (P : Raise -> Prop) (m : IO A) (k : A -> IO B) :
  escapes P m -> (forall a, escapes P (k a)) -> escapes P (io_bind m k).
Proof.
  intros Hm Hk w e w'. unfold io_bind.
  destruct (m w) as [[e1|a] w1] eqn:Hrun.
  - intros [= <- <-]. exact (Hm _ _ _ Hrun).
  - apply Hk.
Qed.

Lemma escapes_try {A} (P : Raise -> Prop) (body : IO A) (caught : Raise -> bool)
    (handler : Raise -> IO A) :
  escapes (fun e => caught e = false -> P e) body ->
  (forall e, escapes P (handler e)) ->
  escapes P (io_try body caught handler).
Proof.
  intros Hm Hk w e w'. unfold io_try.
  destruct (body w) as [[e1|a] w1] eqn:Hrun; [|discriminate].
  destruct (caught e1) eqn:Hc.
  - apply Hk.
  - intros [= <- <-]. exact (Hm _ _ _ Hrun Hc).
Qed.

Lemma escapes_if {A} (P : Raise -> Prop) (b : bool) (m1 m2 : IO A) :
  escapes P m1 -> escapes P m2 -> escapes P (if b then m1 else m2).
Proof. destruct b; auto. Qed.

Lemma escapes_weaken {A} (P Q : Raise -> Prop) (m : IO A) :
  (forall e, P e -> Q e) -> escapes P m -> escapes Q m.
Proof. intros HPQ Hm w e w' Hrun. exact (HPQ _ (Hm _ _ _ Hrun)). Qed.

Lemma escapes_lib (P : Raise -> Prop) (libs : Libs) (c : LibCall) :
  (forall history e, libs history c = Some e -> P e) -> escapes P (lib libs c).
Proof.
  intros Hc w e w'. unfold lib.
  destruct (libs (calls w) c) as [e1|] eqn:H; [|discriminate].
  intros [= <- _]. exact (Hc _ _ H).
Qed.

Lemma escapes_print (P : Raise -> Prop) (msg : string) : escapes P (print msg).
Proof. intros w e w'. discriminate. Qed.

Lemma escapes_getenv (P : Raise -> Prop) (key : string) : escapes P (getenv key).
Proof. intros w e w'. discriminate. Qed.

Lemma escapes_path_exists (P : Raise -> Prop) (path : string) : escapes P (path_exists path).
Proof. intros w e w'. discriminate. Qed.

(** A run that can raise nothing returns. *)
Lemma escapes_nothing_returns {A} (m : IO A) (w : World) :
  escapes (fun _ => False) m -> exists (a : A) (w' : World), m w = (inr a, w').
Proof.
  intros Hm. destruct (m w) as [[e|a] w'] eqn:Hrun; [|eauto].
  destruct (Hm _ _ _ Hrun).
Qed.

(** ** Launch: [check_requirements] *)

Lemma print_each_run (lines : list string) (w : World) :
  exists w' : World,
    run_dashboard.print_each lines w = (inr tt, w') /\
    printed w' = (printed w ++ lines)%list /\
    calls w' = calls w /\
    environ w' = environ w.
Proof.
  revert w. induction lines as [|line lines IH]; intros w.
  - exists w. cbn. rewrite app_nil_r. auto.
  - cbn [run_dashboard.print_each]. unfold io_bind, print.
    match goal with
    | |- context [run_dashboard.print_each lines ?w1] =>
        destruct (IH w1) as (w' & -> & Hp & Hc & He)
    end.
    exists w'. split; [reflexivity|]. cbn in Hp, Hc, He.
    rewrite Hp, <- app_assoc. auto.
Qed.

Section Imports.

Context (libs : Libs) (installed : string -> bool).

(** An import fails exactly for a module that is not installed, and then
    with an [ImportError]. *)
Hypothesis imports :
  forall (history : list LibCall) (name : string),
    match libs history (import_module name) with
    | None => installed name = true
    | Some e => installed name = false /\ is_ImportError e = true
    end.

Lemma find_missing_run (checks : list (string * string)) (missing : list string) (w : World) :
  exists w' : World,
    run_dashboard.find_missing libs checks missing w
    = (inr (missing ++ List.map fst (List.filter (fun c => negb (installed c.2)) checks))%list,
       w') /\
    calls w' = (calls w ++ List.map (fun c => import_module c.2) checks)%list /\
    printed w' = printed w /\
    environ w' = environ w.
Proof.
  revert missing w. induction checks as [|[package_name import_name] checks IH];
    intros missing w.
  - exists w. cbn. rewrite !app_nil_r. auto.
  - cbn [run_dashboard.find_missing]. unfold io_bind, io_try, lib, io_ret.
    pose proof (imports (calls w) import_name) as Himp.
    destruct (libs (calls w) (import_module import_name)) as [e|].
    + destruct Himp as [Hinst ->].
      match goal with
      | |- context [run_dashboard.find_missing libs checks ?m ?w1] =>
          destruct (IH m w1) as (w' & -> & Hc & Hp & He)
      end.
      exists w'. cbn [List.filter List.map snd fst]. rewrite Hinst. cbn [negb List.map fst].
      split; [rewrite <- app_assoc; reflexivity|].
      cbn in Hc, Hp, He. rewrite Hc, <- app_assoc. auto.
    + match goal with
      | |- context [run_dashboard.find_missing libs checks ?m ?w1] =>
          destruct (IH m w1) as (w' & -> & Hc & Hp & He)
      end.
      exists w'. cbn [List.filter List.map snd fst]. rewrite Himp. cbn [negb].
      split; [reflexivity|].
      cbn in Hc, Hp, He. rewrite Hc, <- app_assoc. auto.
Qed.

Lemma check_requirements_run (w : World) :
  let missing :=
    List.map fst (List.filter (fun c => negb (installed c.2)) run_dashboard.required_checks) in
  exists w' : World,
    run_dashboard.check_requirements libs w
    = (inr (match missing with [] => true | _ => false end), w') /\
    calls w' =
      (calls w ++ List.map import_module
                    ["streamlit"; "geemap"; "ee"; "folium"; "plotly"; "pandas"])%list /\
    printed w' =
      (printed w ++
       match missing with
       | [] => []
       | _ => "❌ Missing required packages:"
              :: List.map (fun package => ("   - " ++ package)%string) missing
              ++ [(run_dashboard.nl ++ "💡 Install missing packages with:")%string;
                  "   conda env create -f environment.yml";
                  "   conda activate gee-dashboard"]
       end)%list /\
    environ w' = environ w.
Proof.
  intros missing. unfold run_dashboard.check_requirements, io_bind.
  destruct (find_missing_run run_dashboard.required_checks [] w) as (w1 & -> & Hc & Hp & He).
  cbn [app] in *. fold missing. destruct missing as [|package missing'] eqn:Hm.
  - exists w1. unfold io_ret. rewrite app_nil_r. auto.
  - unfold print at 1. 
    match goal with
    | |- context [run_dashboard.print_each ?lines ?w2] =>
        destruct (print_each_run lines w2) as (w3 & -> & Hp3 & Hc3 & He3)
    end.
    unfold print, io_ret. eexists. split; [reflexivity|]. cbn in *.
    rewrite Hc3, Hp3, Hp, He3, <- !app_assoc. auto.
Qed.

End Imports.

(** X18: [check_requirements] tries all six imports, in the order
    streamlit, geemap, ee, folium, plotly, pandas, also after one has
    failed; it returns [True] exactly when none fails; otherwise it prints
    the heading, one line per missing package in that order, under the
    name of its distribution (earthengine-api for [ee]), and the
    installation hint, and returns [False]. *)
Theorem check_requirements_reports_missing
    (libs : Libs) (installed : string -> bool) (w : World) :
  (forall (history : list LibCall) (name : string),
      match libs history (import_module name) with
      | None => installed name = true
      | Some e => installed name = false /\ is_ImportError e = true
      end) ->
  let missing :=
    List.map fst
      (List.filter (fun c => negb (installed c.2))
         [("streamlit", "streamlit"); ("geemap", "geemap"); ("earthengine-api", "ee");
          ("folium", "folium"); ("plotly", "plotly"); ("pandas", "pandas")]) in
  exists w' : World,
    run_dashboard.check_requirements libs w
    = (inr (match missing with [] => true | _ => false end), w') /\
    calls w' =
      (calls w ++ List.map import_module
                    ["streamlit"; "geemap"; "ee"; "folium"; "plotly"; "pandas"])%list /\
    printed w' =
      (printed w ++
       match missing with
       | [] => []
       | _ => "❌ Missing required packages:"
              :: List.map (fun package => ("   - " ++ package)%string) missing
              ++ [(run_dashboard.nl ++ "💡 Install missing packages with:")%string;
                  "   conda env create -f environment.yml";
                  "   conda activate gee-dashboard"]
       end)%list.
Proof.
  intros Himp missing.
  destruct (check_requirements_run libs installed Himp w) as (w' & Hrun & Hc & Hp & _).
  exists w'. auto.
Qed.

Lemma check_requirements_reports_missing_witness :
  exists w' : World,
    run_dashboard.check_requirements Startup.no_plotly (Startup.world ∅) = (inr false, w') /\
    printed w' =
      ["❌ Missing required packages:";
       "   - plotly";
       (run_dashboard.nl ++ "💡 Install missing packages with:")%string;
       "   conda env create -f environment.yml";
       "   conda activate gee-dashboard"].
Proof.
  destruct (check_requirements_reports_missing Startup.no_plotly
              (fun name => negb (String.eqb name "plotly")) (Startup.world ∅))
    as (w' & Hrun & _ & Hp).
  - intros history name. cbn.
    destruct (String.eqb_spec name "plotly") as [->|Hne]; [split; reflexivity|].
    destruct name as [|a name]; [reflexivity|].
    repeat match goal with
           | |- match (match ?x with _ => _ end) with _ => _ end => destruct x; try reflexivity
           | |- match (if ?x then _ else _) with _ => _ end => destruct x; try reflexivity
           end.
    congruence.
  - exists w'. split; [exact Hrun | exact Hp].
Defined.

(** ** Launch: [check_gee_auth] *)

Lemma check_gee_auth_run (libs : Libs) (w : World) :
  (forall history c e, libs history c = Some e -> ee_call_only c -> is_Exception e = true) ->
  exists (b : bool) (w' : World) (later : list LibCall),
    run_dashboard.check_gee_auth libs w = (inr b, w') /\
    calls w' = (calls w ++ import_module "ee" :: later)%list /\
    (libs (calls w) (import_module "ee") = None ->
     exists later', later = ee_Authenticate :: later') /\
    Forall (fun c => ee_call_only c /\
                     forall credentials url,
                       c <> ee_Initialize credentials (Some "your-project-id") url) later /\
    (b = true ->
     exists history,
       calls w' = (history ++ [ee_Image_getInfo])%list /\
       libs history ee_Image_getInfo = None) /\
    environ w' = environ w.
Proof.
  intros Hexc. unfold run_dashboard.check_gee_auth, io_try, io_bind, lib, getenv, print, io_ret.
  destruct (libs (calls w) (import_module "ee")) as [e0|] eqn:H0.
  { cbv beta iota; rewrite (Hexc _ _ _ H0 I); cbv beta iota. eexists false, _, []. split; [reflexivity|]. cbn.
    split; [reflexivity|]. split; [discriminate|]. split; [constructor|].
    split; [discriminate | reflexivity]. }
  cbv beta iota; cbn [calls environ existing_paths secrets dotenv_file logged shown printed].
  destruct (libs (calls w ++ [import_module "ee"])%list ee_Authenticate) as [e1|] eqn:H1.
  { cbv beta iota; rewrite (Hexc _ _ _ H1 I); cbv beta iota. eexists false, _, [ee_Authenticate].
    split; [reflexivity|]. cbn. rewrite <- app_assoc.
    split; [reflexivity|]. split; [eauto|].
    split; [repeat constructor; discriminate|]. split; [discriminate | reflexivity]. }
  cbv beta iota; cbn [calls environ existing_paths secrets dotenv_file logged shown printed].
  destruct (truthy (environ w !! "GEE_PROJECT_ID")
            && negb (String.eqb (text (environ w !! "GEE_PROJECT_ID")) "your-project-id"))
    eqn:Hproject.
  - apply andb_prop in Hproject. destruct Hproject as [_ Hplace].
    apply negb_true_iff, String.eqb_neq in Hplace.
    set (p := text (environ w !! "GEE_PROJECT_ID")) in *.
    cbv beta iota; cbn [calls environ existing_paths secrets dotenv_file logged shown printed].
    destruct (libs ((calls w ++ [import_module "ee"]) ++ [ee_Authenticate])%list
                (ee_Initialize None (Some p) None)) as [e2|] eqn:H2.
    + cbv beta iota. rewrite (Hexc _ _ _ H2 I); cbv beta iota.
      cbv beta iota; cbn [calls environ existing_paths secrets dotenv_file logged shown printed].
      destruct (libs _ (ee_Initialize None None None)) as [e3|] eqn:H3.
      * cbv beta iota; rewrite (Hexc _ _ _ H3 I); cbv beta iota.
        eexists false, _, [ee_Authenticate; ee_Initialize None (Some p) None;
                           ee_Initialize None None None].
        split; [reflexivity|]. cbn. rewrite <- !app_assoc.
        split; [reflexivity|]. split; [eauto|].
        split; [repeat constructor; congruence|]. split; [discriminate | reflexivity].
      * cbv beta iota; cbn [calls environ existing_paths secrets dotenv_file logged shown printed].
        destruct (libs _ ee_Image_getInfo) as [e4|] eqn:H4.
        -- cbv beta iota; rewrite (Hexc _ _ _ H4 I); cbv beta iota.
           eexists false, _, [ee_Authenticate; ee_Initialize None (Some p) None;
                              ee_Initialize None None None; ee_Image_getInfo].
           split; [reflexivity|]. cbn. rewrite <- !app_assoc.
           split; [reflexivity|]. split; [eauto|].
           split; [repeat constructor; congruence|]. split; [discriminate | reflexivity].
        -- eexists true, _, [ee_Authenticate; ee_Initialize None (Some p) None;
                             ee_Initialize None None None; ee_Image_getInfo].
           split; [reflexivity|]. cbn.
           split; [rewrite <- !app_assoc; reflexivity|]. split; [eauto|].
           split; [repeat constructor; congruence|].
           split; [intros _; eexists; split; [reflexivity | exact H4] | reflexivity].
    + cbv beta iota; cbn [calls environ existing_paths secrets dotenv_file logged shown printed].
      destruct (libs _ ee_Image_getInfo) as [e4|] eqn:H4.
      * cbv beta iota; rewrite (Hexc _ _ _ H4 I); cbv beta iota.
        eexists false, _, [ee_Authenticate; ee_Initialize None (Some p) None; ee_Image_getInfo].
        split; [reflexivity|]. cbn. rewrite <- !app_assoc.
        split; [reflexivity|]. split; [eauto|].
        split; [repeat constructor; congruence|]. split; [discriminate | reflexivity].
      * eexists true, _, [ee_Authenticate; ee_Initialize None (Some p) None; ee_Image_getInfo].
        split; [reflexivity|]. cbn.
        split; [rewrite <- !app_assoc; reflexivity|]. split; [eauto|].
        split; [repeat constructor; congruence|].
        split; [intros _; eexists; split; [reflexivity | exact H4] | reflexivity].
  - cbv beta iota; cbn [calls environ existing_paths secrets dotenv_file logged shown printed].
    destruct (libs ((calls w ++ [import_module "ee"]) ++ [ee_Authenticate])%list
                (ee_Initialize None None None)) as [e3|] eqn:H3.
    + cbv beta iota; rewrite (Hexc _ _ _ H3 I); cbv beta iota.
      eexists false, _, [ee_Authenticate; ee_Initialize None None None].
      split; [reflexivity|]. cbn. rewrite <- !app_assoc.
      split; [reflexivity|]. split; [eauto|].
      split; [repeat constructor; congruence|]. split; [discriminate | reflexivity].
    + cbv beta iota; cbn [calls environ existing_paths secrets dotenv_file logged shown printed].
      destruct (libs _ ee_Image_getInfo) as [e4|] eqn:H4.
      * cbv beta iota; rewrite (Hexc _ _ _ H4 I); cbv beta iota.
        eexists false, _, [ee_Authenticate; ee_Initialize None None None; ee_Image_getInfo].
        split; [reflexivity|]. cbn. rewrite <- !app_assoc.
        split; [reflexivity|]. split; [eauto|].
        split; [repeat constructor; congruence|]. split; [discriminate | reflexivity].
      * eexists true, _, [ee_Authenticate; ee_Initialize None None None; ee_Image_getInfo].
        split; [reflexivity|]. cbn.
        split; [rewrite <- !app_assoc; reflexivity|]. split; [eauto|].
        split; [repeat constructor; congruence|].
        split; [intros _; eexists; split; [reflexivity | exact H4] | reflexivity].
Qed.

(** X19: with libraries that raise [Exception]s only, [check_gee_auth]
    returns a boolean.  It always calls [ee.Authenticate] first, before any
    initialisation and whether or not credentials are stored; it never
    initialises Earth Engine for the placeholder project "your-project-id";
    and it returns [True] only when its last call, the connection test
    [ee.Image(1).getInfo()], returned. *)
Theorem check_gee_auth_authenticates_first (libs : Libs) (w : World) :
  (forall history c e, libs history c = Some e -> is_Exception e = true) ->
  exists (b : bool) (w' : World) (later : list LibCall),
    run_dashboard.check_gee_auth libs w = (inr b, w') /\
    calls w' = (calls w ++ import_module "ee" :: later)%list /\
    (libs (calls w) (import_module "ee") = None ->
     exists later', later = ee_Authenticate :: later') /\
    (forall credentials url,
        ee_Initialize credentials (Some "your-project-id") url ∉ later) /\
    (b = true ->
     exists history,
       calls w' = (history ++ [ee_Image_getInfo])%list /\
       libs history ee_Image_getInfo = None).
Proof.
  intros Hexc.
  destruct (check_gee_auth_run libs w (fun history c e H _ => Hexc history c e H))
    as (b & w' & later & Hrun & Hcalls & Hfirst & Hall & Htrue & _).
  exists b, w', later. repeat (split; [assumption|]). split; [|exact Htrue].
  intros credentials url Hin. rewrite Forall_forall in Hall.
  exact (proj2 (Hall _ Hin) credentials url eq_refl).
Qed.

Lemma check_gee_auth_authenticates_first_witness :
  exists (w' : World) (later : list LibCall),
    run_dashboard.check_gee_auth Startup.all_fine
      (Startup.world {["GEE_PROJECT_ID" := "your-project-id"]}) = (inr true, w') /\
    calls w' = import_module "ee" :: ee_Authenticate :: later /\
    ee_Initialize None (Some "your-project-id") None ∉ later.
Proof.
  destruct (check_gee_auth_authenticates_first Startup.all_fine
              (Startup.world {["GEE_PROJECT_ID" := "your-project-id"]}))
    as (b & w' & later & Hrun & Hcalls & Hfirst & Hplace & _).
  - discriminate.
  - destruct (Hfirst eq_refl) as (later' & ->).
    assert (Hb : b = true).
    { assert (Hfst : (run_dashboard.check_gee_auth Startup.all_fine
                        (Startup.world {["GEE_PROJECT_ID" := "your-project-id"]})).1
                     = inr true) by (vm_compute; reflexivity).
      rewrite Hrun in Hfst. injection Hfst as ->. reflexivity. }
    subst b. exists w', later'. split; [exact Hrun|]. split; [exact Hcalls|].
    intros Hin. apply (Hplace None None). right. exact Hin.
Defined.

(** ** Launch: [setup_environment] and [main] *)

(** X20: [setup_environment] never changes a variable that is already set
    (the .env file only adds variables), whatever the libraries do; a
    variable it adds has the value the .env file gives it; it never raises
    an [ImportError]; and without a .env file under the project root it
    makes no library call and leaves the environment as it is. *)
Theorem setup_environment_never_overrides
    (libs : Libs) (project_root : string) (w w' : World) (r : Raise + unit) :
  run_dashboard.setup_environment libs project_root w = (r, w') ->
  (forall key value : string,
      environ w !! key = Some value -> environ w' !! key = Some value) /\
  (forall key : string,
      environ w !! key = None ->
      environ w' !! key = None \/ environ w' !! key = dotenv_file w !! key) /\
  (forall e : Raise, r = inl e -> is_ImportError e = false) /\
  (path_join project_root ".env" ∉ existing_paths w ->
   r = inr tt /\ calls w' = calls w /\ environ w' = environ w).
Proof.
  unfold run_dashboard.setup_environment, run_dashboard.load_dotenv_into_environ,
    io_try, io_bind, path_exists, lib, print, set_environ.
  destruct (bool_decide (path_join project_root ".env" ∈ existing_paths w)) eqn:Hex.
  - apply bool_decide_eq_true_1 in Hex.
    destruct (libs (calls w) (import_module "dotenv")) as [e0|] eqn:H0.
    + destruct (is_ImportError e0) eqn:Hclass; intros [= <- <-]; cbn;
        (split; [auto|]); (split; [auto|]); (split; [|tauto]).
      * discriminate.
      * intros e [= <-]. exact Hclass.
    + cbv beta iota; cbn [calls environ existing_paths secrets dotenv_file logged shown printed].
      destruct (libs _ (load_dotenv _)) as [e1|] eqn:H1.
      * destruct (is_ImportError e1) eqn:Hclass; intros [= <- <-]; cbn;
          (split; [auto|]); (split; [auto|]); (split; [|tauto]).
        -- discriminate.
        -- intros e [= <-]. exact Hclass.
      * intros [= <- <-]. cbn. split; [|split; [|split; [discriminate | tauto]]].
        -- intros key value Hkey. apply lookup_union_Some_l, Hkey.
        -- intros key Hkey. right. rewrite lookup_union_r by exact Hkey. reflexivity.
  - apply bool_decide_eq_false_1 in Hex. intros [= <- <-]. cbn.
    split; [auto|]. split; [auto|]. split; [discriminate | auto].
Qed.

Lemma setup_environment_never_overrides_witness :
  exists w' : World,
    run_dashboard.setup_environment Startup.all_fine "/srv/dashboard" Startup.dotenv_world
    = (inr tt, w') /\
    environ w' !! "GEE_PROJECT_ID" = Some "from-the-shell" /\
    environ w' !! "DASHBOARD_PORT" = Some "8501".
Proof.
  eassert (Hrun : run_dashboard.setup_environment Startup.all_fine "/srv/dashboard"
                    Startup.dotenv_world = (inr tt, _)) by (vm_compute; reflexivity).
  destruct (setup_environment_never_overrides Startup.all_fine "/srv/dashboard"
              Startup.dotenv_world _ _ Hrun) as (Hkeep & _).
  eexists. split; [exact Hrun|]. split.
  - apply Hkeep. vm_compute. reflexivity.
  - vm_compute. reflexivity.
Defined.

Lemma setup_environment_run (libs : Libs) (project_root : string) (w : World) :
  (forall history name e,
      libs history (import_module name) = Some e -> is_ImportError e = true) ->
  (forall history path, libs history (load_dotenv path) = None) ->
  exists (w' : World) (later : list LibCall),
    run_dashboard.setup_environment libs project_root w = (inr tt, w') /\
    calls w' = (calls w ++ later)%list /\
    Forall import_or_dotenv later.
Proof.
  intros Himp Hdot.
  unfold run_dashboard.setup_environment, run_dashboard.load_dotenv_into_environ,
    io_try, io_bind, path_exists, lib, print, set_environ.
  destruct (bool_decide (path_join project_root ".env" ∈ existing_paths w)).
  - destruct (libs (calls w) (import_module "dotenv")) as [e0|] eqn:H0.
    + rewrite (Himp _ _ _ H0). eexists _, [_]. split; [reflexivity|]. cbn.
      split; [reflexivity | repeat constructor].
    + cbv beta iota; cbn [calls environ existing_paths secrets dotenv_file logged shown printed].
      rewrite Hdot. eexists _, [_; _]. split; [reflexivity|]. cbn.
      split; [rewrite <- app_assoc; reflexivity | repeat constructor].
  - eexists _, []. split; [reflexivity|]. cbn.
    split; [rewrite app_nil_r; reflexivity | constructor].
Qed.

Lemma missing_package (installed : string -> bool) :
  (exists name : string,
      In name ["streamlit"; "geemap"; "ee"; "folium"; "plotly"; "pandas"] /\
      installed name = false) ->
  List.map fst (List.filter (fun c => negb (installed c.2)) run_dashboard.required_checks)
  <> [].
Proof.
  intros (name & Hin & Hname) Hnone.
  assert (Hpair : exists package, In (package, name) run_dashboard.required_checks).
  { cbn in Hin. unfold run_dashboard.required_checks.
    destruct Hin as [<-|[<-|[<-|[<-|[<-|[<-|[]]]]]]]; eexists; cbn; eauto 10. }
  destruct Hpair as (package & Hpair).
  assert (Hf : In (package, name)
                 (List.filter (fun c => negb (installed c.2)) run_dashboard.required_checks)).
  { apply filter_In. split; [exact Hpair|]. cbn. rewrite Hname. reflexivity. }
  apply (in_map fst) in Hf. rewrite Hnone in Hf. destruct Hf.
Qed.


Lemma bind_run {A B} (m : IO A) (k : A -> IO B) (w : World) (a : A) (w1 : World) :
  m w = (inr a, w1) -> io_bind m k w = k a w1.
Proof. intros H. unfold io_bind. rewrite H. reflexivity. Qed.

Lemma bind_print {B} (msg : string) (k : unit -> IO B) (w : World) :
  exists w1 : World, io_bind (print msg) k w = k tt w1 /\ calls w1 = calls w.
Proof. eexists. split; reflexivity. Qed.

(** The next statement of the run is a [print]. *)
Ltac skip_print w1 Hc :=
  match goal with
  | |- context [io_bind (print ?msg) ?k ?w0] =>
      destruct (bind_print msg k w0) as (w1 & -> & Hc)
  end.


(** X21: when a required package cannot be imported, [main] exits with
    status 1 ([sys.exit(1)]) before it touches Earth Engine or starts
    Streamlit: the only library calls made are imports and the loading of
    the .env file. *)
Theorem main_exits_when_package_missing
    (libs : Libs) (installed : string -> bool) (sys_executable project_root : string)
    (w : World) :
  (forall (history : list LibCall) (name : string),
      match libs history (import_module name) with
      | None => installed name = true
      | Some e => installed name = false /\ is_ImportError e = true
      end) ->
  (forall history path, libs history (load_dotenv path) = None) ->
  (exists name : string,
      In name ["streamlit"; "geemap"; "ee"; "folium"; "plotly"; "pandas"] /\
      installed name = false) ->
  exists (w' : World) (later : list LibCall),
    run_dashboard.main libs sys_executable project_root w
    = (inl {| exc_class := SystemExit 1; exc_message := "" |}, w') /\
    calls w' = (calls w ++ later)%list /\
    Forall import_or_dotenv later.
Proof.
  intros Himp Hdot Hmissing.
  assert (Himport : forall history name e,
             libs history (import_module name) = Some e -> is_ImportError e = true).
  { intros history name e H. pose proof (Himp history name) as Hn. rewrite H in Hn.
    exact (proj2 Hn). }
  unfold run_dashboard.main.
  skip_print w01 H01. skip_print w02 H02.
  destruct (setup_environment_run libs project_root w02 Himport Hdot)
    as (w1 & l1 & Hrun1 & Hc1 & Hl1).
  rewrite (bind_run _ _ _ _ _ Hrun1).
  destruct (check_requirements_run libs installed Himp w1) as (w2 & Hrun2 & Hc2 & _).
  rewrite (bind_run _ _ _ _ _ Hrun2).
  destruct (List.map fst _) eqn:Hm; [destruct (missing_package installed Hmissing Hm)|].
  exists w2. eexists. split; [reflexivity|].
  rewrite Hc2, Hc1, H02, H01, <- app_assoc. split; [reflexivity|].
  apply Forall_app. split; [exact Hl1 | repeat constructor].
Qed.

Lemma main_exits_when_package_missing_witness :
  exists (w' : World) (later : list LibCall),
    run_dashboard.main Startup.no_plotly "/usr/bin/python3" "/srv/dashboard" (Startup.world ∅)
    = (inl {| exc_class := SystemExit 1; exc_message := "" |}, w') /\
    calls w' = later /\
    Forall import_or_dotenv later.
Proof.
  apply (main_exits_when_package_missing Startup.no_plotly
           (fun name => negb (String.eqb name "plotly"))).
  - intros history name. cbn.
    destruct (String.eqb_spec name "plotly") as [->|Hne]; [split; reflexivity|].
    destruct name as [|a name]; [reflexivity|].
    repeat match goal with
           | |- match (match ?x with _ => _ end) with _ => _ end => destruct x; try reflexivity
           | |- match (if ?x then _ else _) with _ => _ end => destruct x; try reflexivity
           end.
    congruence.
  - reflexivity.
  - exists "plotly". split; [cbn; auto 10 | reflexivity].
Defined.


